(** * BcmPortGroup: lane-mode calculation and reconfiguration

    A shallow embedding of [fboss/agent/hw/bcm/BcmPortGroup.cpp].

    Pure helpers of the anonymous namespace become functions into [Result]
    (a C++ call returns, throws an [FbossError], or has undefined
    behaviour).  Member functions of [BcmPortGroup] thread an explicit
    [State] (the fields of [this], the port table of [hw_] and the trace of
    calls made to the SDK and to the collaborators). *)

From Stdlib Require Import ZArith Lia String.
From stdpp Require Import base option list numbers gmap sorting.

Local Open Scope Z_scope.
#[local] Set Warnings "-clear-no-such-hyp".

(** ** Data model *)

(** [cfg::PortSpeed] is a thrift enum; the code only ever compares it and
    casts it to [int], so it is modelled by its integer value (Mbps). *)
Definition PortSpeed := Z.

(** Modelled from the spec: the enum is declared in the thrift
    configuration, which is not part of the sources.  [DEFAULT] is the
    "unspecified/default" sentinel, the zero value of the enum; the other
    enumerators are speeds in Mbps. *)
Definition DEFAULT : PortSpeed := 0.
Definition XG : PortSpeed := 10000.
Definition TWENTYG : PortSpeed := 20000.
Definition TWENTYFIVEG : PortSpeed := 25000.
Definition FORTYG : PortSpeed := 40000.
Definition FIFTYG : PortSpeed := 50000.
Definition HUNDREDG : PortSpeed := 100000.

(** [LaneSpeeds]: the lane speeds a port supports, in iteration order. *)
Definition LaneSpeeds := list PortSpeed.

Definition PortID := Z.
Definition bcm_port_t := Z.
Definition ProfileID := Z.

(** Modelled from the spec: [BcmPortGroup::LaneMode] is declared in
    [BcmPortGroup.h], which is not part of the sources; it is the ordered
    enumeration SINGLE=1, DUAL=2, QUAD=4.  The code casts integers to it
    and compares it with [>], so a value of the type is modelled by the
    integer it holds. *)
Definition LaneMode := Z.
Definition SINGLE : LaneMode := 1.
Definition DUAL : LaneMode := 2.
Definition QUAD : LaneMode := 4.

(** Conversion of an [int] to the [uint8_t] parameter of
    [numLanesToLaneMode]. *)
Definition to_uint8 (z : Z) : Z := z mod 256.

(** The software port of the switch state ([state/Port.h]). *)
Record Port := mkPort {
  getID : PortID;
  getName : string;
  isEnabled : bool;
  getSpeed : PortSpeed;
  getProfileID : ProfileID;
}.

(** [phy::PortProfileConfig], as far as the code reads it. *)
Record ProfileSideConfig := { numLanes : Z }.
Record PortProfileConfig := { iphy : ProfileSideConfig }.

(** The five per-port switch controls of [setPortSpecificControls]. *)
Inductive SwitchControl :=
| bcmSwitchArpRequestToCpu
| bcmSwitchArpReplyToCpu
| bcmSwitchDhcpPktDrop
| bcmSwitchDhcpPktToCpu
| bcmSwitchNdPktToCpu.

Definition kBcmL2DeleteStatic : Z := 1.
Definition kBcmL2DeletePending : Z := 2.

(** Calls that leave the group: SDK calls, calls on the [BcmPort] and
    platform-port collaborators, on the resource builder and on the port
    table.  The trace of a run is the list of these, oldest first. *)
Inductive Event :=
| PortControlGetLanes (unit : Z) (port : bcm_port_t)
| PortControlSetLanes (unit : Z) (port : bcm_port_t) (lanes : Z)
| SwitchControlPortSet (unit : Z) (port : bcm_port_t) (ctl : SwitchControl) (enable : bool)
| L2AddrDeleteByPort (unit : Z) (port : bcm_port_t) (flags : Z)
| DisableLinkscan (port : PortID)
| DisablePort (port : PortID)
| EnableLinkscan (port : PortID)
| BuilderRemovePorts (ports : list PortID)
| BuilderAddPorts (ports : list PortID)
| BuilderProgram
| PortTableRemove (port : PortID)
| PortTableAdd (port : PortID) (handle : nat)
| RegisterInPortGroup (handle : nat)
| LinkSpeedChanged (port : PortID) (speed : PortSpeed).

(** The failures of the code.  Every one is an [FbossError] (or the
    [BcmError] of [bcmCheckError]); the constructor records which [throw]
    raised it, under the name the specification gives the failure. *)
Inductive FbossError :=
| InvalidConfig                        (* "Speed cannot be DEFAULT if flexports are enabled" *)
| UnsupportedSpeed (speed : PortSpeed) (* "Cannot support speed " *)
| InvalidPlacement (lane : Z) (mode : LaneMode)
                                       (* "Only lane 0 can be enabled in QUAD mode",
                                          "Only lanes 0 or 2 can be enabled in DUAL mode" *)
| InvalidLaneCount (n : Z)             (* "Unexpected number of lanes retrieved for bcm port " *)
| UnknownProfile (name : string) (profile : ProfileID)
                                       (* "... has unsupported speed profile: " *)
| PortSpeedNotSupported (port : PortID) (speed : PortSpeed)
                                       (* "Port ... does not support speed " *)
| SwPortNotFound (port : PortID)       (* "Can't find sw port: " *)
| BcmPortNotFound (port : PortID)      (* thrown by BcmPortTable::getBcmPort *)
| UnsupportedPlatformOperation (port : PortID)
                                       (* "... doesn't support add or remove ports via port resource apis" *)
| HardwareCallFailure (rv : Z) (call : Event).  (* bcmCheckError *)

(** Outcome of a C++ call. *)
Inductive Result (A : Type) :=
| Ret (a : A)
| Throw (e : FbossError)
| Undefined.
Arguments Ret {A} a.
Arguments Throw {A} e.
Arguments Undefined {A}.

#[global] Instance Result_ret : MRet Result := @Ret.
#[global] Instance Result_bind : MBind Result := fun A B f m =>
  match m with
  | Ret a => f a
  | Throw e => Throw e
  | Undefined => Undefined
  end.

(** [try { body } catch (const std::exception&) { handler }] *)
Definition try_catch {A} (body : Result A) (handler : FbossError -> Result A) : Result A :=
  match body with
  | Throw e => handler e
  | r => r
  end.

(** ** Helpers of the anonymous namespace *)

(** [std::div] on [int]: undefined when the divisor is zero or the quotient
    is not representable; otherwise quotient truncated towards zero. *)
Record div_t := { quot : Z; rem : Z }.
Definition INT_MIN : Z := - 2 ^ 31.
Definition std_div (x y : Z) : option div_t :=
  if (y =? 0) || ((x =? INT_MIN) && (y =? -1)) then None
  else Some {| quot := Z.quot x y; rem := Z.rem x y |}.

(** The [for] loop of [neededLaneModeForSpeed] and the [throw] after it. *)
Fixpoint neededLaneModeForSpeed_loop (speed : PortSpeed) (laneSpeeds : LaneSpeeds)
  : Result LaneMode :=
  match laneSpeeds with
  | [] => Throw (UnsupportedSpeed speed)
  | laneSpeed :: rest =>
    match std_div speed laneSpeed with
    | None => Undefined
    | Some dv =>
      if negb (rem dv =? 0) then neededLaneModeForSpeed_loop speed rest
      else
        let neededLanes := quot dv in
        if neededLanes =? 1 then Ret SINGLE
        else if neededLanes =? 2 then Ret DUAL
        else if (2 <? neededLanes) && (neededLanes <=? 4) then Ret QUAD
        else neededLaneModeForSpeed_loop speed rest
    end
  end.

Definition neededLaneModeForSpeed (speed : PortSpeed) (laneSpeeds : LaneSpeeds)
  : Result LaneMode :=
  if speed =? DEFAULT then Throw InvalidConfig
  else neededLaneModeForSpeed_loop speed laneSpeeds.

Definition checkLaneModeisValid (lane : Z) (desiredMode : LaneMode) : Result unit :=
  if desiredMode =? QUAD then
    if negb (lane =? 0) then Throw (InvalidPlacement lane desiredMode) else Ret tt
  else if desiredMode =? DUAL then
    if negb (lane =? 0) && negb (lane =? 2) then Throw (InvalidPlacement lane desiredMode)
    else Ret tt
  else Ret tt.

Fixpoint getSwPortIf (ports : list Port) (id : PortID) : option Port :=
  match ports with
  | [] => None
  | port :: rest => if getID port =? id then Some port else getSwPortIf rest id
  end.

Definition getSwPort (ports : list Port) (id : PortID) : Result Port :=
  match getSwPortIf ports id with
  | Some port => Ret port
  | None => Throw (SwPortNotFound id)
  end.

(** ** Static members of [BcmPortGroup] *)

(** [static_cast<LaneMode>(numLanes)] cannot throw, so the handler of the
    [try] block is never entered. *)
Definition numLanesToLaneMode (numLanes : Z) : Result LaneMode :=
  try_catch (Ret numLanes) (fun _ => Throw (InvalidLaneCount numLanes)).

(** The loop of [calculateDesiredLaneMode], from index [lane] on. *)
Fixpoint calculateDesiredLaneMode_from (ports : list Port) (laneSpeeds : LaneSpeeds)
    (lane : Z) (desiredMode : LaneMode) : Result LaneMode :=
  match ports with
  | [] => Ret desiredMode
  | port :: rest =>
    if isEnabled port then
      neededMode ← neededLaneModeForSpeed (getSpeed port) laneSpeeds;
      let desiredMode := if neededMode >? desiredMode then neededMode else desiredMode in
      _ ← checkLaneModeisValid lane desiredMode;
      calculateDesiredLaneMode_from rest laneSpeeds (lane + 1) desiredMode
    else calculateDesiredLaneMode_from rest laneSpeeds (lane + 1) desiredMode
  end.

Definition calculateDesiredLaneMode (ports : list Port) (laneSpeeds : LaneSpeeds)
  : Result LaneMode :=
  calculateDesiredLaneMode_from ports laneSpeeds 0 SINGLE.

(** The body of the loop of [calculateDesiredLaneModeFromConfig] for an
    enabled port: the lane mode its profile asks for. *)
Definition neededModeFromProfile (port : Port)
    (supportedProfiles : gmap ProfileID PortProfileConfig) : Result LaneMode :=
  match supportedProfiles !! getProfileID port with
  | None => Throw (UnknownProfile (getName port) (getProfileID port))
  | Some profileCfg => numLanesToLaneMode (to_uint8 (numLanes (iphy profileCfg)))
  end.

Fixpoint calculateDesiredLaneModeFromConfig_from (ports : list Port)
    (supportedProfiles : gmap ProfileID PortProfileConfig) (desiredMode : LaneMode)
  : Result LaneMode :=
  match ports with
  | [] => Ret desiredMode
  | port :: rest =>
    if isEnabled port then
      neededMode ← neededModeFromProfile port supportedProfiles;
      let desiredMode := if neededMode >? desiredMode then neededMode else desiredMode in
      calculateDesiredLaneModeFromConfig_from rest supportedProfiles desiredMode
    else calculateDesiredLaneModeFromConfig_from rest supportedProfiles desiredMode
  end.

Definition calculateDesiredLaneModeFromConfig (ports : list Port)
    (supportedProfiles : gmap ProfileID PortProfileConfig) : Result LaneMode :=
  calculateDesiredLaneModeFromConfig_from ports supportedProfiles SINGLE.

(** ** Collaborators

    The classes below are declared outside this translation unit; they
    are modelled by the data the code reads from them. *)

(** A [BcmPort] object.  [handle] is the identity of the object (what a
    [BcmPort*] points to); the other fields are fixed at construction. *)
Record BcmPort := mkBcmPort {
  handle : nat;
  getPortID : PortID;
  getBcmPortId : bcm_port_t;
  supportsSpeed : PortSpeed -> bool;
  supportedLaneSpeeds : LaneSpeeds;
  shouldUsePortResourceAPIs : bool;  (* getPlatformPort()->shouldUsePortResourceAPIs() *)
}.

(** An entry of the platform mapping ([cfg::PlatformPortEntry]), as far
    as the code reads it: [port.mapping.id]. *)
Record PlatformPortEntry := { mapping_id : PortID }.

(** The switch state, as far as the group reads it: its ports. *)
Record SwitchState := { getPorts : list Port }.

(** [state->getPorts()->getPortIf(id)] *)
Definition getPortIf (state : SwitchState) (id : PortID) : option Port :=
  getSwPortIf (getPorts state) id.

(** [bcmPort->getSwitchStatePort(state)]: the port of the state with the
    identifier of [bcmPort]; the lookup throws when the state has none. *)
Definition getSwitchStatePort (bcmPort : BcmPort) (state : SwitchState) : Result Port :=
  getSwPort (getPorts state) (getPortID bcmPort).

(** What does not change during a run: the platform, and how the
    hardware and the resource builder answer. *)
Record Env := {
  getUnit : Z;                                   (* hw_->getUnit() *)
  platformPorts : list PlatformPortEntry;        (* getPlatform()->getPlatformPorts() *)
  getPlatformPortsByControllingPort : list PlatformPortEntry -> PortID -> list PlatformPortEntry;
                          (* utility::getPlatformPortsByControllingPort *)
  supportedProfiles : option (gmap ProfileID PortProfileConfig);
                          (* config()->thrift.platform.supportedProfiles_ref() *)
  supportsAddRemovePort : bool;                  (* getPlatform()->supportsAddRemovePort() *)
  sdk : list Event -> Event -> Z;    (* status of a call, given the calls made before it *)
  activeLanes : list Event -> bcm_port_t -> Z;   (* what bcm_port_control_get reads *)
  builderAdded : LaneMode -> list Port -> list Port;
                          (* the ports BcmPortResourceBuilder::addPorts reports as added *)
  bcmPortIdOf : PortID -> bcm_port_t;            (* attributes of a port created by addBcmPort *)
  supportsSpeedOf : PortID -> PortSpeed -> bool;
  laneSpeedsOf : PortID -> LaneSpeeds;
  usesPortResourceAPIs : PortID -> bool;
}.

(** The mutable state: the fields of the group, the port table of [hw_]
    and the trace of calls. *)
Record State := mkState {
  controllingPort_ : BcmPort;
  allPorts_ : list BcmPort;
  laneMode_ : LaneMode;
  portTable : gmap PortID BcmPort;   (* BcmPortTable: identifier to live object *)
  registered : gset nat;             (* objects whose port group is this group *)
  nextHandle : nat;                  (* identity of the next object created *)
  trace : list Event;
}.

Definition set_controllingPort (p : BcmPort) (st : State) : State :=
  mkState p (allPorts_ st) (laneMode_ st) (portTable st) (registered st)
          (nextHandle st) (trace st).
Definition set_allPorts (l : list BcmPort) (st : State) : State :=
  mkState (controllingPort_ st) l (laneMode_ st) (portTable st) (registered st)
          (nextHandle st) (trace st).
Definition set_laneMode (m : LaneMode) (st : State) : State :=
  mkState (controllingPort_ st) (allPorts_ st) m (portTable st) (registered st)
          (nextHandle st) (trace st).
Definition set_portTable (t : gmap PortID BcmPort) (st : State) : State :=
  mkState (controllingPort_ st) (allPorts_ st) (laneMode_ st) t (registered st)
          (nextHandle st) (trace st).
Definition set_registered (r : gset nat) (st : State) : State :=
  mkState (controllingPort_ st) (allPorts_ st) (laneMode_ st) (portTable st) r
          (nextHandle st) (trace st).
Definition set_nextHandle (n : nat) (st : State) : State :=
  mkState (controllingPort_ st) (allPorts_ st) (laneMode_ st) (portTable st)
          (registered st) n (trace st).
Definition log (e : Event) (st : State) : State :=
  mkState (controllingPort_ st) (allPorts_ st) (laneMode_ st) (portTable st)
          (registered st) (nextHandle st) (trace st ++ [e]).

(** ** The monad of member functions

    A member function takes the state and gives an outcome and the state
    it leaves: an exception keeps what was done before the [throw]. *)
Definition M (A : Type) : Type := State -> Result A * State.

#[global] Instance M_ret : MRet M := fun A a st => (Ret a, st).
#[global] Instance M_bind : MBind M := fun A B f m st =>
  match m st with
  | (Ret a, st') => f a st'
  | (Throw e, st') => (Throw e, st')
  | (Undefined, st') => (Undefined, st')
  end.

Definition gets {A} (f : State -> A) : M A := fun st => (Ret (f st), st).
Definition modify (f : State -> State) : M unit := fun st => (Ret tt, f st).
Definition lift {A} (r : Result A) : M A := fun st => (r, st).
Definition throw {A} (e : FbossError) : M A := lift (Throw e).

(** [for (auto x : l) { body }] *)
Fixpoint forM_ {A} (l : list A) (body : A -> M unit) : M unit :=
  match l with
  | [] => mret tt
  | x :: rest => _ ← body x; forM_ rest body
  end.

(** [try { body } catch (const std::exception&) { return handler; }] *)
Definition M_try_catch {A} (body : M A) (handler : FbossError -> M A) : M A := fun st =>
  match body st with
  | (Throw e, st') => handler e st'
  | r => r
  end.

(** [std::sort] with the comparator [lPort->getPortID() < rPort->getPortID()]:
    the result is a permutation that does not decrease in the port
    identifier.  Which of two members with the same identifier comes first
    is left open by [std::sort]; the model keeps their order. *)
Definition portIDLe (lPort rPort : BcmPort) : Prop :=
  (getPortID lPort ≤ getPortID rPort)%Z.
#[global] Instance portIDLe_dec lPort rPort : Decision (portIDLe lPort rPort) :=
  Z_le_dec (getPortID lPort) (getPortID rPort).
Definition sortByPortID (ports : list BcmPort) : list BcmPort :=
  merge_sort portIDLe ports.

(** ** Member functions of [BcmPortGroup] *)

Section BcmPortGroup.
Variable env : Env.

(** An SDK call: it is recorded, and its status comes back. *)
Definition sdk_call (e : Event) : M Z := fun st =>
  (Ret (sdk env (trace st) e), log e st).

(** Modelled from the spec: [bcmCheckError(rv, ...)] is declared in
    [BcmError.h], which is not part of the sources.  A status that is not
    a success, that is a negative status, is thrown as a
    HardwareCallFailure which carries the status and the call. *)
Definition bcmCheckError (rv : Z) (e : Event) : M unit :=
  if rv <? 0 then throw (HardwareCallFailure rv e) else mret tt.

(** A call that checks its own status: the methods of [BcmPort] and of
    [BcmPortResourceBuilder] that drive the SDK. *)
Definition checked_call (e : Event) : M unit :=
  rv ← sdk_call e; bcmCheckError rv e.

(** A call that is only recorded. *)
Definition notify (e : Event) : M unit := modify (log e).

Definition setLanesControl (unit_ : Z) (port : bcm_port_t) (lanes : Z) : M unit :=
  rv ← sdk_call (PortControlSetLanes unit_ port lanes);
  bcmCheckError rv (PortControlSetLanes unit_ port lanes).

(** *** Methods of the collaborators *)

Definition disableLinkscan (bcmPort : BcmPort) : M unit :=
  checked_call (DisableLinkscan (getPortID bcmPort)).
Definition disable (bcmPort : BcmPort) (swPort : Port) : M unit :=
  checked_call (DisablePort (getPortID bcmPort)).
Definition enableLinkscan (bcmPort : BcmPort) : M unit :=
  checked_call (EnableLinkscan (getPortID bcmPort)).

(** [port->getPlatformPort()->linkSpeedChanged(speed)] *)
Definition linkSpeedChanged (bcmPort : BcmPort) (speed : PortSpeed) : M unit :=
  notify (LinkSpeedChanged (getPortID bcmPort) speed).

(** [member->registerInPortGroup(this)] *)
Definition registerInPortGroup (member : BcmPort) : M unit :=
  _ ← modify (fun st => set_registered ({[handle member]} ∪ registered st) st);
  notify (RegisterInPortGroup (handle member)).

(** Modelled from the spec: the PortTable sub-capability
    ([removeEntry], [addEntry], [lookup]) is [BcmPortTable], which is not
    part of this translation unit.  Removing an entry destroys its object;
    adding one creates a new object from the platform's data for that
    identifier; [getBcmPort] throws when the identifier has no entry. *)
Definition removeBcmPort (id : PortID) : M unit :=
  _ ← modify (fun st =>
        match portTable st !! id with
        | Some old =>
          set_registered (registered st ∖ {[handle old]})
            (set_portTable (delete id (portTable st)) st)
        | None => st
        end);
  notify (PortTableRemove id).

Definition newBcmPort (id : PortID) (h : nat) : BcmPort :=
  {| handle := h;
     getPortID := id;
     getBcmPortId := bcmPortIdOf env id;
     supportsSpeed := supportsSpeedOf env id;
     supportedLaneSpeeds := laneSpeedsOf env id;
     shouldUsePortResourceAPIs := usesPortResourceAPIs env id |}.

Definition addBcmPort (id : PortID) : M unit :=
  h ← gets nextHandle;
  _ ← modify (fun st =>
        set_nextHandle (S h) (set_portTable (<[id := newBcmPort id h]> (portTable st)) st));
  notify (PortTableAdd id h).

Definition getBcmPort (id : PortID) : M BcmPort :=
  table ← gets portTable;
  match table !! id with
  | Some bcmPort => mret bcmPort
  | None => throw (BcmPortNotFound id)
  end.

(** Modelled from the spec: the ResourceBuilder sub-capability
    ([removePorts], [addPorts], [program]) is [BcmPortResourceBuilder],
    which is not part of this translation unit. *)
Definition builder_removePorts (ports : list BcmPort) : M unit :=
  checked_call (BuilderRemovePorts (getPortID <$> ports)).
Definition builder_addPorts (desiredLaneMode : LaneMode) (ports : list Port)
  : M (list Port) :=
  _ ← checked_call (BuilderAddPorts (getID <$> ports));
  mret (builderAdded env desiredLaneMode ports).
Definition builder_program : M unit := checked_call BuilderProgram.

(** *** The group *)

Definition retrieveActiveLanes : M Z :=
  port ← gets (fun st => getBcmPortId (controllingPort_ st));
  lanes ← gets (fun st => activeLanes env (trace st) port);
  rv ← sdk_call (PortControlGetLanes (getUnit env) port);
  _ ← bcmCheckError rv (PortControlGetLanes (getUnit env) port);
  mret lanes.

(** The constructor: the member initialisers, then the body. *)
Definition BcmPortGroup_ctor (controllingPort : BcmPort) (allPorts : list BcmPort)
  : M unit :=
  _ ← modify (set_controllingPort controllingPort);
  _ ← modify (set_allPorts allPorts);
  _ ← modify (fun st => set_allPorts (sortByPortID (allPorts_ st)) st);
  activeLanes ← retrieveActiveLanes;
  laneMode ← lift (numLanesToLaneMode (to_uint8 activeLanes));
  modify (set_laneMode laneMode).

(** The [else] branch of [getSwPorts]: one software port per member. *)
Fixpoint getSwPorts_members (state : SwitchState) (bcmPorts : list BcmPort)
  : Result (list Port) :=
  match bcmPorts with
  | [] => Ret []
  | bcmPort :: rest =>
    swPort ← getSwitchStatePort bcmPort state;
    if negb (supportsSpeed bcmPort (getSpeed swPort)) then
      Throw (PortSpeedNotSupported (getID swPort) (getSpeed swPort))
    else
      ports ← getSwPorts_members state rest;
      Ret (swPort :: ports)
  end.

Definition getSwPorts (state : SwitchState) : M (list Port) :=
  if negb (bool_decide (platformPorts env = [])) then
    controllingPort ← gets controllingPort_;
    let portList :=
      getPlatformPortsByControllingPort env (platformPorts env)
        (getPortID controllingPort) in
    mret (omap (fun port => getPortIf state (mapping_id port)) portList)
  else
    allPorts ← gets allPorts_;
    lift (getSwPorts_members state allPorts).

Definition getLane (bcmPort : BcmPort) : M Z :=
  controllingPort ← gets controllingPort_;
  mret (to_uint8 (getBcmPortId bcmPort - getBcmPortId controllingPort)).

(** The lane mode the ports ask for: from the profiles when the platform
    has a table of them, else from the speeds. *)
Definition desiredLaneModeOf (ports : list Port) : M LaneMode :=
  match supportedProfiles env with
  | Some profiles => lift (calculateDesiredLaneModeFromConfig ports profiles)
  | None =>
    controllingPort ← gets controllingPort_;
    lift (calculateDesiredLaneMode ports (supportedLaneSpeeds controllingPort))
  end.

Definition validConfiguration (state : SwitchState) : M bool :=
  M_try_catch
    (ports ← getSwPorts state;
     _ ← desiredLaneModeOf ports;
     mret true)
    (fun _ => mret false).

Definition portSpecificControls : list SwitchControl :=
  [bcmSwitchArpRequestToCpu; bcmSwitchArpReplyToCpu; bcmSwitchDhcpPktDrop;
   bcmSwitchDhcpPktToCpu; bcmSwitchNdPktToCpu].

Definition setPortSpecificControls (bcmPort : BcmPort) (enable : bool) : M unit :=
  forM_ portSpecificControls (fun ctl =>
    let call := SwitchControlPortSet (getUnit env) (getBcmPortId bcmPort) ctl enable in
    rv ← sdk_call call;
    bcmCheckError rv call).

(** The loop of [setActiveLanesWithFlexPortApi] over [addedPorts]: each
    port is written to the port table and read back into [newPorts]. *)
Fixpoint addToPortTable (addedPorts : list Port) : M (list BcmPort) :=
  match addedPorts with
  | [] => mret []
  | port :: rest =>
    _ ← addBcmPort (getID port);
    newPort ← getBcmPort (getID port);
    newPorts ← addToPortTable rest;
    mret (newPort :: newPorts)
  end.

Definition setActiveLanesWithFlexPortApi (ports : list Port) (desiredLaneMode : LaneMode)
  : M unit :=
  let unit_ := getUnit env in
  allPorts ← gets allPorts_;
  _ ← forM_ allPorts (fun port =>
        let del flags := L2AddrDeleteByPort unit_ (getBcmPortId port) flags in
        rv ← sdk_call (del kBcmL2DeleteStatic);
        _ ← bcmCheckError rv (del kBcmL2DeleteStatic);
        rv ← sdk_call (del kBcmL2DeletePending);
        _ ← bcmCheckError rv (del kBcmL2DeletePending);
        setPortSpecificControls port false);
  _ ← builder_removePorts allPorts;
  addedPorts ← builder_addPorts desiredLaneMode ports;
  _ ← builder_program;
  controllingPortID ← gets (fun st => getPortID (controllingPort_ st));
  _ ← forM_ allPorts (fun port => removeBcmPort (getPortID port));
  newPorts ← addToPortTable addedPorts;
  controllingPort ← getBcmPort controllingPortID;
  _ ← modify (set_controllingPort controllingPort);
  _ ← modify (set_allPorts newPorts);
  _ ← forM_ newPorts registerInPortGroup;
  _ ← forM_ newPorts (fun port => setPortSpecificControls port true);
  modify (set_laneMode desiredLaneMode).

Definition setActiveLanes (ports : list Port) (desiredLaneMode : LaneMode) : M unit :=
  controllingPort ← gets controllingPort_;
  if shouldUsePortResourceAPIs controllingPort then
    if negb (supportsAddRemovePort env) then
      throw (UnsupportedPlatformOperation (getPortID controllingPort))
    else setActiveLanesWithFlexPortApi ports desiredLaneMode
  else
    let basePort := getBcmPortId controllingPort in
    laneMode ← gets laneMode_;
    _ ← (if ((laneMode =? SINGLE) && (desiredLaneMode =? DUAL))
            || ((laneMode =? DUAL) && (desiredLaneMode =? SINGLE))
         then setLanesControl (getUnit env) basePort 4
         else mret tt);
    _ ← setLanesControl (getUnit env) basePort desiredLaneMode;
    modify (set_laneMode desiredLaneMode).

Definition reconfigureLaneMode (oldPorts newPorts : list Port) (newLaneMode : LaneMode)
  : M unit :=
  allPorts ← gets allPorts_;
  _ ← forM_ allPorts (fun bcmPort =>
        swPort ← lift (getSwPort oldPorts (getPortID bcmPort));
        _ ← disableLinkscan bcmPort;
        disable bcmPort swPort);
  _ ← setActiveLanes newPorts newLaneMode;
  forM_ newPorts (fun swPort =>
    bcmPort ← getBcmPort (getID swPort);
    if isEnabled swPort then enableLinkscan bcmPort else mret tt).

(** The last loop of [reconfigureIfNeeded]. *)
Definition notifySpeedChanges (oldPorts newPorts : list Port) (allPorts : list BcmPort)
  : M unit :=
  forM_ allPorts (fun port =>
    let oldPort := getSwPortIf oldPorts (getPortID port) in
    let newPort := getSwPortIf newPorts (getPortID port) in
    match oldPort, newPort with
    | Some oldPort, Some newPort =>
      if negb (getSpeed oldPort =? getSpeed newPort)
      then linkSpeedChanged port (getSpeed newPort)
      else mret tt
    | _, _ => mret tt
    end).

Definition reconfigureIfNeeded (oldState newState : SwitchState) : M unit :=
  oldPorts ← getSwPorts oldState;
  newPorts ← getSwPorts newState;
  desiredLaneMode ← desiredLaneModeOf newPorts;
  laneMode ← gets laneMode_;
  _ ← (if negb (desiredLaneMode =? laneMode)
       then reconfigureLaneMode oldPorts newPorts desiredLaneMode
       else mret tt);
  allPorts ← gets allPorts_;
  notifySpeedChanges oldPorts newPorts allPorts.

End BcmPortGroup.

(** * Other classes of the repository *)

(** ** [FakeAsic] ([hw/switch_asics/FakeAsic.h]) *)

Module FakeAsic.

(** [cfg::StreamType], a thrift enum declared outside the sources; the
    code names two of its values and compares a value with [UNICAST]. *)
Inductive StreamType := UNICAST | MULTICAST | ALL.

#[global] Instance StreamType_eq_dec : EqDecision StreamType.
Proof. solve_decision. Defined.

Inductive AsicType := ASIC_TYPE_FAKE.

(** [isSupported(Feature)], for any type of features. *)
Definition isSupported {Feature : Type} (feature : Feature) : bool := true.
Definition getAsicType : AsicType := ASIC_TYPE_FAKE.
Definition getMaxPortSpeed : PortSpeed := HUNDREDG.



Definition needsObjectKeyCache : bool := false.

End FakeAsic.

(** ** [SaiApiError] ([hw/sai/api/SaiApiError.h]) *)

Module Sai.

Definition sai_status_t := Z.
Definition sai_api_t := Z.

(** The exception: the status and the API type it was built with, and the
    pieces its message is made of, in order. *)
Record SaiApiError := mkSaiApiError {
  getSaiStatus : sai_status_t;
  getSaiApiType : sai_api_t;
  what : list string;
}.

(** A line written to the error log. *)
Definition LogLine := list string.

Section WithSai.
(** Declared in [sai.h] and [LoggingUtil.h], which are not part of the
    sources. *)
Variable SAI_STATUS_SUCCESS : sai_status_t.
Variable SAI_API_UNSPECIFIED : sai_api_t.
Variable saiApiTypeToString : sai_api_t -> string.
(** The status as [folly::to<std::string>] writes it in the message of
    the exception, and as [operator<<] writes it in the log. *)
Variable statusToString : sai_status_t -> string.
Variable streamStatus : sai_status_t -> string.

(** The constructor: the message is "[", the API name, "] ", the
    arguments, ": ", the status. *)
Definition newSaiApiError (status : sai_status_t) (apiType : sai_api_t)
    (args : list string) : SaiApiError :=
  {| getSaiStatus := status;
     getSaiApiType := apiType;
     what := ["["%string; saiApiTypeToString apiType; "] "%string] ++ args
             ++ [": "%string; statusToString status] |}.

(** A call that returns nothing or throws a [SaiApiError]. *)
Definition saiApiCheckError (status : sai_status_t) (apiType : sai_api_t)
    (args : list string) : option SaiApiError :=
  if negb (status =? SAI_STATUS_SUCCESS)
  then Some (newSaiApiError status apiType args)
  else None.

Definition saiCheckError (status : sai_status_t) (args : list string)
  : option SaiApiError :=
  if negb (status =? SAI_STATUS_SUCCESS)
  then Some (newSaiApiError status SAI_API_UNSPECIFIED args)
  else None.

(** [saiLogError] throws nothing; it gives the line it logs, if any. *)
Definition saiLogError (status : sai_status_t) (apiType : sai_api_t)
    (args : list string) : option LogLine :=
  if negb (status =? SAI_STATUS_SUCCESS)
  then Some (["["%string; saiApiTypeToString apiType; "]"%string] ++ args
             ++ [": "%string; streamStatus status])
  else None.

End WithSai.

End Sai.

(** * Vocabulary of the statements *)

(** [std::div speed laneSpeed] is defined. *)
Definition div_defined (speed laneSpeed : Z) : Prop :=
  laneSpeed <> 0 /\ ~ (speed = INT_MIN /\ laneSpeed = -1).

(** The loop passes over a candidate: the remainder is not zero, or the
    quotient is none of 1, 2, 3, 4. *)
Definition skipped (speed laneSpeed : Z) : Prop :=
  Z.rem speed laneSpeed <> 0 \/ 4 < Z.quot speed laneSpeed \/ Z.quot speed laneSpeed < 1.

(** The three enumerators of [LaneMode]. *)
Definition laneModeInRange (m : LaneMode) : Prop := m = SINGLE \/ m = DUAL \/ m = QUAD.

(** The lane count of the profile of a port, as a lane mode. *)
Definition profileLaneMode (profiles : gmap ProfileID PortProfileConfig) (port : Port)
  : option LaneMode :=
  (fun profileCfg => to_uint8 (numLanes (iphy profileCfg))) <$> profiles !! getProfileID port.

(** A member and the software port [getSwPorts] reads for it: the port of
    the state with the member's identifier, at a speed the member
    supports. *)
Definition memberPort (state : SwitchState) (bcmPort : BcmPort) (swPort : Port) : Prop :=
  getPortIf state (getPortID bcmPort) = Some swPort /\
  supportsSpeed bcmPort (getSpeed swPort) = true.

(** What a legacy reconfiguration that is accepted records: linkscan and
    port disabled for each member; the lane-count writes; linkscan enabled
    for the enabled ports of the new list. *)
Definition disableEvents (members : list BcmPort) : list Event :=
  mjoin ((fun bcmPort => [DisableLinkscan (getPortID bcmPort); DisablePort (getPortID bcmPort)])
           <$> members).

Definition laneWrites (env : Env) (st : State) (desiredLaneMode : LaneMode) : list Event :=
  let write lanes :=
    PortControlSetLanes (getUnit env) (getBcmPortId (controllingPort_ st)) lanes in
  (if ((laneMode_ st =? SINGLE) && (desiredLaneMode =? DUAL))
      || ((laneMode_ st =? DUAL) && (desiredLaneMode =? SINGLE))
   then [write 4] else [])
  ++ [write desiredLaneMode].

Definition enableLinkscanEvents (table : gmap PortID BcmPort) (newPorts : list Port)
  : list Event :=
  mjoin ((fun swPort =>
            match table !! getID swPort with
            | Some bcmPort =>
              if isEnabled swPort then [EnableLinkscan (getPortID bcmPort)] else []
            | None => []
            end) <$> newPorts).

(** Several calls recorded at once. *)
Definition logs (evs : list Event) (st : State) : State :=
  mkState (controllingPort_ st) (allPorts_ st) (laneMode_ st) (portTable st)
          (registered st) (nextHandle st) (trace st ++ evs).

(** Calls that change the hardware: register writes, port and linkscan
    switches, forwarding-entry purges and the resource builder. *)
Definition hw_mutating (e : Event) : bool :=
  match e with
  | PortControlSetLanes _ _ _ | SwitchControlPortSet _ _ _ _ | L2AddrDeleteByPort _ _ _
  | DisableLinkscan _ | DisablePort _ | EnableLinkscan _
  | BuilderRemovePorts _ | BuilderAddPorts _ | BuilderProgram => true
  | _ => false
  end.

(** Lane-count register writes and resource-builder operations. *)
Definition lane_write_or_builder (e : Event) : bool :=
  match e with
  | PortControlSetLanes _ _ _
  | BuilderRemovePorts _ | BuilderAddPorts _ | BuilderProgram => true
  | _ => false
  end.

Definition no_lane_write_or_builder (e : Event) : Prop := lane_write_or_builder e = false.

Definition is_linkSpeedChanged (e : Event) : bool :=
  match e with LinkSpeedChanged _ _ => true | _ => false end.

Definition not_linkSpeedChanged (e : Event) : Prop := is_linkSpeedChanged e = false.

(** All the calls a computation makes satisfy [P], whatever its outcome. *)
Definition emits_only {A} (P : Event -> Prop) (m : M A) : Prop :=
  forall st, exists evs, trace (m st).2 = trace st ++ evs /\ Forall P evs.

(** A computation that leaves a component of the state as it found it. *)
Definition keeps {A X} (proj : State -> X) (m : M A) : Prop :=
  forall st, proj (m st).2 = proj st.

(** A computation that changes nothing but the trace. *)
Definition records_only {A} (m : M A) : Prop :=
  forall st, exists evs, (m st).2 = logs evs st.

(** A computation that leaves the state as it found it. *)
Definition read_only {A} (m : M A) : Prop := forall st, (m st).2 = st.

(** The calls [setPortSpecificControls] makes for a port. *)
Definition portControlEvents (env : Env) (bcmPort : BcmPort) (enable : bool) : list Event :=
  (fun ctl => SwitchControlPortSet (getUnit env) (getBcmPortId bcmPort) ctl enable)
    <$> portSpecificControls.

(** The calls [setActiveLanesWithFlexPortApi] makes for a member before
    the ports are removed: both purges, then the five controls cleared. *)
Definition quiesceEvents (env : Env) (bcmPort : BcmPort) : list Event :=
  [L2AddrDeleteByPort (getUnit env) (getBcmPortId bcmPort) kBcmL2DeleteStatic;
   L2AddrDeleteByPort (getUnit env) (getBcmPortId bcmPort) kBcmL2DeletePending]
  ++ portControlEvents env bcmPort false.

(** The whole trace of a flex transition that returns. *)
Definition flexTransitionEvents (env : Env) (oldPorts : list BcmPort) (ports : list Port)
    (newPorts : list BcmPort) : list Event :=
  mjoin (quiesceEvents env <$> oldPorts)
  ++ [BuilderRemovePorts (getPortID <$> oldPorts); BuilderAddPorts (getID <$> ports);
      BuilderProgram]
  ++ (PortTableRemove <$> (getPortID <$> oldPorts))
  ++ ((fun bcmPort => PortTableAdd (getPortID bcmPort) (handle bcmPort)) <$> newPorts)
  ++ (RegisterInPortGroup <$> (handle <$> newPorts))
  ++ mjoin ((fun bcmPort => portControlEvents env bcmPort true) <$> newPorts).

(** The notifications the last loop of [reconfigureIfNeeded] owes. *)
Definition speedChangeNotifications (oldPorts newPorts : list Port)
    (members : list BcmPort) : list Event :=
  mjoin ((fun port =>
    match getSwPortIf oldPorts (getPortID port), getSwPortIf newPorts (getPortID port) with
    | Some oldPort, Some newPort =>
      if getSpeed oldPort =? getSpeed newPort then []
      else [LinkSpeedChanged (getPortID port) (getSpeed newPort)]
    | _, _ => []
    end) <$> members).






(** ** Concrete platforms and groups *)

Module Example.

Definition swPort (id : PortID) (enabled : bool) (speed : PortSpeed) : Port :=
  mkPort id "eth" enabled speed 0.

Definition bcmPort (flex : bool) (h : nat) (id : PortID) : BcmPort :=
  mkBcmPort h id id (fun _ => true) [XG; TWENTYFIVEG] flex.

(** A platform of the legacy kind: no platform mapping, no profiles, a
    hardware that accepts every call. *)
Definition legacyEnv : Env :=
  {| getUnit := 0;
     platformPorts := [];
     getPlatformPortsByControllingPort := fun platformPorts _ => platformPorts;
     supportedProfiles := None;
     supportsAddRemovePort := false;
     sdk := fun _ _ => 0;
     activeLanes := fun _ _ => 4;
     builderAdded := fun _ ports => filter (fun p => isEnabled p = true) ports;
     bcmPortIdOf := fun id => id;
     supportsSpeedOf := fun _ _ => true;
     laneSpeedsOf := fun _ => [XG; TWENTYFIVEG];
     usesPortResourceAPIs := fun _ => false |}.

(** A platform that uses the port resource APIs; the builder reports
    the enabled ports as added, in the order it was given them. *)
Definition flexEnv (addRemove : bool) : Env :=
  {| getUnit := 0;
     platformPorts := [];
     getPlatformPortsByControllingPort := fun platformPorts _ => platformPorts;
     supportedProfiles := None;
     supportsAddRemovePort := addRemove;
     sdk := fun _ _ => 0;
     activeLanes := fun _ _ => 1;
     builderAdded := fun _ ports => filter (fun p => isEnabled p = true) ports;
     bcmPortIdOf := fun id => id;
     supportsSpeedOf := fun _ _ => true;
     laneSpeedsOf := fun _ => [XG; TWENTYFIVEG];
     usesPortResourceAPIs := fun _ => true |}.

(** A group of four members, identifiers 1 to 4, in the given lane mode. *)
Definition group (flex : bool) (mode : LaneMode) : State :=
  let members := [bcmPort flex 0 1; bcmPort flex 1 2; bcmPort flex 2 3; bcmPort flex 3 4] in
  {| controllingPort_ := bcmPort flex 0 1;
     allPorts_ := members;
     laneMode_ := mode;
     portTable := list_to_map ((fun p => (getPortID p, p)) <$> members);
     registered := list_to_set (handle <$> members);
     nextHandle := 4;
     trace := [] |}.

(** Four enabled 10G ports; one enabled 40G port and three disabled ones. *)
Definition fourTenG : list Port :=
  [swPort 1 true XG; swPort 2 true XG; swPort 3 true XG; swPort 4 true XG].
Definition oneFortyG : list Port :=
  [swPort 1 true FORTYG; swPort 2 false XG; swPort 3 false XG; swPort 4 false XG].

End Example.

(** * Properties *)

(** ** Lane mode needed for a speed *)

Lemma std_div_defined speed laneSpeed :
  div_defined speed laneSpeed ->
  std_div speed laneSpeed
  = Some {| quot := Z.quot speed laneSpeed; rem := Z.rem speed laneSpeed |}.
Proof.
  intros [Hz Hov]. unfold std_div.
  destruct (Z.eqb_spec laneSpeed 0) as [|_]; [contradiction|].
  destruct (Z.eqb_spec speed INT_MIN) as [Hs|_]; [|reflexivity].
  destruct (Z.eqb_spec laneSpeed (-1)) as [Hl|_]; [|reflexivity].
  exfalso. apply Hov. split; assumption.
Qed.

Lemma div_defined_pos speed laneSpeed : 0 < laneSpeed -> div_defined speed laneSpeed.
Proof. intros H. split; lia. Qed.

Lemma neededLaneModeForSpeed_loop_skip speed laneSpeed rest :
  div_defined speed laneSpeed -> skipped speed laneSpeed ->
  neededLaneModeForSpeed_loop speed (laneSpeed :: rest)
  = neededLaneModeForSpeed_loop speed rest.
Proof.
  intros Hd Hs. simpl. rewrite (std_div_defined _ _ Hd). simpl.
  destruct (Z.eqb_spec (Z.rem speed laneSpeed) 0) as [Hr|Hr]; simpl; [|reflexivity].
  destruct Hs as [Hs|Hs]; [contradiction|].
  destruct (Z.eqb_spec (Z.quot speed laneSpeed) 1); [lia|].
  destruct (Z.eqb_spec (Z.quot speed laneSpeed) 2); [lia|].
  destruct (Z.ltb_spec 2 (Z.quot speed laneSpeed)); simpl; [|reflexivity].
  destruct (Z.leb_spec (Z.quot speed laneSpeed) 4); [lia|reflexivity].
Qed.

Lemma neededLaneModeForSpeed_loop_hit speed laneSpeed rest :
  div_defined speed laneSpeed -> Z.rem speed laneSpeed = 0 ->
  1 <= Z.quot speed laneSpeed <= 4 ->
  neededLaneModeForSpeed_loop speed (laneSpeed :: rest)
  = Ret (if Z.quot speed laneSpeed =? 1 then SINGLE
         else if Z.quot speed laneSpeed =? 2 then DUAL else QUAD).
Proof.
  intros Hd Hr Hq. simpl. rewrite (std_div_defined _ _ Hd). simpl.
  rewrite Hr. simpl.
  destruct (Z.eqb_spec (Z.quot speed laneSpeed) 1); [reflexivity|].
  destruct (Z.eqb_spec (Z.quot speed laneSpeed) 2); [reflexivity|].
  destruct (Z.ltb_spec 2 (Z.quot speed laneSpeed)); [|lia].
  destruct (Z.leb_spec (Z.quot speed laneSpeed) 4); [reflexivity|lia].
Qed.

Lemma neededLaneModeForSpeed_loop_app speed pre rest :
  Forall (div_defined speed) pre -> Forall (skipped speed) pre ->
  neededLaneModeForSpeed_loop speed (pre ++ rest)
  = neededLaneModeForSpeed_loop speed rest.
Proof.
  induction pre as [|c pre IH]; intros Hd Hs; [reflexivity|].
  inversion Hd; inversion Hs; subst.
  rewrite <- app_comm_cons, neededLaneModeForSpeed_loop_skip by assumption.
  apply IH; assumption.
Qed.

(** The lane mode this function returns is one of the three enumerators. *)
Lemma neededLaneModeForSpeed_range speed laneSpeeds m :
  neededLaneModeForSpeed speed laneSpeeds = Ret m ->
  m = SINGLE \/ m = DUAL \/ m = QUAD.
Proof.
  unfold neededLaneModeForSpeed. destruct (speed =? DEFAULT); [discriminate|].
  induction laneSpeeds as [|c rest IH]; simpl; [discriminate|].
  destruct (std_div speed c) as [dv|]; [|discriminate].
  destruct (negb (rem dv =? 0)); [exact IH|].
  destruct (quot dv =? 1); [intros [= <-]; auto|].
  destruct (quot dv =? 2); [intros [= <-]; auto|].
  destruct ((2 <? quot dv) && (quot dv <=? 4)); [intros [= <-]; auto|exact IH].
Qed.

(** C1. [neededLaneModeForSpeed]: the DEFAULT speed is refused with
    InvalidConfig whatever the lane speeds are.  For any other speed
    (every division being defined), the candidates are scanned in order;
    candidates that leave a remainder, or whose quotient is above 4 (or
    below 1), are passed over, and the first other candidate decides:
    quotient 1 gives SINGLE, 2 gives DUAL, 3 or 4 gives QUAD.  When every
    candidate is passed over, in particular when none divides the speed
    evenly, the call fails with UnsupportedSpeed. *)
Theorem neededLaneModeForSpeed_spec (speed : PortSpeed) (laneSpeeds : LaneSpeeds) :
  (speed = DEFAULT -> neededLaneModeForSpeed speed laneSpeeds = Throw InvalidConfig) /\
  (speed <> DEFAULT -> Forall (div_defined speed) laneSpeeds ->
   (forall pre c post,
      laneSpeeds = pre ++ c :: post ->
      Forall (skipped speed) pre ->
      Z.rem speed c = 0 ->
      (Z.quot speed c = 1 -> neededLaneModeForSpeed speed laneSpeeds = Ret SINGLE) /\
      (Z.quot speed c = 2 -> neededLaneModeForSpeed speed laneSpeeds = Ret DUAL) /\
      (2 < Z.quot speed c <= 4 -> neededLaneModeForSpeed speed laneSpeeds = Ret QUAD)) /\
   (Forall (fun c => Z.rem speed c <> 0) laneSpeeds ->
      neededLaneModeForSpeed speed laneSpeeds = Throw (UnsupportedSpeed speed)) /\
   (Forall (skipped speed) laneSpeeds ->
      neededLaneModeForSpeed speed laneSpeeds = Throw (UnsupportedSpeed speed))).
Proof.
  split.
  - intros ->. reflexivity.
  - intros Hne Hd. unfold neededLaneModeForSpeed.
    destruct (Z.eqb_spec speed DEFAULT) as [|_]; [contradiction|].
    assert (Hall : Forall (skipped speed) laneSpeeds ->
              neededLaneModeForSpeed_loop speed laneSpeeds
              = Throw (UnsupportedSpeed speed)).
    { intros Hs. rewrite <- (app_nil_r laneSpeeds).
      rewrite neededLaneModeForSpeed_loop_app by assumption. reflexivity. }
    split; [|split].
    + intros pre c post -> Hs Hr.
      apply Forall_app in Hd as [Hdpre Hdc]. inversion Hdc as [|? ? Hc _]; subst.
      rewrite neededLaneModeForSpeed_loop_app by assumption.
      repeat split; intros Hq;
        rewrite neededLaneModeForSpeed_loop_hit by (assumption || lia).
      * rewrite Hq. reflexivity.
      * rewrite Hq. reflexivity.
      * destruct (Z.eqb_spec (Z.quot speed c) 1); [lia|].
        destruct (Z.eqb_spec (Z.quot speed c) 2); [lia|]. reflexivity.
    + intros Hr. apply Hall. eapply Forall_impl; [exact Hr|].
      intros c Hc. left. exact Hc.
    + exact Hall.
Qed.

(** A 40G port on lanes of 10G or 25G: 10G divides it by 4, QUAD. *)
Lemma neededLaneModeForSpeed_spec_witness :
  FORTYG <> DEFAULT /\
  Forall (div_defined FORTYG) [XG; TWENTYFIVEG] /\
  neededLaneModeForSpeed FORTYG [XG; TWENTYFIVEG] = Ret QUAD.
Proof.
  assert (Hne : FORTYG <> DEFAULT) by discriminate.
  assert (Hd : Forall (div_defined FORTYG) [XG; TWENTYFIVEG]).
  { repeat constructor; discriminate || (intros [H _]; discriminate H). }
  split; [exact Hne|]. split; [exact Hd|].
  destruct (neededLaneModeForSpeed_spec FORTYG [XG; TWENTYFIVEG]) as [_ H].
  destruct (H Hne Hd) as [Hfirst _].
  destruct (Hfirst [] XG [TWENTYFIVEG] eq_refl (List.Forall_nil _) eq_refl) as (_ & _ & Hquad).
  apply Hquad. split; [reflexivity | discriminate].
Defined.

(** ** Reasoning about member functions *)

Lemma bind_eq {A B} (m : M A) (f : A -> M B) st :
  (m ≫= f) st
  = match m st with
    | (Ret a, st') => f a st'
    | (Throw e, st') => (Throw e, st')
    | (Undefined, st') => (Undefined, st')
    end.
Proof. reflexivity. Qed.

Lemma bind_Ret {A B} (m : M A) (f : A -> M B) st a st' :
  m st = (Ret a, st') -> (m ≫= f) st = f a st'.
Proof. intros H. rewrite bind_eq, H. reflexivity. Qed.

Lemma bind_Throw {A B} (m : M A) (f : A -> M B) st e st' :
  m st = (Throw e, st') -> (m ≫= f) st = (Throw e, st').
Proof. intros H. rewrite bind_eq, H. reflexivity. Qed.

Lemma bind_assoc {A B C} (m : M A) (f : A -> M B) (g : B -> M C) st :
  ((m ≫= f) ≫= g) st = (m ≫= fun a => f a ≫= g) st.
Proof. rewrite !bind_eq. destruct (m st) as [[a|e|] st1]; reflexivity. Qed.

Lemma bind_gets {A B} (g : State -> A) (f : A -> M B) st :
  (gets g ≫= f) st = f (g st) st.
Proof. reflexivity. Qed.

Lemma bind_modify {B} (g : State -> State) (f : unit -> M B) st :
  (modify g ≫= f) st = f tt (g st).
Proof. reflexivity. Qed.

(** A bind that returns went through a first part that returned. *)
Lemma bind_Ret_inv {A B} (m : M A) (f : A -> M B) st b st2 :
  (m ≫= f) st = (Ret b, st2) ->
  exists a st1, m st = (Ret a, st1) /\ f a st1 = (Ret b, st2).
Proof.
  rewrite bind_eq. destruct (m st) as [[a|e|] st1]; intros H; try discriminate.
  exists a, st1. split; [reflexivity|exact H].
Qed.

Lemma logs_nil st : logs [] st = st.
Proof. destruct st. unfold logs. simpl. rewrite app_nil_r. reflexivity. Qed.

Lemma logs_app evs1 evs2 st : logs (evs1 ++ evs2) st = logs evs2 (logs evs1 st).
Proof. unfold logs. simpl. rewrite app_assoc. reflexivity. Qed.

Lemma log_logs e st : log e st = logs [e] st.
Proof. reflexivity. Qed.

Section Calls.
Variable env : Env.

Lemma checked_call_ok e st :
  0 <= sdk env (trace st) e -> checked_call env e st = (Ret tt, log e st).
Proof.
  intros H. unfold checked_call, bcmCheckError. rewrite bind_eq. simpl.
  destruct (Z.ltb_spec (sdk env (trace st) e) 0); [lia|reflexivity].
Qed.

Lemma checked_call_fail e st :
  sdk env (trace st) e < 0 ->
  checked_call env e st = (Throw (HardwareCallFailure (sdk env (trace st) e) e), log e st).
Proof.
  intros H. unfold checked_call, bcmCheckError. rewrite bind_eq. simpl.
  destruct (Z.ltb_spec (sdk env (trace st) e) 0); [reflexivity|lia].
Qed.

(** Whatever the status, the call is recorded and nothing else changes. *)
Lemma checked_call_state e st : (checked_call env e st).2 = log e st.
Proof.
  destruct (Z.lt_ge_cases (sdk env (trace st) e) 0).
  - rewrite checked_call_fail by assumption. reflexivity.
  - rewrite checked_call_ok by assumption. reflexivity.
Qed.

Lemma setLanesControl_checked unit_ port lanes :
  setLanesControl env unit_ port lanes
  = checked_call env (PortControlSetLanes unit_ port lanes).
Proof. reflexivity. Qed.

End Calls.

(** ** Components of the state that a computation keeps *)

Lemma keeps_bind {A B X} (proj : State -> X) (m : M A) (f : A -> M B) :
  keeps proj m -> (forall a, keeps proj (f a)) -> keeps proj (m ≫= f).
Proof.
  intros Hm Hf st. rewrite bind_eq. specialize (Hm st).
  destruct (m st) as [[a|e|] s1]; simpl in Hm |- *; [|exact Hm..].
  rewrite Hf. exact Hm.
Qed.

Lemma keeps_checked_call {X} (proj : State -> X) env e :
  (forall st, proj (log e st) = proj st) -> keeps proj (checked_call env e).
Proof. intros H st. rewrite checked_call_state. apply H. Qed.

Lemma keeps_ret {A X} (proj : State -> X) (a : A) : keeps proj (mret a : M A).
Proof. intros st. reflexivity. Qed.

Lemma keeps_lift {A X} (proj : State -> X) (r : Result A) : keeps proj (lift r).
Proof. intros st. reflexivity. Qed.

Lemma keeps_forM_ {A X} (proj : State -> X) (l : list A) (body : A -> M unit) :
  (forall x, keeps proj (body x)) -> keeps proj (forM_ l body).
Proof.
  intros Hb. induction l as [|x rest IH]; simpl; [apply keeps_ret|].
  apply keeps_bind; [apply Hb|]. intros _. exact IH.
Qed.

(** ** The legacy transition *)

(** C2. The legacy path of [setActiveLanes] (the controlling port does not
    use the port resource APIs).  Between SINGLE and DUAL, in either
    direction, it writes the lane count 4 and then the desired lane count;
    when the current or the desired mode is QUAD it writes the desired lane
    count only.  When the hardware accepts the writes, these are the only
    calls made and the group's lane mode becomes the desired one.  When it
    refuses the first of two writes, the second is not made. *)
Theorem setActiveLanes_legacy (env : Env) (ports : list Port)
    (desiredLaneMode : LaneMode) (st : State) :
  let write lanes :=
    PortControlSetLanes (getUnit env) (getBcmPortId (controllingPort_ st)) lanes in
  shouldUsePortResourceAPIs (controllingPort_ st) = false ->
  ((laneMode_ st = SINGLE /\ desiredLaneMode = DUAL) \/
   (laneMode_ st = DUAL /\ desiredLaneMode = SINGLE) ->
   (0 <= sdk env (trace st) (write 4) ->
    0 <= sdk env (trace st ++ [write 4]) (write desiredLaneMode) ->
    setActiveLanes env ports desiredLaneMode st
    = (Ret tt, set_laneMode desiredLaneMode (logs [write 4; write desiredLaneMode] st))) /\
   (sdk env (trace st) (write 4) < 0 ->
    (setActiveLanes env ports desiredLaneMode st).2 = logs [write 4] st)) /\
  (laneMode_ st = QUAD \/ desiredLaneMode = QUAD ->
   0 <= sdk env (trace st) (write desiredLaneMode) ->
   setActiveLanes env ports desiredLaneMode st
   = (Ret tt, set_laneMode desiredLaneMode (logs [write desiredLaneMode] st))).
Proof.
  intros write Hlegacy. unfold setActiveLanes.
  rewrite bind_gets, Hlegacy, bind_gets. split.
  - intros Hpair.
    assert (Hcond : (laneMode_ st =? SINGLE) && (desiredLaneMode =? DUAL)
                    || (laneMode_ st =? DUAL) && (desiredLaneMode =? SINGLE) = true).
    { destruct Hpair as [[-> ->]|[-> ->]]; reflexivity. }
    rewrite Hcond, !setLanesControl_checked. fold (write 4) (write desiredLaneMode).
    split.
    + intros H4 Hd.
      rewrite (bind_Ret _ _ _ _ _ (checked_call_ok env (write 4) st H4)).
      rewrite (bind_Ret _ _ _ tt (log (write desiredLaneMode) (log (write 4) st)))
        by (apply checked_call_ok; exact Hd).
      unfold modify. rewrite !log_logs, <- logs_app. reflexivity.
    + intros H4.
      rewrite (bind_Throw _ _ _ _ _ (checked_call_fail env (write 4) st H4)).
      reflexivity.
  - intros Hquad Hd.
    assert (Hcond : (laneMode_ st =? SINGLE) && (desiredLaneMode =? DUAL)
                    || (laneMode_ st =? DUAL) && (desiredLaneMode =? SINGLE) = false).
    { destruct Hquad as [Hq|Hq]; rewrite Hq.
      - reflexivity.
      - simpl. rewrite !andb_false_r. reflexivity. }
    rewrite Hcond, !setLanesControl_checked. fold (write desiredLaneMode).
    rewrite (bind_Ret _ _ _ tt st) by reflexivity.
    rewrite (bind_Ret _ _ _ _ _ (checked_call_ok env (write desiredLaneMode) st Hd)).
    reflexivity.
Qed.

(** A legacy group in SINGLE mode asked for DUAL: the register is written
    with 4, then with 2. *)
Lemma setActiveLanes_legacy_witness :
  trace (setActiveLanes Example.legacyEnv Example.fourTenG DUAL
           (Example.group false SINGLE)).2
  = [PortControlSetLanes 0 1 4; PortControlSetLanes 0 1 2] /\
  laneMode_ (setActiveLanes Example.legacyEnv Example.fourTenG DUAL
               (Example.group false SINGLE)).2 = DUAL.
Proof.
  destruct (setActiveLanes_legacy Example.legacyEnv Example.fourTenG DUAL
              (Example.group false SINGLE) eq_refl) as [Hpair _].
  destruct (Hpair (or_introl (conj eq_refl eq_refl))) as [Hok _].
  rewrite Hok.
  - split; reflexivity.
  - discriminate.
  - discriminate.
Defined.

(** ** Placement of enabled members *)

Lemma checkLaneModeisValid_SINGLE lane : checkLaneModeisValid lane SINGLE = Ret tt.
Proof. reflexivity. Qed.

(** A disabled member is passed over: no requirement, no placement check. *)
Lemma calculateDesiredLaneMode_from_disabled port rest laneSpeeds lane mode :
  isEnabled port = false ->
  calculateDesiredLaneMode_from (port :: rest) laneSpeeds lane mode
  = calculateDesiredLaneMode_from rest laneSpeeds (lane + 1) mode.
Proof. intros H. simpl. rewrite H. reflexivity. Qed.

(** An enabled member is checked against the mode reached so far. *)
Lemma calculateDesiredLaneMode_from_enabled port rest laneSpeeds lane mode needed :
  isEnabled port = true ->
  neededLaneModeForSpeed (getSpeed port) laneSpeeds = Ret needed ->
  calculateDesiredLaneMode_from (port :: rest) laneSpeeds lane mode
  = (_ ← checkLaneModeisValid lane (Z.max needed mode);
     calculateDesiredLaneMode_from rest laneSpeeds (lane + 1) (Z.max needed mode)).
Proof.
  intros He Hn. simpl. rewrite He, Hn. simpl.
  destruct (Z.gtb_spec needed mode).
  - rewrite Z.max_l by lia. reflexivity.
  - rewrite Z.max_r by lia. reflexivity.
Qed.

Lemma checkLaneModeisValid_QUAD lane :
  lane <> 0 -> checkLaneModeisValid lane QUAD = Throw (InvalidPlacement lane QUAD).
Proof.
  intros H. unfold checkLaneModeisValid. simpl.
  destruct (Z.eqb_spec lane 0); [contradiction|reflexivity].
Qed.

Lemma checkLaneModeisValid_DUAL lane :
  checkLaneModeisValid lane DUAL
  = if (lane =? 0) || (lane =? 2) then Ret tt else Throw (InvalidPlacement lane DUAL).
Proof.
  unfold checkLaneModeisValid. simpl.
  destruct (lane =? 0), (lane =? 2); reflexivity.
Qed.

(** The three modes a speed can ask for, and what the running mode becomes. *)
Lemma raise_cases (needed mode : LaneMode) :
  needed = SINGLE \/ needed = DUAL \/ needed = QUAD ->
  mode = SINGLE \/ mode = DUAL \/ mode = QUAD ->
  Z.max needed mode = SINGLE \/ Z.max needed mode = DUAL \/ Z.max needed mode = QUAD.
Proof. unfold SINGLE, DUAL, QUAD. lia. Qed.

(** Once the mode is QUAD, no later member may be enabled. *)
Lemma calculateDesiredLaneMode_from_QUAD ports laneSpeeds lane m :
  0 < lane ->
  calculateDesiredLaneMode_from ports laneSpeeds lane QUAD = Ret m ->
  m = QUAD /\ Forall (fun port => isEnabled port = false) ports.
Proof.
  revert lane. induction ports as [|port rest IH]; intros lane Hl.
  - intros [= <-]. split; [reflexivity|constructor].
  - destruct (isEnabled port) eqn:He.
    + destruct (neededLaneModeForSpeed (getSpeed port) laneSpeeds) as [n| |] eqn:Hn.
      * rewrite (calculateDesiredLaneMode_from_enabled _ _ _ _ _ n He Hn).
        replace (Z.max n QUAD) with QUAD
          by (destruct (neededLaneModeForSpeed_range _ _ _ Hn) as [-> | [-> | ->]];
              reflexivity).
        rewrite checkLaneModeisValid_QUAD by lia. discriminate.
      * simpl. rewrite He, Hn. discriminate.
      * simpl. rewrite He, Hn. discriminate.
    + rewrite calculateDesiredLaneMode_from_disabled by assumption.
      intros H. destruct (IH (lane + 1) ltac:(lia) H) as [-> Hall].
      split; [reflexivity|]. constructor; assumption.
Qed.

(** A mode below QUAD cannot be raised to QUAD after lane 0. *)
Lemma calculateDesiredLaneMode_from_not_QUAD ports laneSpeeds lane mode :
  0 < lane -> mode = SINGLE \/ mode = DUAL ->
  calculateDesiredLaneMode_from ports laneSpeeds lane mode <> Ret QUAD.
Proof.
  revert lane mode. induction ports as [|port rest IH]; intros lane mode Hl Hm.
  - simpl. intros [= ->]. destruct Hm; discriminate.
  - destruct (isEnabled port) eqn:He.
    + destruct (neededLaneModeForSpeed (getSpeed port) laneSpeeds) as [n| |] eqn:Hn.
      * rewrite (calculateDesiredLaneMode_from_enabled _ _ _ _ _ n He Hn).
        destruct (raise_cases n mode (neededLaneModeForSpeed_range _ _ _ Hn)
                    ltac:(tauto)) as [Hr | [Hr | Hr]]; rewrite Hr.
        -- rewrite checkLaneModeisValid_SINGLE. apply IH; [lia|auto].
        -- rewrite checkLaneModeisValid_DUAL.
           destruct ((lane =? 0) || (lane =? 2)); [|discriminate].
           apply IH; [lia|auto].
        -- rewrite checkLaneModeisValid_QUAD by lia. discriminate.
      * simpl. rewrite He, Hn. discriminate.
      * simpl. rewrite He, Hn. discriminate.
    + rewrite calculateDesiredLaneMode_from_disabled by assumption.
      apply IH; [lia|assumption].
Qed.

(** A group whose speeds give QUAD has its only enabled member on lane 0. *)
Lemma calculateDesiredLaneMode_QUAD ports laneSpeeds :
  calculateDesiredLaneMode ports laneSpeeds = Ret QUAD ->
  exists port rest, ports = port :: rest /\ isEnabled port = true /\
    Forall (fun port => isEnabled port = false) rest.
Proof.
  unfold calculateDesiredLaneMode. destruct ports as [|port rest]; [discriminate|].
  intros H. exists port, rest. split; [reflexivity|]. revert H.
  destruct (isEnabled port) eqn:He.
  - destruct (neededLaneModeForSpeed (getSpeed port) laneSpeeds) as [n| |] eqn:Hn.
    + rewrite (calculateDesiredLaneMode_from_enabled _ _ _ _ _ n He Hn).
      destruct (raise_cases n SINGLE (neededLaneModeForSpeed_range _ _ _ Hn)
                  ltac:(tauto)) as [Hr | [Hr | Hr]]; rewrite Hr.
      * rewrite checkLaneModeisValid_SINGLE. intros H. exfalso. revert H.
        apply calculateDesiredLaneMode_from_not_QUAD; [lia|auto].
      * rewrite checkLaneModeisValid_DUAL. simpl. intros H. exfalso. revert H.
        apply calculateDesiredLaneMode_from_not_QUAD; [lia|auto].
      * unfold checkLaneModeisValid. simpl. intros H. split; [reflexivity|].
        apply (calculateDesiredLaneMode_from_QUAD rest laneSpeeds 1 QUAD); [lia|exact H].
    + simpl. rewrite He, Hn. discriminate.
    + simpl. rewrite He, Hn. discriminate.
  - rewrite calculateDesiredLaneMode_from_disabled by assumption.
    intros H. exfalso. revert H.
    apply calculateDesiredLaneMode_from_not_QUAD; [lia|auto].
Qed.

(** C3. The placement rule of DUAL mode is checked against the mode
    reached when a member is visited, not against the mode the group ends
    with.  Two 10G members on lanes 0 and 1 followed by a 20G member on
    lane 2 (lanes of 10G) are accepted with lane mode DUAL although lane 1
    is enabled; the mirrored layout, with the 20G member first, is
    refused. *)
Theorem calculateDesiredLaneMode_DUAL_lane_1_accepted :
  let tri_012 := [Example.swPort 1 true XG; Example.swPort 2 true XG;
                  Example.swPort 3 true TWENTYG] in
  let tri_023 := [Example.swPort 1 true TWENTYG; Example.swPort 2 false XG;
                  Example.swPort 3 true XG; Example.swPort 4 true XG] in
  calculateDesiredLaneMode tri_012 [XG] = Ret DUAL /\
  isEnabled <$> tri_012 !! 1%nat = Some true /\
  checkLaneModeisValid 1 DUAL = Throw (InvalidPlacement 1 DUAL) /\
  calculateDesiredLaneMode tri_023 [XG] = Throw (InvalidPlacement 3 DUAL).
Proof. repeat split. Qed.

(** ** Lane mode from a profile *)

(** The [catch] of [numLanesToLaneMode] is dead code: every lane count is
    cast to a lane mode. *)
Lemma numLanesToLaneMode_returns numLanes : numLanesToLaneMode numLanes = Ret numLanes.
Proof. reflexivity. Qed.

Lemma neededModeFromProfile_unknown port profiles :
  profiles !! getProfileID port = None ->
  neededModeFromProfile port profiles
  = Throw (UnknownProfile (getName port) (getProfileID port)).
Proof. intros H. unfold neededModeFromProfile. rewrite H. reflexivity. Qed.

Lemma neededModeFromProfile_known port profiles profileCfg :
  profiles !! getProfileID port = Some profileCfg ->
  neededModeFromProfile port profiles = Ret (to_uint8 (numLanes (iphy profileCfg))).
Proof. intros H. unfold neededModeFromProfile. rewrite H. reflexivity. Qed.

(** C4. A profile that declares 3 lanes is not refused: the lane mode of
    the port, and of the group, is the value 3, which is none of SINGLE,
    DUAL and QUAD. *)
Theorem numLanesToLaneMode_3_lanes :
  let profiles : gmap ProfileID PortProfileConfig :=
    {[ 0 := {| iphy := {| numLanes := 3 |} |} ]} in
  let port := Example.swPort 1 true HUNDREDG in
  numLanesToLaneMode 3 = Ret 3 /\
  neededModeFromProfile port profiles = Ret 3 /\
  calculateDesiredLaneModeFromConfig [port] profiles = Ret 3 /\
  3 <> SINGLE /\ 3 <> DUAL /\ 3 <> QUAD.
Proof. repeat split; discriminate. Qed.

(** ** Read-only computations *)

Lemma read_only_ret {A} (a : A) : read_only (mret a : M A).
Proof. intros st. reflexivity. Qed.

Lemma read_only_gets {A} (g : State -> A) : read_only (gets g).
Proof. intros st. reflexivity. Qed.

Lemma read_only_lift {A} (r : Result A) : read_only (lift r).
Proof. intros st. reflexivity. Qed.

Lemma read_only_bind {A B} (m : M A) (f : A -> M B) :
  read_only m -> (forall a, read_only (f a)) -> read_only (m ≫= f).
Proof.
  intros Hm Hf st. rewrite bind_eq. specialize (Hm st).
  destruct (m st) as [[a|e|] st1]; simpl in Hm; subst st1; [apply Hf|reflexivity..].
Qed.

Lemma read_only_try_catch {A} (body : M A) (handler : FbossError -> M A) :
  read_only body -> (forall e, read_only (handler e)) ->
  read_only (M_try_catch body handler).
Proof.
  intros Hb Hh st. unfold M_try_catch. specialize (Hb st).
  destruct (body st) as [[a|e|] st1]; simpl in Hb; subst st1; [reflexivity|apply Hh|reflexivity].
Qed.

Lemma read_only_eq {A} (m : M A) st : read_only m -> m st = ((m st).1, st).
Proof. intros H. rewrite <- (H st) at 3. destruct (m st); reflexivity. Qed.

Lemma bind_read_only {A B} (m : M A) (f : A -> M B) st :
  read_only m ->
  (m ≫= f) st
  = match (m st).1 with
    | Ret a => f a st
    | Throw e => (Throw e, st)
    | Undefined => (Undefined, st)
    end.
Proof.
  intros H. rewrite bind_eq, (read_only_eq m st H). simpl.
  destruct (m st).1; reflexivity.
Qed.

Lemma getSwPorts_read_only env state : read_only (getSwPorts env state).
Proof.
  unfold getSwPorts. destruct (negb _).
  - apply read_only_bind; [apply read_only_gets|]. intros cp. apply read_only_ret.
  - apply read_only_bind; [apply read_only_gets|]. intros l. apply read_only_lift.
Qed.

Lemma desiredLaneModeOf_read_only env ports : read_only (desiredLaneModeOf env ports).
Proof.
  unfold desiredLaneModeOf. destruct (supportedProfiles env).
  - apply read_only_lift.
  - apply read_only_bind; [apply read_only_gets|]. intros cp. apply read_only_lift.
Qed.

Lemma validConfiguration_read_only env state : read_only (validConfiguration env state).
Proof.
  unfold validConfiguration. apply read_only_try_catch.
  - apply read_only_bind; [apply getSwPorts_read_only|]. intros ports.
    apply read_only_bind; [apply desiredLaneModeOf_read_only|]. intros m.
    apply read_only_ret.
  - intros e. apply read_only_ret.
Qed.

(** Which calculation [desiredLaneModeOf] runs. *)
Lemma desiredLaneModeOf_eq env ports st :
  desiredLaneModeOf env ports st
  = (match supportedProfiles env with
     | Some profiles => calculateDesiredLaneModeFromConfig ports profiles
     | None => calculateDesiredLaneMode ports (supportedLaneSpeeds (controllingPort_ st))
     end, st).
Proof. unfold desiredLaneModeOf. destruct (supportedProfiles env); reflexivity. Qed.

(** ** Undefined behaviour is confined to [std::div] *)

Lemma neededLaneModeForSpeed_defined speed laneSpeeds :
  Forall (fun laneSpeed => 0 < laneSpeed) laneSpeeds ->
  neededLaneModeForSpeed speed laneSpeeds <> Undefined.
Proof.
  intros Hpos. unfold neededLaneModeForSpeed.
  destruct (speed =? DEFAULT); [discriminate|].
  induction Hpos as [|c rest Hc _ IH]; simpl; [discriminate|].
  rewrite (std_div_defined _ _ (div_defined_pos speed c Hc)). simpl.
  destruct (negb _); [exact IH|].
  destruct (_ =? 1); [discriminate|]. destruct (_ =? 2); [discriminate|].
  destruct (_ && _); [discriminate|exact IH].
Qed.

Lemma calculateDesiredLaneMode_from_defined ports laneSpeeds lane mode :
  Forall (fun laneSpeed => 0 < laneSpeed) laneSpeeds ->
  calculateDesiredLaneMode_from ports laneSpeeds lane mode <> Undefined.
Proof.
  intros Hpos. revert lane mode.
  induction ports as [|port rest IH]; intros lane mode; simpl; [discriminate|].
  destruct (isEnabled port); [|apply IH].
  pose proof (neededLaneModeForSpeed_defined (getSpeed port) laneSpeeds Hpos) as Hn.
  destruct (neededLaneModeForSpeed (getSpeed port) laneSpeeds) as [n| |]; simpl;
    [|discriminate|contradiction].
  unfold checkLaneModeisValid.
  repeat match goal with |- context [if ?b then _ else _] => destruct b; simpl end;
    try discriminate; apply IH.
Qed.

Lemma calculateDesiredLaneModeFromConfig_from_defined ports profiles mode :
  calculateDesiredLaneModeFromConfig_from ports profiles mode <> Undefined.
Proof.
  revert mode. induction ports as [|port rest IH]; intros mode; simpl; [discriminate|].
  destruct (isEnabled port); [|apply IH].
  unfold neededModeFromProfile.
  destruct (profiles !! getProfileID port); simpl; [apply IH|discriminate].
Qed.

Lemma getSwPorts_members_defined state bcmPorts :
  getSwPorts_members state bcmPorts <> Undefined.
Proof.
  induction bcmPorts as [|bcmPort rest IH]; simpl; [discriminate|].
  unfold getSwitchStatePort, getSwPort.
  destruct (getSwPortIf _ _); simpl; [|discriminate].
  destruct (negb _); [discriminate|].
  destruct (getSwPorts_members state rest); simpl; [discriminate|discriminate|contradiction].
Qed.

Lemma getSwPorts_defined env state st : (getSwPorts env state st).1 <> Undefined.
Proof.
  unfold getSwPorts. destruct (negb _).
  - rewrite bind_gets. discriminate.
  - rewrite bind_gets. apply getSwPorts_members_defined.
Qed.

(** ** Validation *)

(** C5. [validConfiguration] leaves the state as it found it (group,
    port table and trace: no call is made).  It returns [false] when
    reading the ports throws; otherwise it runs the profile calculation
    when the platform has a table of supported profiles and the speed
    calculation when it has none, returns [true] when that returns and
    [false] when it throws.  It always returns a boolean when the lane
    speeds of the controlling port are positive, or the profiles are
    used. *)
Theorem validConfiguration_spec (env : Env) (state : SwitchState) (st : State) :
  (validConfiguration env state st).2 = st /\
  (forall e, (getSwPorts env state st).1 = Throw e ->
     (validConfiguration env state st).1 = Ret false) /\
  (forall ports, (getSwPorts env state st).1 = Ret ports ->
     (validConfiguration env state st).1
     = match
         match supportedProfiles env with
         | Some profiles => calculateDesiredLaneModeFromConfig ports profiles
         | None => calculateDesiredLaneMode ports (supportedLaneSpeeds (controllingPort_ st))
         end
       with
       | Ret _ => Ret true
       | Throw _ => Ret false
       | Undefined => Undefined
       end) /\
  (is_Some (supportedProfiles env) \/
   Forall (fun laneSpeed => 0 < laneSpeed) (supportedLaneSpeeds (controllingPort_ st)) ->
   exists b, (validConfiguration env state st).1 = Ret b).
Proof.
  split; [apply validConfiguration_read_only|].
  assert (Hthrow : forall e, (getSwPorts env state st).1 = Throw e ->
            (validConfiguration env state st).1 = Ret false).
  { intros e H. unfold validConfiguration, M_try_catch.
    rewrite bind_eq, (read_only_eq _ st (getSwPorts_read_only env state)), H.
    reflexivity. }
  assert (Hret : forall ports, (getSwPorts env state st).1 = Ret ports ->
     (validConfiguration env state st).1
     = match
         match supportedProfiles env with
         | Some profiles => calculateDesiredLaneModeFromConfig ports profiles
         | None => calculateDesiredLaneMode ports (supportedLaneSpeeds (controllingPort_ st))
         end
       with
       | Ret _ => Ret true
       | Throw _ => Ret false
       | Undefined => Undefined
       end).
  { intros ports H. unfold validConfiguration, M_try_catch.
    rewrite bind_eq, (read_only_eq _ st (getSwPorts_read_only env state)), H.
    rewrite bind_eq, desiredLaneModeOf_eq.
    destruct (match supportedProfiles env with Some _ => _ | None => _ end);
      reflexivity. }
  split; [exact Hthrow|]. split; [exact Hret|].
  intros Hdef.
  pose proof (getSwPorts_defined env state st) as Hports.
  destruct (getSwPorts env state st).1 as [ports|e|] eqn:Hp; [|eauto|contradiction].
  rewrite (Hret ports eq_refl).
  destruct (supportedProfiles env) as [profiles|].
  - pose proof (calculateDesiredLaneModeFromConfig_from_defined ports profiles SINGLE) as Hc.
    fold (calculateDesiredLaneModeFromConfig ports profiles) in Hc.
    destruct (calculateDesiredLaneModeFromConfig ports profiles); [eauto|eauto|contradiction].
  - destruct Hdef as [[? Hsome]|Hpos]; [discriminate|].
    pose proof (calculateDesiredLaneMode_from_defined ports _ 0 SINGLE Hpos) as Hc.
    fold (calculateDesiredLaneMode ports (supportedLaneSpeeds (controllingPort_ st))) in Hc.
    destruct (calculateDesiredLaneMode ports _); [eauto|eauto|contradiction].
Qed.

(** Four 10G ports are accepted by a legacy group; a port left at the
    DEFAULT speed is refused. *)
Lemma validConfiguration_spec_witness :
  validConfiguration Example.legacyEnv {| getPorts := Example.fourTenG |}
    (Example.group false SINGLE) = (Ret true, Example.group false SINGLE) /\
  exists b, (validConfiguration Example.legacyEnv
               {| getPorts := [Example.swPort 1 true DEFAULT] |}
               (Example.group false SINGLE)).1 = Ret b.
Proof.
  split.
  - destruct (validConfiguration_spec Example.legacyEnv
                {| getPorts := Example.fourTenG |} (Example.group false SINGLE))
      as (Hst & _ & Hret & _).
    rewrite (surjective_pairing (validConfiguration _ _ _)), Hst.
    rewrite (Hret Example.fourTenG eq_refl). reflexivity.
  - destruct (validConfiguration_spec Example.legacyEnv
                {| getPorts := [Example.swPort 1 true DEFAULT] |}
                (Example.group false SINGLE)) as (_ & _ & _ & Htotal).
    apply Htotal. right. repeat constructor.
Defined.

(** ** What a computation records *)

Section Emits.
Variable env : Env.
Variable P : Event -> Prop.

Lemma emits_only_ret {A} (a : A) : emits_only P (mret a : M A).
Proof. intros st. exists []. simpl. rewrite app_nil_r. auto. Qed.

Lemma emits_only_gets {A} (g : State -> A) : emits_only P (gets g).
Proof. intros st. exists []. simpl. rewrite app_nil_r. auto. Qed.

Lemma emits_only_lift {A} (r : Result A) : emits_only P (lift r).
Proof. intros st. exists []. simpl. rewrite app_nil_r. auto. Qed.

Lemma emits_only_throw {A} e : emits_only P (throw e : M A).
Proof. apply emits_only_lift. Qed.

Lemma emits_only_modify (f : State -> State) :
  (forall st, trace (f st) = trace st) -> emits_only P (modify f).
Proof. intros Hf st. exists []. simpl. rewrite app_nil_r, Hf. auto. Qed.

Lemma emits_only_notify e : P e -> emits_only P (notify e).
Proof. intros He st. exists [e]. simpl. auto. Qed.

Lemma emits_only_bind {A B} (m : M A) (f : A -> M B) :
  emits_only P m -> (forall a, emits_only P (f a)) -> emits_only P (m ≫= f).
Proof.
  intros Hm Hf st. rewrite bind_eq. destruct (Hm st) as (evs1 & Ht1 & HP1).
  destruct (m st) as [[a|e|] st1]; simpl in Ht1; [|exists evs1; auto..].
  destruct (Hf a st1) as (evs2 & Ht2 & HP2).
  exists (evs1 ++ evs2). rewrite Ht2, Ht1, app_assoc. split; [reflexivity|].
  apply Forall_app. auto.
Qed.

Lemma emits_only_sdk_call e : P e -> emits_only P (sdk_call env e).
Proof. intros He st. exists [e]. simpl. auto. Qed.

Lemma emits_only_bcmCheckError rv e : emits_only P (bcmCheckError rv e).
Proof.
  unfold bcmCheckError. destruct (rv <? 0); [apply emits_only_throw|apply emits_only_ret].
Qed.

Lemma emits_only_checked_call e : P e -> emits_only P (checked_call env e).
Proof.
  intros He. apply emits_only_bind; [apply emits_only_sdk_call; exact He|].
  intros rv. apply emits_only_bcmCheckError.
Qed.

Lemma emits_only_forM_ {A} (l : list A) (body : A -> M unit) :
  (forall x, emits_only P (body x)) -> emits_only P (forM_ l body).
Proof.
  intros Hb. induction l as [|x rest IH]; simpl; [apply emits_only_ret|].
  apply emits_only_bind; [apply Hb|]. intros _. exact IH.
Qed.

Lemma emits_only_getBcmPort id : emits_only P (getBcmPort id).
Proof.
  apply emits_only_bind; [apply emits_only_gets|]. intros table.
  destruct (table !! id); [apply emits_only_ret|apply emits_only_throw].
Qed.

End Emits.

(** The lane-mode transition makes no [linkSpeedChanged] call. *)

Section Transition.
Variable env : Env.

Local Ltac emits_step :=
  lazymatch goal with
  | |- emits_only _ (getBcmPort _) => apply emits_only_getBcmPort
  | |- emits_only _ (_ ≫= _) => apply emits_only_bind; [|intros ?]
  | |- emits_only _ (forM_ _ _) => apply emits_only_forM_; intros ?
  | |- emits_only _ (gets _) => apply emits_only_gets
  | |- emits_only _ (mret _) => apply emits_only_ret
  | |- emits_only _ (lift _) => apply emits_only_lift
  | |- emits_only _ (throw _) => apply emits_only_throw
  | |- emits_only _ (bcmCheckError _ _) => apply emits_only_bcmCheckError
  | |- emits_only _ (sdk_call _ _) => apply emits_only_sdk_call; reflexivity
  | |- emits_only _ (checked_call _ _) => apply emits_only_checked_call; reflexivity
  | |- emits_only _ (notify _) => apply emits_only_notify; reflexivity
  | |- emits_only _ (modify _) => apply emits_only_modify; intros ?; reflexivity
  end.

Lemma setPortSpecificControls_quiet bcmPort enable :
  emits_only not_linkSpeedChanged (setPortSpecificControls env bcmPort enable).
Proof. unfold setPortSpecificControls. repeat emits_step. Qed.

Lemma removeBcmPort_quiet id : emits_only not_linkSpeedChanged (removeBcmPort id).
Proof.
  unfold removeBcmPort. apply emits_only_bind; [|intros ?; repeat emits_step].
  apply emits_only_modify. intros st. destruct (portTable st !! id); reflexivity.
Qed.

Lemma addToPortTable_quiet addedPorts :
  emits_only not_linkSpeedChanged (addToPortTable env addedPorts).
Proof.
  induction addedPorts as [|port rest IH]; simpl; [apply emits_only_ret|].
  apply emits_only_bind; [unfold addBcmPort; repeat emits_step|]. intros _.
  apply emits_only_bind; [apply emits_only_getBcmPort|]. intros newPort.
  apply emits_only_bind; [exact IH|]. intros newPorts. apply emits_only_ret.
Qed.

Lemma setActiveLanesWithFlexPortApi_quiet ports desiredLaneMode :
  emits_only not_linkSpeedChanged (setActiveLanesWithFlexPortApi env ports desiredLaneMode).
Proof.
  unfold setActiveLanesWithFlexPortApi, builder_removePorts, builder_addPorts,
    builder_program, registerInPortGroup.
  repeat lazymatch goal with
    | |- emits_only _ (setPortSpecificControls _ _ _) => apply setPortSpecificControls_quiet
    | |- emits_only _ (removeBcmPort _) => apply removeBcmPort_quiet
    | |- emits_only _ (addToPortTable _ _) => apply addToPortTable_quiet
    | |- _ => emits_step
    end.
Qed.

Lemma setActiveLanes_quiet ports desiredLaneMode :
  emits_only not_linkSpeedChanged (setActiveLanes env ports desiredLaneMode).
Proof.
  unfold setActiveLanes. apply emits_only_bind; [apply emits_only_gets|].
  intros controllingPort. destruct (shouldUsePortResourceAPIs controllingPort).
  - destruct (negb _); [apply emits_only_throw|apply setActiveLanesWithFlexPortApi_quiet].
  - apply emits_only_bind; [apply emits_only_gets|]. intros laneMode.
    apply emits_only_bind.
    + destruct (_ || _); [|apply emits_only_ret].
      unfold setLanesControl. repeat emits_step.
    + intros _. unfold setLanesControl. repeat emits_step.
Qed.

Lemma reconfigureLaneMode_quiet oldPorts newPorts newLaneMode :
  emits_only not_linkSpeedChanged (reconfigureLaneMode env oldPorts newPorts newLaneMode).
Proof.
  unfold reconfigureLaneMode, disableLinkscan, disable, enableLinkscan.
  apply emits_only_bind; [apply emits_only_gets|]. intros allPorts.
  apply emits_only_bind; [repeat emits_step|]. intros _.
  apply emits_only_bind; [apply setActiveLanes_quiet|]. intros _.
  apply emits_only_forM_. intros swPort.
  apply emits_only_bind; [apply emits_only_getBcmPort|]. intros bcmPort.
  destruct (isEnabled swPort); repeat emits_step.
Qed.

End Transition.

(** ** [reconfigureIfNeeded] *)

Lemma filter_not_linkSpeedChanged evs :
  Forall not_linkSpeedChanged evs -> List.filter is_linkSpeedChanged evs = [].
Proof.
  induction 1 as [|e evs He _ IH]; [reflexivity|].
  simpl. rewrite He. exact IH.
Qed.

(** The last loop cannot fail, and records the notifications it owes. *)
Lemma notifySpeedChanges_eq oldPorts newPorts allPorts st :
  notifySpeedChanges oldPorts newPorts allPorts st
  = (Ret tt, logs (speedChangeNotifications oldPorts newPorts allPorts) st).
Proof.
  unfold notifySpeedChanges, speedChangeNotifications. revert st.
  induction allPorts as [|port rest IH]; intros st; simpl.
  - rewrite logs_nil. reflexivity.
  - rewrite logs_app, bind_eq.
    destruct (getSwPortIf oldPorts (getPortID port)) as [oldPort|],
      (getSwPortIf newPorts (getPortID port)) as [newPort|];
      try (simpl; rewrite logs_nil; apply IH).
    destruct (getSpeed oldPort =? getSpeed newPort); simpl.
    + rewrite logs_nil. apply IH.
    + apply IH.
Qed.

(** Which members are notified, and of what. *)
Lemma elem_of_speedChangeNotifications oldPorts newPorts members e :
  e ∈ speedChangeNotifications oldPorts newPorts members <->
  exists member oldPort newPort,
    member ∈ members /\
    getSwPortIf oldPorts (getPortID member) = Some oldPort /\
    getSwPortIf newPorts (getPortID member) = Some newPort /\
    getSpeed oldPort <> getSpeed newPort /\
    e = LinkSpeedChanged (getPortID member) (getSpeed newPort).
Proof.
  unfold speedChangeNotifications. rewrite list_elem_of_join. split.
  - intros (l & He & Hl). apply list_elem_of_fmap in Hl as (member & -> & Hm).
    destruct (getSwPortIf oldPorts (getPortID member)) as [oldPort|] eqn:Ho;
      [|inversion He].
    destruct (getSwPortIf newPorts (getPortID member)) as [newPort|] eqn:Hn;
      [|inversion He].
    destruct (Z.eqb_spec (getSpeed oldPort) (getSpeed newPort)); [inversion He|].
    apply list_elem_of_singleton in He. exists member, oldPort, newPort. auto.
  - intros (member & oldPort & newPort & Hm & Ho & Hn & Hne & ->).
    eexists. split; [|apply list_elem_of_fmap; exists member; split; [reflexivity|exact Hm]].
    simpl. rewrite Ho, Hn.
    destruct (Z.eqb_spec (getSpeed oldPort) (getSpeed newPort)); [contradiction|].
    apply list_elem_of_singleton. reflexivity.
Qed.

Lemma speedChangeNotifications_same ports members :
  speedChangeNotifications ports ports members = [].
Proof.
  induction members as [|member rest IH]; [reflexivity|].
  change (speedChangeNotifications ports ports (member :: rest))
    with (match getSwPortIf ports (getPortID member),
                getSwPortIf ports (getPortID member) with
          | Some oldPort, Some newPort =>
            if getSpeed oldPort =? getSpeed newPort then []
            else [LinkSpeedChanged (getPortID member) (getSpeed newPort)]
          | _, _ => []
          end ++ speedChangeNotifications ports ports rest).
  rewrite IH.
  destruct (getSwPortIf ports (getPortID member)); [|reflexivity].
  rewrite Z.eqb_refl. reflexivity.
Qed.

(** [reconfigureIfNeeded] once the ports are read and the desired mode is
    calculated: the transition when the mode differs, then the loop. *)
Lemma reconfigureIfNeeded_eq env oldState newState st oldPorts newPorts desired :
  (getSwPorts env oldState st).1 = Ret oldPorts ->
  (getSwPorts env newState st).1 = Ret newPorts ->
  (desiredLaneModeOf env newPorts st).1 = Ret desired ->
  reconfigureIfNeeded env oldState newState st
  = let step := (if negb (desired =? laneMode_ st)
                 then reconfigureLaneMode env oldPorts newPorts desired
                 else mret tt) st in
    match step.1 with
    | Ret _ =>
      (Ret tt, logs (speedChangeNotifications oldPorts newPorts (allPorts_ step.2)) step.2)
    | Throw e => (Throw e, step.2)
    | Undefined => (Undefined, step.2)
    end.
Proof.
  intros Ho Hn Hd. unfold reconfigureIfNeeded.
  rewrite (bind_read_only _ _ st (getSwPorts_read_only env oldState)), Ho.
  rewrite (bind_read_only _ _ st (getSwPorts_read_only env newState)), Hn.
  rewrite (bind_read_only _ _ st (desiredLaneModeOf_read_only env newPorts)), Hd.
  rewrite bind_gets, bind_eq. simpl.
  destruct (negb (desired =? laneMode_ st)).
  - destruct (reconfigureLaneMode env oldPorts newPorts desired st) as [[[]|e|] stT];
      simpl; [|reflexivity..].
    rewrite bind_gets. apply notifySpeedChanges_eq.
  - simpl. rewrite bind_gets. apply notifySpeedChanges_eq.
Qed.

(** When reading the ports or calculating the mode does not return,
    nothing is done. *)
Lemma reconfigureIfNeeded_early env oldState newState st :
  (forall oldPorts newPorts desired,
     (getSwPorts env oldState st).1 = Ret oldPorts ->
     (getSwPorts env newState st).1 = Ret newPorts ->
     (desiredLaneModeOf env newPorts st).1 = Ret desired -> False) ->
  (reconfigureIfNeeded env oldState newState st).2 = st /\
  (reconfigureIfNeeded env oldState newState st).1 <> Ret tt.
Proof.
  intros Hnot. unfold reconfigureIfNeeded.
  rewrite (bind_read_only _ _ st (getSwPorts_read_only env oldState)).
  destruct (getSwPorts env oldState st).1 as [oldPorts|e|] eqn:Ho;
    [|split; [reflexivity|discriminate]..].
  rewrite (bind_read_only _ _ st (getSwPorts_read_only env newState)).
  destruct (getSwPorts env newState st).1 as [newPorts|e|] eqn:Hn;
    [|split; [reflexivity|discriminate]..].
  rewrite (bind_read_only _ _ st (desiredLaneModeOf_read_only env newPorts)).
  destruct (desiredLaneModeOf env newPorts st).1 as [desired|e|] eqn:Hd;
    [|split; [reflexivity|discriminate]..].
  exfalso. eapply Hnot; eauto.
Qed.

(** C6 (as amended). When the lane mode the ports of [S] ask for is the
    group's current lane mode, [reconfigureIfNeeded S S] leaves the state
    as it found it: no call of any kind is made. *)
Theorem reconfigureIfNeeded_same_state (env : Env) (S : SwitchState) (st : State) :
  (forall ports desired,
     (getSwPorts env S st).1 = Ret ports ->
     (desiredLaneModeOf env ports st).1 = Ret desired ->
     desired = laneMode_ st) ->
  (reconfigureIfNeeded env S S st).2 = st.
Proof.
  intros Hsync.
  destruct (getSwPorts env S st).1 as [ports|e|] eqn:Hp.
  - destruct (desiredLaneModeOf env ports st).1 as [desired|e|] eqn:Hd.
    + rewrite (reconfigureIfNeeded_eq env S S st ports ports desired Hp Hp Hd).
      rewrite (Hsync ports desired eq_refl Hd), Z.eqb_refl. simpl.
      rewrite speedChangeNotifications_same. apply logs_nil.
    + apply reconfigureIfNeeded_early. intros ? ? ? H1 H2 H3.
      rewrite Hp in H1, H2. injection H1 as <-. injection H2 as <-.
      rewrite Hd in H3. discriminate.
    + apply reconfigureIfNeeded_early. intros ? ? ? H1 H2 H3.
      rewrite Hp in H1, H2. injection H1 as <-. injection H2 as <-.
      rewrite Hd in H3. discriminate.
  - apply reconfigureIfNeeded_early. intros ? ? ? H1. rewrite Hp in H1. discriminate.
  - apply reconfigureIfNeeded_early. intros ? ? ? H1. rewrite Hp in H1. discriminate.
Qed.

(** A legacy group of four 10G ports that is in SINGLE mode. *)
Lemma reconfigureIfNeeded_same_state_witness :
  (reconfigureIfNeeded Example.legacyEnv {| getPorts := Example.fourTenG |}
     {| getPorts := Example.fourTenG |} (Example.group false SINGLE)).2
  = Example.group false SINGLE.
Proof.
  apply (reconfigureIfNeeded_same_state Example.legacyEnv
           {| getPorts := Example.fourTenG |} (Example.group false SINGLE)).
  intros ports desired Hp Hd.
  injection Hp as <-. injection Hd as <-. reflexivity.
Defined.

(** C6 (as stated) fails: the same group found in QUAD mode, as read from
    the hardware when it was built, is reconfigured although the old and
    the new state are the same. *)
Lemma reconfigureIfNeeded_same_state_counterexample :
  ~ (forall (env : Env) (S : SwitchState) (st : State),
       List.filter hw_mutating (trace (reconfigureIfNeeded env S S st).2)
       = List.filter hw_mutating (trace st)).
Proof.
  intros H.
  specialize (H Example.legacyEnv {| getPorts := Example.fourTenG |}
                (Example.group false QUAD)).
  vm_compute in H. discriminate H.
Qed.

(** C10. A call of [reconfigureIfNeeded] that returns has read the old
    and the new ports, has run the lane-mode transition when the desired
    mode differs from the current one (a step that makes no
    [linkSpeedChanged] call), and then, after that step, has notified
    exactly the members of the group, as it is after the step, that are
    found in both port lists with different speeds, each with its new
    speed and in member order.  A call that does not return has made no
    [linkSpeedChanged] call. *)
Theorem reconfigureIfNeeded_notifications (env : Env) (oldState newState : SwitchState)
    (st : State) :
  let r := reconfigureIfNeeded env oldState newState st in
  (r.1 = Ret tt ->
   exists oldPorts newPorts desired stT evs,
     (getSwPorts env oldState st).1 = Ret oldPorts /\
     (getSwPorts env newState st).1 = Ret newPorts /\
     (desiredLaneModeOf env newPorts st).1 = Ret desired /\
     stT = ((if negb (desired =? laneMode_ st)
             then reconfigureLaneMode env oldPorts newPorts desired
             else mret tt) st).2 /\
     trace stT = trace st ++ evs /\
     Forall not_linkSpeedChanged evs /\
     r.2 = logs (speedChangeNotifications oldPorts newPorts (allPorts_ stT)) stT /\
     (forall e, e ∈ speedChangeNotifications oldPorts newPorts (allPorts_ stT) <->
        exists member oldPort newPort,
          member ∈ allPorts_ stT /\
          getSwPortIf oldPorts (getPortID member) = Some oldPort /\
          getSwPortIf newPorts (getPortID member) = Some newPort /\
          getSpeed oldPort <> getSpeed newPort /\
          e = LinkSpeedChanged (getPortID member) (getSpeed newPort))) /\
  (r.1 <> Ret tt ->
   List.filter is_linkSpeedChanged (trace r.2) = List.filter is_linkSpeedChanged (trace st)).
Proof.
  intros r. subst r.
  destruct (getSwPorts env oldState st).1 as [oldPorts|e|] eqn:Ho;
    [|destruct (reconfigureIfNeeded_early env oldState newState st) as [Hst Hr];
      [intros ? ? ? H1; rewrite Ho in H1; discriminate
      |split; [intros H; contradiction|intros _; rewrite Hst; reflexivity]]..].
  destruct (getSwPorts env newState st).1 as [newPorts|e|] eqn:Hn;
    [|destruct (reconfigureIfNeeded_early env oldState newState st) as [Hst Hr];
      [intros ? ? ? _ H2; rewrite Hn in H2; discriminate
      |split; [intros H; contradiction|intros _; rewrite Hst; reflexivity]]..].
  destruct (desiredLaneModeOf env newPorts st).1 as [desired|e|] eqn:Hd;
    [|destruct (reconfigureIfNeeded_early env oldState newState st) as [Hst Hr];
      [intros ? ? ? _ H2 H3; rewrite Hn in H2; injection H2 as <-;
       rewrite Hd in H3; discriminate
      |split; [intros H; contradiction|intros _; rewrite Hst; reflexivity]]..].
  rewrite (reconfigureIfNeeded_eq env oldState newState st oldPorts newPorts desired Ho Hn Hd).
  set (step := (if negb (desired =? laneMode_ st)
                then reconfigureLaneMode env oldPorts newPorts desired
                else mret tt) st).
  assert (Hquiet : exists evs, trace step.2 = trace st ++ evs /\
                               Forall not_linkSpeedChanged evs).
  { subst step. destruct (negb (desired =? laneMode_ st)).
    - apply reconfigureLaneMode_quiet.
    - apply (emits_only_ret not_linkSpeedChanged tt). }
  destruct Hquiet as (evs & Htrace & Hevs). simpl.
  destruct step.1 as [[]|e|] eqn:Hstep; simpl.
  - split; [|intros H; contradiction]. intros _.
    exists oldPorts, newPorts, desired, step.2, evs.
    repeat (split; [reflexivity || assumption|]).
    intros e. apply elem_of_speedChangeNotifications.
  - split; [discriminate|]. intros _.
    rewrite Htrace, List.filter_app, (filter_not_linkSpeedChanged evs Hevs), app_nil_r.
    reflexivity.
  - split; [discriminate|]. intros _.
    rewrite Htrace, List.filter_app, (filter_not_linkSpeedChanged evs Hevs), app_nil_r.
    reflexivity.
Qed.

(** A legacy group of four 10G ports in SINGLE mode is given one 40G port:
    the group goes to QUAD, and then the platform port of member 1 is told
    of its new speed. *)
Lemma reconfigureIfNeeded_notifications_witness :
  let r := reconfigureIfNeeded Example.legacyEnv {| getPorts := Example.fourTenG |}
             {| getPorts := Example.oneFortyG |} (Example.group false SINGLE) in
  r.1 = Ret tt /\
  trace r.2
  = [DisableLinkscan 1; DisablePort 1; DisableLinkscan 2; DisablePort 2;
     DisableLinkscan 3; DisablePort 3; DisableLinkscan 4; DisablePort 4;
     PortControlSetLanes 0 1 4; EnableLinkscan 1; LinkSpeedChanged 1 FORTYG] /\
  exists stT evs,
    trace stT = [] ++ evs /\ Forall not_linkSpeedChanged evs /\
    r.2 = logs (speedChangeNotifications Example.fourTenG Example.oneFortyG
                  (allPorts_ stT)) stT.
Proof.
  intros r. split; [reflexivity|]. split; [reflexivity|].
  destruct (reconfigureIfNeeded_notifications Example.legacyEnv
              {| getPorts := Example.fourTenG |} {| getPorts := Example.oneFortyG |}
              (Example.group false SINGLE)) as [Hret _].
  destruct (Hret eq_refl)
    as (oldPorts & newPorts & desired & stT & evs & Ho & Hn & _ & _ & Ht & He & Hr & _).
  injection Ho as <-. injection Hn as <-.
  exists stT, evs. split; [exact Ht|]. split; [exact He|exact Hr].
Defined.

(** ** The flex transition *)

Section Flex.
Variable env : Env.

Lemma checked_call_Ret_inv e st st' :
  checked_call env e st = (Ret tt, st') -> st' = logs [e] st.
Proof.
  intros H. rewrite <- log_logs, <- (checked_call_state env e st), H. reflexivity.
Qed.

(** A loop whose body only records calls. *)
Lemma forM__Ret_logs {A} (l : list A) (body : A -> M unit) (evs : A -> list Event) :
  (forall x s s', body x s = (Ret tt, s') -> s' = logs (evs x) s) ->
  forall st st', forM_ l body st = (Ret tt, st') -> st' = logs (mjoin (evs <$> l)) st.
Proof.
  intros Hbody. induction l as [|x rest IH]; intros st st' H.
  - injection H as <-. simpl. symmetry. apply logs_nil.
  - simpl in H. apply bind_Ret_inv in H as ([] & s1 & Hx & Hrest).
    apply Hbody in Hx. subst s1. apply IH in Hrest. subst st'.
    change (mjoin (evs <$> x :: rest)) with (evs x ++ mjoin (evs <$> rest)).
    rewrite logs_app. reflexivity.
Qed.

Lemma setPortSpecificControls_Ret bcmPort enable st st' :
  setPortSpecificControls env bcmPort enable st = (Ret tt, st') ->
  st' = logs (portControlEvents env bcmPort enable) st.
Proof.
  intros H. unfold setPortSpecificControls in H.
  apply (forM__Ret_logs _ _
           (fun ctl => [SwitchControlPortSet (getUnit env) (getBcmPortId bcmPort) ctl enable]))
    in H; [exact H|].
  intros ctl s s' Hc. apply (checked_call_Ret_inv _ s s' Hc).
Qed.

Lemma quiesce_Ret allPorts st st' :
  forM_ allPorts (fun port =>
    let del flags := L2AddrDeleteByPort (getUnit env) (getBcmPortId port) flags in
    rv ← sdk_call env (del kBcmL2DeleteStatic);
    _ ← bcmCheckError rv (del kBcmL2DeleteStatic);
    rv ← sdk_call env (del kBcmL2DeletePending);
    _ ← bcmCheckError rv (del kBcmL2DeletePending);
    setPortSpecificControls env port false) st = (Ret tt, st') ->
  st' = logs (mjoin (quiesceEvents env <$> allPorts)) st.
Proof.
  apply forM__Ret_logs. intros port s s' H.
  set (del := fun flags => L2AddrDeleteByPort (getUnit env) (getBcmPortId port) flags) in *.
  change (((checked_call env (del kBcmL2DeleteStatic)) ≫= fun _ =>
           (checked_call env (del kBcmL2DeletePending)) ≫= fun _ =>
           setPortSpecificControls env port false) s = (Ret tt, s')) in H.
  apply bind_Ret_inv in H as ([] & s1 & H1 & H).
  apply bind_Ret_inv in H as ([] & s2 & H2 & H3).
  apply checked_call_Ret_inv in H1, H2. apply setPortSpecificControls_Ret in H3.
  subst s1 s2 s'. unfold quiesceEvents. rewrite <- !logs_app. reflexivity.
Qed.

(** *** The port table *)

Lemma removeBcmPort_eq id st :
  exists st', removeBcmPort id st = (Ret tt, st') /\
    controllingPort_ st' = controllingPort_ st /\
    allPorts_ st' = allPorts_ st /\
    laneMode_ st' = laneMode_ st /\
    nextHandle st' = nextHandle st /\
    trace st' = trace st ++ [PortTableRemove id] /\
    portTable st' = delete id (portTable st).
Proof.
  unfold removeBcmPort, notify. rewrite bind_modify. unfold modify.
  destruct (portTable st !! id) eqn:Hl; eexists; (split; [reflexivity|]); simpl;
    repeat split.
  symmetry. apply delete_id. exact Hl.
Qed.

Lemma removeLoop_eq (members : list BcmPort) st :
  exists st', forM_ members (fun port => removeBcmPort (getPortID port)) st = (Ret tt, st') /\
    controllingPort_ st' = controllingPort_ st /\
    allPorts_ st' = allPorts_ st /\
    laneMode_ st' = laneMode_ st /\
    nextHandle st' = nextHandle st /\
    trace st' = trace st ++ (PortTableRemove <$> (getPortID <$> members)) /\
    (forall id, portTable st' !! id
                = if decide (id ∈ getPortID <$> members) then None else portTable st !! id).
Proof.
  revert st. induction members as [|port rest IH]; intros st.
  - exists st. simpl. rewrite app_nil_r. repeat split.
  - destruct (removeBcmPort_eq (getPortID port) st)
      as (s1 & H1 & Hc1 & Ha1 & Hm1 & Hn1 & Ht1 & Hp1).
    destruct (IH s1) as (st' & H2 & Hc2 & Ha2 & Hm2 & Hn2 & Ht2 & Hp2).
    exists st'. split.
    { simpl. rewrite (bind_Ret _ _ _ _ _ H1), H2. reflexivity. }
    repeat split; try congruence.
    + rewrite Ht2, Ht1, <- app_assoc. reflexivity.
    + intros id. rewrite Hp2, Hp1, fmap_cons.
      destruct (decide (id = getPortID port)) as [->|Hne].
      * rewrite lookup_delete_eq.
        destruct (decide (getPortID port ∈ getPortID <$> rest)),
          (decide (getPortID port ∈ getPortID port :: (getPortID <$> rest)));
          try reflexivity; exfalso; set_solver.
      * rewrite lookup_delete_ne by congruence.
        destruct (decide (id ∈ getPortID <$> rest)),
          (decide (id ∈ getPortID port :: (getPortID <$> rest)));
          try reflexivity; exfalso; set_solver.
Qed.

Lemma addBcmPort_getBcmPort id st :
  (_ ← addBcmPort env id; getBcmPort id) st
  = (Ret (newBcmPort env id (nextHandle st)),
     log (PortTableAdd id (nextHandle st))
       (set_nextHandle (S (nextHandle st))
          (set_portTable (<[id := newBcmPort env id (nextHandle st)]> (portTable st)) st))).
Proof.
  unfold addBcmPort, getBcmPort, notify. rewrite bind_eq. simpl.
  rewrite bind_gets.
  cbn [portTable log set_nextHandle set_portTable]. rewrite lookup_insert_eq. reflexivity.
Qed.

Lemma addToPortTable_eq (addedPorts : list Port) st :
  exists newPorts st', addToPortTable env addedPorts st = (Ret newPorts, st') /\
    controllingPort_ st' = controllingPort_ st /\
    allPorts_ st' = allPorts_ st /\
    laneMode_ st' = laneMode_ st /\
    registered st' = registered st /\
    trace st' = trace st
                ++ ((fun bcmPort => PortTableAdd (getPortID bcmPort) (handle bcmPort))
                      <$> newPorts) /\
    getPortID <$> newPorts = getID <$> addedPorts /\
    Forall (fun bcmPort => (nextHandle st <= handle bcmPort)%nat) newPorts /\
    (nextHandle st <= nextHandle st')%nat /\
    (forall id, id ∈ getID <$> addedPorts ->
       exists bcmPort, bcmPort ∈ newPorts /\ portTable st' !! id = Some bcmPort /\
                       getPortID bcmPort = id) /\
    (forall id, id ∉ getID <$> addedPorts -> portTable st' !! id = portTable st !! id).
Proof.
  revert st. induction addedPorts as [|port rest IH]; intros st.
  - exists [], st. simpl. rewrite app_nil_r. repeat split; auto.
    intros id Hin. inversion Hin.
  - pose proof (addBcmPort_getBcmPort (getID port) st) as Hadd.
    set (s1 := log _ _) in Hadd.
    destruct (IH s1) as (others & st' & Hrest & Hc & Ha & Hm & Hr & Ht & Hids & Hh & Hn
                         & Hin & Hout).
    exists (newBcmPort env (getID port) (nextHandle st) :: others), st'.
    split.
    { change (addToPortTable env (port :: rest) st)
        with ((addBcmPort env (getID port) ≫= fun _ =>
               getBcmPort (getID port) ≫= fun newPort =>
               addToPortTable env rest ≫= fun newPorts => mret (newPort :: newPorts)) st).
      rewrite <- bind_assoc, (bind_Ret _ _ _ _ _ Hadd), (bind_Ret _ _ _ _ _ Hrest).
      reflexivity. }
    repeat split; try (etransitivity; [eassumption|reflexivity]).
    + rewrite Ht. subst s1. simpl. rewrite <- app_assoc. reflexivity.
    + rewrite !fmap_cons, Hids. reflexivity.
    + constructor; [simpl; lia|]. eapply Forall_impl; [exact Hh|].
      intros bcmPort Hb. subst s1. simpl in Hb. lia.
    + subst s1. simpl in Hn. lia.
    + intros id Hid. rewrite fmap_cons in Hid.
      destruct (decide (id ∈ getID <$> rest)) as [Hr'|Hr'].
      * destruct (Hin id Hr') as (bcmPort & Hb & Hl & Hp).
        exists bcmPort. split; [right; exact Hb|]. split; assumption.
      * assert (id = getID port) as -> by set_solver.
        exists (newBcmPort env (getID port) (nextHandle st)).
        split; [left|]. split; [|reflexivity].
        rewrite (Hout _ Hr'). subst s1. simpl. apply lookup_insert_eq.
    + intros id Hid. rewrite fmap_cons in Hid.
      rewrite Hout by set_solver. subst s1. simpl.
      apply lookup_insert_ne. set_solver.
Qed.

Lemma registerLoop_eq (members : list BcmPort) st :
  exists st', forM_ members registerInPortGroup st = (Ret tt, st') /\
    controllingPort_ st' = controllingPort_ st /\
    allPorts_ st' = allPorts_ st /\
    laneMode_ st' = laneMode_ st /\
    portTable st' = portTable st /\
    trace st' = trace st ++ (RegisterInPortGroup <$> (handle <$> members)) /\
    (forall h, h ∈ registered st' <-> h ∈ handle <$> members \/ h ∈ registered st).
Proof.
  revert st. induction members as [|member rest IH]; intros st.
  - exists st. simpl. rewrite app_nil_r. repeat split; auto.
    intros [Hin|Hin]; [inversion Hin|exact Hin].
  - set (s1 := log (RegisterInPortGroup (handle member))
                 (set_registered ({[handle member]} ∪ registered st) st)).
    destruct (IH s1) as (st' & H2 & Hc & Ha & Hm & Hp & Ht & Hr).
    exists st'. split.
    { simpl. rewrite bind_eq. unfold registerInPortGroup at 1, notify. rewrite bind_eq.
      simpl. fold s1. exact H2. }
    repeat split; try (etransitivity; [eassumption|reflexivity]).
    + rewrite Ht. subst s1. simpl. rewrite <- app_assoc. reflexivity.
    + intros Hh. apply Hr in Hh. subst s1. simpl in Hh. rewrite fmap_cons. set_solver.
    + intros Hh. apply Hr. subst s1. simpl. rewrite fmap_cons in Hh. set_solver.
Qed.

Lemma enableLoop_Ret (members : list BcmPort) st st' :
  forM_ members (fun port => setPortSpecificControls env port true) st = (Ret tt, st') ->
  st' = logs (mjoin ((fun bcmPort => portControlEvents env bcmPort true) <$> members)) st.
Proof.
  apply forM__Ret_logs. intros port s s' H. apply setPortSpecificControls_Ret. exact H.
Qed.

(** A flex transition that returns went through these states: the
    quiescing and the builder only recorded calls; then the old entries
    were removed, the added ports entered and read back, the controlling
    port looked up, the members registered and their controls set. *)
Lemma setActiveLanesWithFlexPortApi_Ret_inv (ports : list Port)
    (desiredLaneMode : LaneMode) (st st' : State) :
  setActiveLanesWithFlexPortApi env ports desiredLaneMode st = (Ret tt, st') ->
  let oldPorts := allPorts_ st in
  let addedPorts := builderAdded env desiredLaneMode ports in
  let sB := logs (mjoin (quiesceEvents env <$> oldPorts)
                  ++ [BuilderRemovePorts (getPortID <$> oldPorts);
                      BuilderAddPorts (getID <$> ports); BuilderProgram]) st in
  exists sC sD newPorts controllingPort sE,
    forM_ oldPorts (fun port => removeBcmPort (getPortID port)) sB = (Ret tt, sC) /\
    addToPortTable env addedPorts sC = (Ret newPorts, sD) /\
    portTable sD !! getPortID (controllingPort_ st) = Some controllingPort /\
    forM_ newPorts registerInPortGroup
      (set_allPorts newPorts (set_controllingPort controllingPort sD)) = (Ret tt, sE) /\
    st' = set_laneMode desiredLaneMode
            (logs (mjoin ((fun bcmPort => portControlEvents env bcmPort true) <$> newPorts))
               sE).
Proof.
  intros H oldPorts addedPorts sB. unfold setActiveLanesWithFlexPortApi in H.
  cbv zeta in H. rewrite bind_gets in H. fold oldPorts in H.
  apply bind_Ret_inv in H as ([] & sA & HA & H). apply quiesce_Ret in HA.
  apply bind_Ret_inv in H as ([] & sB1 & HB1 & H). apply checked_call_Ret_inv in HB1.
  apply bind_Ret_inv in H as (added & sB2 & HB2 & H).
  unfold builder_addPorts in HB2.
  apply bind_Ret_inv in HB2 as ([] & sB2' & HB2 & Hadded).
  apply checked_call_Ret_inv in HB2. injection Hadded as <- <-. fold addedPorts in H.
  apply bind_Ret_inv in H as ([] & sB3 & HB3 & H). apply checked_call_Ret_inv in HB3.
  assert (HsB : sB3 = sB).
  { subst sB3 sB2' sB1 sA sB. rewrite <- !logs_app. reflexivity. }
  rewrite HsB in H. clear HA HB1 HB2 HB3 HsB sA sB1 sB2' sB3.
  rewrite bind_gets in H.
  apply bind_Ret_inv in H as ([] & sC & HC & H).
  apply bind_Ret_inv in H as (newPorts & sD & HD & H).
  apply bind_Ret_inv in H as (controllingPort & sD' & Hcp & H).
  unfold getBcmPort in Hcp. rewrite bind_gets in Hcp.
  change (controllingPort_ sB) with (controllingPort_ st) in Hcp.
  destruct (portTable sD !! getPortID (controllingPort_ st)) as [cp|] eqn:Hlookup;
    [|discriminate]. injection Hcp as <- <-.
  rewrite !bind_modify in H.
  apply bind_Ret_inv in H as ([] & sE & HE & H).
  apply bind_Ret_inv in H as ([] & sF & HF & H). apply enableLoop_Ret in HF.
  injection H as <-. subst sF.
  exists sC, sD, newPorts, cp, sE. auto.
Qed.

(** C8. A flex transition that returns.  The identifiers of the old
    members that were not created anew have no entry in the port table;
    every identifier the builder reported as added has an entry, whose
    object was created by this call and is a member of the group; other
    identifiers keep their entry.  The members are the created objects, in
    the builder's order.  The controlling port is the entry the table now
    has for the controlling port's identifier.  Every member is registered
    in this group.  The calls made are, in order: for each old member the
    two purges and the five controls cleared; the builder's removal,
    addition and commit; the table removals and additions; the
    registrations; and, for each new member, the same five controls set.
    The lane mode is the desired one. *)
Theorem setActiveLanesWithFlexPortApi_post (ports : list Port) (desiredLaneMode : LaneMode)
    (st st' : State) :
  setActiveLanesWithFlexPortApi env ports desiredLaneMode st = (Ret tt, st') ->
  let oldPorts := allPorts_ st in
  let addedPorts := builderAdded env desiredLaneMode ports in
  (forall id, id ∈ getPortID <$> oldPorts -> id ∉ getID <$> addedPorts ->
     portTable st' !! id = None) /\
  (forall id, id ∈ getID <$> addedPorts ->
     exists bcmPort, bcmPort ∈ allPorts_ st' /\ portTable st' !! id = Some bcmPort /\
                     getPortID bcmPort = id) /\
  (forall id, id ∉ getPortID <$> oldPorts -> id ∉ getID <$> addedPorts ->
     portTable st' !! id = portTable st !! id) /\
  getPortID <$> allPorts_ st' = getID <$> addedPorts /\
  Forall (fun bcmPort => (nextHandle st <= handle bcmPort)%nat) (allPorts_ st') /\
  portTable st' !! getPortID (controllingPort_ st) = Some (controllingPort_ st') /\
  (forall bcmPort, bcmPort ∈ allPorts_ st' -> handle bcmPort ∈ registered st') /\
  trace st' = trace st ++ flexTransitionEvents env oldPorts ports (allPorts_ st') /\
  laneMode_ st' = desiredLaneMode.
Proof.
  intros H oldPorts addedPorts.
  destruct (setActiveLanesWithFlexPortApi_Ret_inv ports desiredLaneMode st st' H)
    as (sC & sD & newPorts & cp & sE & HC & HD & Hlookup & HE & ->).
  fold oldPorts addedPorts in HC, HD. set (sB := logs _ st) in HC.
  destruct (removeLoop_eq oldPorts sB) as (sC' & HC' & _ & _ & _ & HCn & HCt & HCp).
  rewrite HC in HC'. injection HC' as <-.
  destruct (addToPortTable_eq addedPorts sC)
    as (newPorts' & sD' & HD' & _ & _ & _ & _ & HDt & HDids & HDh & _ & HDin & HDout).
  rewrite HD in HD'. injection HD' as <- <-.
  destruct (registerLoop_eq newPorts (set_allPorts newPorts (set_controllingPort cp sD)))
    as (sE' & HE' & HEc & HEa & _ & HEp & HEt & HEr).
  rewrite HE in HE'. injection HE' as <-.
  cbn [portTable allPorts_ laneMode_ controllingPort_ registered trace set_laneMode logs
       set_allPorts set_controllingPort] in *.
  rewrite HEp, HEa.
  split; [|split; [|split; [|split; [|split; [|split; [|split; [|split]]]]]]].
  - intros id Hold Hnew. rewrite (HDout id Hnew), HCp.
    destruct (decide (id ∈ getPortID <$> oldPorts)); [reflexivity|contradiction].
  - intros id Hnew. exact (HDin id Hnew).
  - intros id Hold Hnew. rewrite (HDout id Hnew), HCp.
    destruct (decide (id ∈ getPortID <$> oldPorts)); [contradiction|reflexivity].
  - exact HDids.
  - eapply Forall_impl; [exact HDh|]. intros bcmPort Hb. simpl in Hb.
    rewrite HCn in Hb. exact Hb.
  - rewrite Hlookup, HEc. reflexivity.
  - intros bcmPort Hb. apply HEr. left. apply list_elem_of_fmap_2. exact Hb.
  - rewrite HEt, HDt, HCt. subst sB. unfold flexTransitionEvents.
    cbn [trace logs]. rewrite <- !app_assoc. reflexivity.
  - reflexivity.
Qed.

End Flex.

(** Four SINGLE-mode members become one QUAD-mode member: the table keeps
    no entry for 2, 3 and 4 and has a new object for 1, which is the only
    member and the controlling port; the group is in QUAD mode. *)
Lemma setActiveLanesWithFlexPortApi_post_witness :
  let st' := (setActiveLanesWithFlexPortApi (Example.flexEnv true) Example.oneFortyG QUAD
                (Example.group true SINGLE)).2 in
  portTable st' !! 2 = None /\
  getPortID <$> allPorts_ st' = [1] /\
  portTable st' !! 1 = Some (controllingPort_ st') /\
  (forall bcmPort, bcmPort ∈ allPorts_ st' -> handle bcmPort ∈ registered st') /\
  laneMode_ st' = QUAD.
Proof.
  intros st'.
  pose proof (surjective_pairing
                (setActiveLanesWithFlexPortApi (Example.flexEnv true) Example.oneFortyG QUAD
                   (Example.group true SINGLE))) as Hrun.
  assert (Hret : (setActiveLanesWithFlexPortApi (Example.flexEnv true) Example.oneFortyG QUAD
                    (Example.group true SINGLE)).1 = Ret tt) by (vm_compute; reflexivity).
  rewrite Hret in Hrun. fold st' in Hrun.
  destruct (setActiveLanesWithFlexPortApi_post (Example.flexEnv true) Example.oneFortyG QUAD
              (Example.group true SINGLE) st' Hrun)
    as (Hgone & _ & _ & Hids & _ & Hcp & Hreg & _ & Hmode).
  split; [|split; [exact Hids|split; [exact Hcp|split; [exact Hreg|exact Hmode]]]].
  apply Hgone.
  - apply list_elem_of_fmap. exists (Example.bcmPort true 1 2). split; [reflexivity|].
    right. left.
  - intros Hin. apply list_elem_of_singleton in Hin. discriminate Hin.
Defined.

(** ** Order of the members *)








(** ** Strategy selection *)

(** The first loop of [reconfigureLaneMode]: linkscan and port disabled
    for every member. *)
Lemma disableMembers_keeps {X} (proj : State -> X) env oldPorts allPorts :
  (forall e st, proj (log e st) = proj st) ->
  keeps proj (forM_ allPorts (fun bcmPort =>
    swPort ← lift (getSwPort oldPorts (getPortID bcmPort));
    _ ← disableLinkscan env bcmPort;
    disable env bcmPort swPort)).
Proof.
  intros Hlog. apply keeps_forM_. intros bcmPort.
  apply keeps_bind; [apply keeps_lift|]. intros swPort.
  apply keeps_bind; [apply keeps_checked_call; intros st; apply Hlog|]. intros _.
  apply keeps_checked_call. intros st. apply Hlog.
Qed.

Lemma disableMembers_emits env oldPorts allPorts :
  emits_only no_lane_write_or_builder (forM_ allPorts (fun bcmPort =>
    swPort ← lift (getSwPort oldPorts (getPortID bcmPort));
    _ ← disableLinkscan env bcmPort;
    disable env bcmPort swPort)).
Proof.
  apply emits_only_forM_. intros bcmPort.
  apply emits_only_bind; [apply emits_only_lift|]. intros swPort.
  apply emits_only_bind; [apply emits_only_checked_call; reflexivity|]. intros _.
  apply emits_only_checked_call. reflexivity.
Qed.

(** C7. A controlling port that uses the port resource APIs on a platform
    that cannot add or remove ports: [setActiveLanes] throws
    UnsupportedPlatformOperation at once.  The state is the one it was
    called in, so no call was made (no lane-count write, no
    resource-builder operation) and the lane mode is not changed.  The
    reconfiguration that calls it therefore never returns, writes no lane
    count and drives no resource builder, whatever the ports are. *)
Theorem setActiveLanes_flex_unsupported (env : Env) (ports : list Port)
    (desiredLaneMode : LaneMode) (st : State) :
  shouldUsePortResourceAPIs (controllingPort_ st) = true ->
  supportsAddRemovePort env = false ->
  setActiveLanes env ports desiredLaneMode st
  = (Throw (UnsupportedPlatformOperation (getPortID (controllingPort_ st))), st) /\
  (forall oldPorts,
     let r := reconfigureLaneMode env oldPorts ports desiredLaneMode st in
     r.1 <> Ret tt /\
     laneMode_ r.2 = laneMode_ st /\
     exists evs, trace r.2 = trace st ++ evs /\ Forall no_lane_write_or_builder evs).
Proof.
  intros Hflex Hno.
  assert (Hthrow : forall s, controllingPort_ s = controllingPort_ st ->
            setActiveLanes env ports desiredLaneMode s
            = (Throw (UnsupportedPlatformOperation (getPortID (controllingPort_ st))), s)).
  { intros s Hs. unfold setActiveLanes. rewrite bind_gets, Hs, Hflex, Hno. reflexivity. }
  split; [apply Hthrow; reflexivity|].
  intros oldPorts r. subst r. unfold reconfigureLaneMode. rewrite bind_gets.
  pose proof (disableMembers_keeps controllingPort_ env oldPorts (allPorts_ st)
                ltac:(reflexivity) st) as Hcp.
  pose proof (disableMembers_keeps laneMode_ env oldPorts (allPorts_ st)
                ltac:(reflexivity) st) as Hmode.
  destruct (disableMembers_emits env oldPorts (allPorts_ st) st) as (evs & Htrace & Hevs).
  rewrite bind_eq.
  destruct (forM_ (allPorts_ st) _ st) as [[[]|e|] s1]; simpl in Hcp, Hmode, Htrace |- *.
  - rewrite (bind_Throw _ _ _ _ _ (Hthrow s1 Hcp)). simpl.
    split; [discriminate|]. split; [exact Hmode|]. exists evs. auto.
  - split; [discriminate|]. split; [exact Hmode|]. exists evs. auto.
  - split; [discriminate|]. split; [exact Hmode|]. exists evs. auto.
Qed.

Lemma setActiveLanes_flex_unsupported_witness :
  setActiveLanes (Example.flexEnv false) Example.oneFortyG QUAD (Example.group true SINGLE)
  = (Throw (UnsupportedPlatformOperation 1), Example.group true SINGLE).
Proof.
  apply (setActiveLanes_flex_unsupported (Example.flexEnv false) Example.oneFortyG QUAD
           (Example.group true SINGLE)); reflexivity.
Defined.

(** * Further properties of the code *)

(** ** Looking a port up in a list *)

Lemma getSwPortIf_None ports id :
  getSwPortIf ports id = None <-> Forall (fun port => getID port <> id) ports.
Proof.
  induction ports as [|port rest IH]; simpl.
  - split; [constructor|reflexivity].
  - destruct (Z.eqb_spec (getID port) id) as [Heq|Hne].
    + split; [discriminate|]. intros H. inversion H; contradiction.
    + rewrite IH. split; [intros H; constructor; assumption|].
      intros H. inversion H; assumption.
Qed.

Lemma getSwPortIf_Some ports id port :
  getSwPortIf ports id = Some port <->
  exists pre post, ports = pre ++ port :: post /\ getID port = id /\
                   Forall (fun other => getID other <> id) pre.
Proof.
  revert port. induction ports as [|first rest IH]; intros port; simpl.
  - split; [discriminate|]. intros (pre & post & H & _). destruct pre; discriminate H.
  - destruct (Z.eqb_spec (getID first) id) as [Heq|Hne].
    + split.
      * intros [= <-]. exists [], rest. repeat split; [exact Heq|constructor].
      * intros (pre & post & H & Hid & Hpre). destruct pre as [|first' pre].
        -- injection H as -> _. reflexivity.
        -- injection H as <- _. inversion Hpre; contradiction.
    + rewrite IH. split.
      * intros (pre & post & -> & Hid & Hpre). exists (first :: pre), post.
        repeat split; [exact Hid|constructor; assumption].
      * intros (pre & post & H & Hid & Hpre). destruct pre as [|first' pre].
        -- injection H as -> _. contradiction.
        -- injection H as <- ->. inversion Hpre. exists pre, post. auto.
Qed.

(** X1. [getSwPortIf] returns the first port of the list that has the
    identifier, also when several have it, and nothing exactly when no
    port has it; [getSwPort] returns that same port and throws "Can't find
    sw port" exactly when no port has the identifier. *)
Theorem getSwPort_first_match (ports : list Port) (id : PortID) :
  (forall port, getSwPortIf ports id = Some port <->
     exists pre post, ports = pre ++ port :: post /\ getID port = id /\
                      Forall (fun other => getID other <> id) pre) /\
  (getSwPortIf ports id = None <-> Forall (fun port => getID port <> id) ports) /\
  (forall port, getSwPort ports id = Ret port <-> getSwPortIf ports id = Some port) /\
  (forall e, getSwPort ports id = Throw e <->
     e = SwPortNotFound id /\ Forall (fun port => getID port <> id) ports) /\
  getSwPort ports id <> Undefined.
Proof.
  split; [intros port; apply getSwPortIf_Some|].
  split; [apply getSwPortIf_None|].
  unfold getSwPort. pose proof (getSwPortIf_None ports id) as Hnone.
  destruct (getSwPortIf ports id) as [found|].
  - split; [|split; [|discriminate]].
    + intros port. split; intros [= ->]; reflexivity.
    + intros e. split; [discriminate|]. intros [_ H].
      apply Hnone in H. discriminate H.
  - split; [|split; [|discriminate]].
    + intros port. split; discriminate.
    + intros e. split; [intros [= <-]; split; [reflexivity|apply Hnone; reflexivity]|].
      intros [-> _]. reflexivity.
Qed.

(** ** The lane mode a speed needs *)

Lemma neededLaneModeForSpeed_loop_sound speed laneSpeeds m :
  neededLaneModeForSpeed_loop speed laneSpeeds = Ret m ->
  exists c, c ∈ laneSpeeds /\ c <> 0 /\ Z.rem speed c = 0 /\
    ((m = SINGLE /\ Z.quot speed c = 1) \/ (m = DUAL /\ Z.quot speed c = 2) \/
     (m = QUAD /\ (Z.quot speed c = 3 \/ Z.quot speed c = 4))).
Proof.
  induction laneSpeeds as [|c rest IH]; simpl; [discriminate|].
  assert (Hrest : neededLaneModeForSpeed_loop speed rest = Ret m ->
            exists c0, c0 ∈ c :: rest /\ c0 <> 0 /\ Z.rem speed c0 = 0 /\
              ((m = SINGLE /\ Z.quot speed c0 = 1) \/ (m = DUAL /\ Z.quot speed c0 = 2) \/
               (m = QUAD /\ (Z.quot speed c0 = 3 \/ Z.quot speed c0 = 4)))).
  { intros H. destruct (IH H) as (c0 & Hin & Hc0). exists c0. split; [right; exact Hin|exact Hc0]. }
  unfold std_div. destruct (Z.eqb_spec c 0) as [Hz|Hz]; simpl; [discriminate|].
  destruct ((speed =? INT_MIN) && (c =? -1)); [discriminate|]. simpl.
  destruct (Z.eqb_spec (Z.rem speed c) 0) as [Hr|Hr]; simpl; [|exact Hrest].
  destruct (Z.eqb_spec (Z.quot speed c) 1) as [H1|H1].
  { intros [= <-]. exists c. split; [left|]. repeat split; try assumption.
    left. split; [reflexivity|exact H1]. }
  destruct (Z.eqb_spec (Z.quot speed c) 2) as [H2|H2].
  { intros [= <-]. exists c. split; [left|]. repeat split; try assumption.
    right. left. split; [reflexivity|exact H2]. }
  destruct (Z.ltb_spec 2 (Z.quot speed c)), (Z.leb_spec (Z.quot speed c) 4); simpl;
    try exact Hrest.
  intros [= <-]. exists c. split; [left|]. repeat split; try assumption.
  right. right. split; [reflexivity|lia].
Qed.

(** X2. A lane mode returned by [neededLaneModeForSpeed] is achievable:
    the speed is not DEFAULT and is exactly 1, 2, 3 or 4 times one of the
    lane speeds offered, with SINGLE for 1, DUAL for 2 and QUAD for 3
    or 4, so the number of lanes used never exceeds the mode. *)
Theorem neededLaneModeForSpeed_sound (speed : PortSpeed) (laneSpeeds : LaneSpeeds)
    (m : LaneMode) :
  neededLaneModeForSpeed speed laneSpeeds = Ret m ->
  speed <> DEFAULT /\
  exists c lanes, c ∈ laneSpeeds /\ speed = c * lanes /\ 1 <= lanes <= m /\
    ((m = SINGLE /\ lanes = 1) \/ (m = DUAL /\ lanes = 2) \/
     (m = QUAD /\ (lanes = 3 \/ lanes = 4))).
Proof.
  unfold neededLaneModeForSpeed.
  destruct (Z.eqb_spec speed DEFAULT) as [|Hne]; [discriminate|].
  intros H. split; [exact Hne|].
  destruct (neededLaneModeForSpeed_loop_sound _ _ _ H) as (c & Hin & Hc & Hr & Hq).
  exists c, (Z.quot speed c). split; [exact Hin|].
  split.
  { pose proof (Z.quot_rem' speed c) as Hqr. rewrite Hr in Hqr. lia. }
  split; [|exact Hq].
  unfold SINGLE, DUAL, QUAD in *. lia.
Qed.

Lemma neededLaneModeForSpeed_sound_witness :
  exists c lanes, c ∈ [XG; TWENTYFIVEG] /\ FIFTYG = c * lanes /\ 1 <= lanes <= DUAL.
Proof.
  destruct (neededLaneModeForSpeed_sound FIFTYG [XG; TWENTYFIVEG] DUAL eq_refl)
    as (_ & c & lanes & Hin & Heq & Hle & _).
  exists c, lanes. auto.
Defined.

Lemma neededLaneModeForSpeed_loop_more speed laneSpeeds more m :
  neededLaneModeForSpeed_loop speed laneSpeeds = Ret m ->
  neededLaneModeForSpeed_loop speed (laneSpeeds ++ more) = Ret m.
Proof.
  induction laneSpeeds as [|c rest IH]; simpl; [discriminate|].
  destruct (std_div speed c) as [dv|]; [|discriminate].
  destruct (negb (rem dv =? 0)); [exact IH|].
  destruct (quot dv =? 1); [auto|]. destruct (quot dv =? 2); [auto|].
  destruct ((2 <? quot dv) && (quot dv <=? 4)); [auto|exact IH].
Qed.

(** X3. Offering more lane speeds after the ones present never changes
    a lane mode that [neededLaneModeForSpeed] already returns: the first
    fitting candidate decides. *)
Theorem neededLaneModeForSpeed_more (speed : PortSpeed) (laneSpeeds more : LaneSpeeds)
    (m : LaneMode) :
  neededLaneModeForSpeed speed laneSpeeds = Ret m ->
  neededLaneModeForSpeed speed (laneSpeeds ++ more) = Ret m.
Proof.
  unfold neededLaneModeForSpeed. destruct (speed =? DEFAULT); [discriminate|].
  apply neededLaneModeForSpeed_loop_more.
Qed.

Lemma neededLaneModeForSpeed_more_witness :
  neededLaneModeForSpeed HUNDREDG ([TWENTYFIVEG] ++ [FIFTYG]) = Ret QUAD.
Proof.
  apply (neededLaneModeForSpeed_more HUNDREDG [TWENTYFIVEG] [FIFTYG] QUAD). reflexivity.
Defined.

(** ** The lane mode a group needs, from the speeds *)

Lemma calculateDesiredLaneMode_from_Ret ports laneSpeeds lane m0 m :
  calculateDesiredLaneMode_from ports laneSpeeds lane m0 = Ret m ->
  m0 <= m /\
  (forall port, port ∈ ports -> isEnabled port = true ->
     exists n, neededLaneModeForSpeed (getSpeed port) laneSpeeds = Ret n /\ n <= m) /\
  (m = m0 \/ exists port, port ∈ ports /\ isEnabled port = true /\
                          neededLaneModeForSpeed (getSpeed port) laneSpeeds = Ret m).
Proof.
  revert lane m0. induction ports as [|port rest IH]; intros lane m0.
  - simpl. intros [= <-]. split; [lia|]. split; [|left; reflexivity].
    intros port Hin. inversion Hin.
  - destruct (isEnabled port) eqn:He.
    + destruct (neededLaneModeForSpeed (getSpeed port) laneSpeeds) as [n| |] eqn:Hn;
        [|simpl; rewrite He, Hn; discriminate..].
      rewrite (calculateDesiredLaneMode_from_enabled _ _ _ _ _ n He Hn).
      destruct (checkLaneModeisValid lane (Z.max n m0)) as [[]| |]; [|discriminate..].
      intros H. apply IH in H as (Hle & Hall & Hmax).
      split; [lia|]. split.
      * intros other Hin Hen. apply elem_of_cons in Hin as [->|Hin]; [|auto].
        exists n. split; [exact Hn|lia].
      * destruct Hmax as [Hm|(other & Hin & Hen & Hother)].
        -- destruct (Z.max_spec n m0) as [[_ Hmx]|[_ Hmx]]; rewrite Hmx in Hm.
           ++ left. exact Hm.
           ++ right. exists port. split; [left|]. split; [exact He|]. rewrite Hm. exact Hn.
        -- right. exists other. split; [right; exact Hin|]. auto.
    + rewrite calculateDesiredLaneMode_from_disabled by exact He.
      intros H. apply IH in H as (Hle & Hall & Hmax).
      split; [exact Hle|]. split.
      * intros other Hin Hen. apply elem_of_cons in Hin as [->|Hin]; [congruence|auto].
      * destruct Hmax as [Hm|(other & Hin & Hother)]; [left; exact Hm|].
        right. exists other. split; [right; exact Hin|exact Hother].
Qed.

(** X4. A lane mode returned by [calculateDesiredLaneMode] is SINGLE,
    DUAL or QUAD; every enabled member has a lane mode for its speed that
    is at most the result; and the result is SINGLE or the lane mode of
    some enabled member: the result is the largest need, with SINGLE as
    the floor. *)
Theorem calculateDesiredLaneMode_is_max (ports : list Port) (laneSpeeds : LaneSpeeds)
    (m : LaneMode) :
  calculateDesiredLaneMode ports laneSpeeds = Ret m ->
  (m = SINGLE \/ m = DUAL \/ m = QUAD) /\
  (forall port, port ∈ ports -> isEnabled port = true ->
     exists n, neededLaneModeForSpeed (getSpeed port) laneSpeeds = Ret n /\ n <= m) /\
  (m = SINGLE \/ exists port, port ∈ ports /\ isEnabled port = true /\
                              neededLaneModeForSpeed (getSpeed port) laneSpeeds = Ret m).
Proof.
  intros H. apply calculateDesiredLaneMode_from_Ret in H as (_ & Hall & Hmax).
  split; [|split; assumption].
  destruct Hmax as [->|(port & _ & _ & Hn)]; [auto|].
  exact (neededLaneModeForSpeed_range _ _ _ Hn).
Qed.

(** A 50G member on lane 0 and a 10G member on lane 2: DUAL. *)
Lemma calculateDesiredLaneMode_is_max_witness :
  exists port, port ∈ [Example.swPort 1 true FIFTYG; Example.swPort 2 false XG;
                        Example.swPort 3 true XG] /\
    neededLaneModeForSpeed (getSpeed port) [XG; TWENTYFIVEG] = Ret DUAL.
Proof.
  destruct (calculateDesiredLaneMode_is_max
              [Example.swPort 1 true FIFTYG; Example.swPort 2 false XG;
               Example.swPort 3 true XG] [XG; TWENTYFIVEG] DUAL eq_refl)
    as (_ & _ & [Hsingle|(port & Hin & _ & Hn)]); [discriminate Hsingle|].
  exists port. split; assumption.
Defined.

Lemma calculateDesiredLaneMode_from_all_disabled ports laneSpeeds lane m0 :
  Forall (fun port => isEnabled port = false) ports ->
  calculateDesiredLaneMode_from ports laneSpeeds lane m0 = Ret m0.
Proof.
  intros H. revert lane. induction H as [|port rest Hd _ IH]; intros lane; [reflexivity|].
  rewrite calculateDesiredLaneMode_from_disabled by exact Hd. apply IH.
Qed.

(** X5. A group without an enabled member, the empty group included, is
    given SINGLE, whatever the speeds of its members (DEFAULT included)
    and whatever the lane speeds are: nothing is divided or checked. *)
Theorem calculateDesiredLaneMode_all_disabled (ports : list Port) (laneSpeeds : LaneSpeeds) :
  Forall (fun port => isEnabled port = false) ports ->
  calculateDesiredLaneMode ports laneSpeeds = Ret SINGLE.
Proof. apply calculateDesiredLaneMode_from_all_disabled. Qed.

Lemma calculateDesiredLaneMode_all_disabled_witness :
  calculateDesiredLaneMode [Example.swPort 1 false DEFAULT; Example.swPort 2 false HUNDREDG]
    [0] = Ret SINGLE.
Proof.
  apply (calculateDesiredLaneMode_all_disabled
           [Example.swPort 1 false DEFAULT; Example.swPort 2 false HUNDREDG] [0]).
  repeat constructor.
Defined.

(** X6. An enabled member whose speed has no lane mode keeps
    [calculateDesiredLaneMode] from returning; in particular an enabled
    member left at the DEFAULT speed does, wherever it is in the group. *)
Theorem calculateDesiredLaneMode_needs_every_enabled (ports : list Port)
    (laneSpeeds : LaneSpeeds) (port : Port) :
  port ∈ ports -> isEnabled port = true ->
  ((forall n, neededLaneModeForSpeed (getSpeed port) laneSpeeds <> Ret n) \/
   getSpeed port = DEFAULT) ->
  forall m, calculateDesiredLaneMode ports laneSpeeds <> Ret m.
Proof.
  intros Hin Hen Hbad m H.
  apply calculateDesiredLaneMode_from_Ret in H as (_ & Hall & _).
  destruct (Hall port Hin Hen) as (n & Hn & _).
  destruct Hbad as [Hnone|Hdefault]; [exact (Hnone n Hn)|].
  rewrite Hdefault in Hn. discriminate Hn.
Qed.

Lemma calculateDesiredLaneMode_needs_every_enabled_witness :
  (calculateDesiredLaneMode
     [Example.swPort 1 true XG; Example.swPort 2 true DEFAULT] [XG] <> Ret SINGLE) /\
  (calculateDesiredLaneMode
     [Example.swPort 1 true XG; Example.swPort 2 true DEFAULT] [XG] <> Ret QUAD).
Proof.
  split;
    apply (calculateDesiredLaneMode_needs_every_enabled
             [Example.swPort 1 true XG; Example.swPort 2 true DEFAULT] [XG]
             (Example.swPort 2 true DEFAULT) (list_elem_of_further _ _ _ (list_elem_of_here _ _))
             eq_refl (or_intror eq_refl)).
Defined.

Lemma calculateDesiredLaneMode_from_step port rest laneSpeeds lane m0 r :
  laneModeInRange m0 ->
  calculateDesiredLaneMode_from (port :: rest) laneSpeeds lane m0 = Ret r ->
  exists m1, laneModeInRange m1 /\
    calculateDesiredLaneMode_from rest laneSpeeds (lane + 1) m1 = Ret r.
Proof.
  intros Hm0. destruct (isEnabled port) eqn:He.
  - destruct (neededLaneModeForSpeed (getSpeed port) laneSpeeds) as [n| |] eqn:Hn;
      [|simpl; rewrite He, Hn; discriminate..].
    rewrite (calculateDesiredLaneMode_from_enabled _ _ _ _ _ n He Hn).
    destruct (checkLaneModeisValid lane (Z.max n m0)) as [[]| |]; [|discriminate..].
    intros H. exists (Z.max n m0). split; [|exact H].
    apply raise_cases; [exact (neededLaneModeForSpeed_range _ _ _ Hn)|exact Hm0].
  - rewrite calculateDesiredLaneMode_from_disabled by exact He.
    intros H. exists m0. auto.
Qed.

(** From lane 3 on, DUAL can only come out of a group with no enabled
    member left. *)
Lemma calculateDesiredLaneMode_from_DUAL_high ports laneSpeeds lane m0 :
  3 <= lane -> laneModeInRange m0 ->
  calculateDesiredLaneMode_from ports laneSpeeds lane m0 = Ret DUAL ->
  Forall (fun port => isEnabled port = false) ports.
Proof.
  revert lane m0. induction ports as [|port rest IH]; intros lane m0 Hl Hm0;
    [constructor|].
  destruct (isEnabled port) eqn:He.
  - destruct (neededLaneModeForSpeed (getSpeed port) laneSpeeds) as [n| |] eqn:Hn;
      [|simpl; rewrite He, Hn; discriminate..].
    rewrite (calculateDesiredLaneMode_from_enabled _ _ _ _ _ n He Hn).
    destruct (raise_cases n m0 (neededLaneModeForSpeed_range _ _ _ Hn) Hm0)
      as [Hr | [Hr | Hr]]; rewrite Hr.
    + rewrite checkLaneModeisValid_SINGLE. intros H. exfalso.
      pose proof (IH (lane + 1) SINGLE ltac:(lia) ltac:(left; reflexivity) H) as Hall.
      rewrite (calculateDesiredLaneMode_from_all_disabled _ _ _ _ Hall) in H.
      discriminate H.
    + rewrite checkLaneModeisValid_DUAL.
      destruct (Z.eqb_spec lane 0); [lia|]. destruct (Z.eqb_spec lane 2); [lia|].
      discriminate.
    + rewrite checkLaneModeisValid_QUAD by lia. discriminate.
  - rewrite calculateDesiredLaneMode_from_disabled by exact He.
    intros H. constructor; [exact He|]. apply (IH (lane + 1) m0); [lia|exact Hm0|exact H].
Qed.

(** X7. When [calculateDesiredLaneMode] returns DUAL, no member on lane
    3 or above is enabled. *)
Theorem calculateDesiredLaneMode_DUAL_lanes (ports : list Port) (laneSpeeds : LaneSpeeds)
    (lane : nat) (port : Port) :
  calculateDesiredLaneMode ports laneSpeeds = Ret DUAL ->
  ports !! lane = Some port -> isEnabled port = true -> (lane < 3)%nat.
Proof.
  unfold calculateDesiredLaneMode. intros H Hlookup Hen.
  destruct (decide (lane < 3)%nat) as [|Hge]; [assumption|]. exfalso.
  destruct ports as [|p0 [|p1 [|p2 rest]]];
    try (apply lookup_lt_Some in Hlookup; simpl in Hlookup; lia).
  apply calculateDesiredLaneMode_from_step in H as (m1 & Hm1 & H); [|left; reflexivity].
  apply calculateDesiredLaneMode_from_step in H as (m2 & Hm2 & H); [|exact Hm1].
  apply calculateDesiredLaneMode_from_step in H as (m3 & Hm3 & H); [|exact Hm2].
  apply calculateDesiredLaneMode_from_DUAL_high in H; [|lia|exact Hm3].
  destruct lane as [|[|[|lane]]]; try lia. simpl in Hlookup.
  apply list_elem_of_lookup_2 in Hlookup.
  rewrite Forall_forall in H. rewrite (H port Hlookup) in Hen. discriminate Hen.
Qed.

(** Two 20G members on lanes 0 and 2. *)
Lemma calculateDesiredLaneMode_DUAL_lanes_witness :
  calculateDesiredLaneMode
    [Example.swPort 1 true TWENTYG; Example.swPort 2 false XG;
     Example.swPort 3 true TWENTYG; Example.swPort 4 false XG] [XG] = Ret DUAL /\
  (2 < 3)%nat.
Proof.
  split; [reflexivity|].
  apply (calculateDesiredLaneMode_DUAL_lanes
           [Example.swPort 1 true TWENTYG; Example.swPort 2 false XG;
            Example.swPort 3 true TWENTYG; Example.swPort 4 false XG]
           [XG] 2 (Example.swPort 3 true TWENTYG)); reflexivity.
Defined.

(** ** The lane mode a group needs, from the profiles *)

Lemma neededModeFromProfile_eq port profiles :
  neededModeFromProfile port profiles
  = match profileLaneMode profiles port with
    | Some n => Ret n
    | None => Throw (UnknownProfile (getName port) (getProfileID port))
    end.
Proof.
  unfold neededModeFromProfile, profileLaneMode.
  destruct (profiles !! getProfileID port); reflexivity.
Qed.

Lemma calculateDesiredLaneModeFromConfig_from_cons port rest profiles m0 :
  calculateDesiredLaneModeFromConfig_from (port :: rest) profiles m0
  = if isEnabled port then
      match profileLaneMode profiles port with
      | Some n => calculateDesiredLaneModeFromConfig_from rest profiles (Z.max n m0)
      | None => Throw (UnknownProfile (getName port) (getProfileID port))
      end
    else calculateDesiredLaneModeFromConfig_from rest profiles m0.
Proof.
  simpl. destruct (isEnabled port); [|reflexivity].
  rewrite neededModeFromProfile_eq.
  destruct (profileLaneMode profiles port) as [n|]; [|reflexivity]. simpl.
  destruct (Z.gtb_spec n m0).
  - rewrite Z.max_l by lia. reflexivity.
  - rewrite Z.max_r by lia. reflexivity.
Qed.

Lemma calculateDesiredLaneModeFromConfig_from_Ret ports profiles m0 m :
  calculateDesiredLaneModeFromConfig_from ports profiles m0 = Ret m ->
  m0 <= m /\
  (forall port, port ∈ ports -> isEnabled port = true ->
     exists n, profileLaneMode profiles port = Some n /\ n <= m) /\
  (m = m0 \/ exists port, port ∈ ports /\ isEnabled port = true /\
                          profileLaneMode profiles port = Some m).
Proof.
  revert m0. induction ports as [|port rest IH]; intros m0.
  - simpl. intros [= <-]. split; [lia|]. split; [|left; reflexivity].
    intros port Hin. inversion Hin.
  - rewrite calculateDesiredLaneModeFromConfig_from_cons.
    destruct (isEnabled port) eqn:He.
    + destruct (profileLaneMode profiles port) as [n|] eqn:Hn; [|discriminate].
      intros H. apply IH in H as (Hle & Hall & Hmax).
      split; [lia|]. split.
      * intros other Hin Hen. apply elem_of_cons in Hin as [->|Hin]; [|auto].
        exists n. split; [exact Hn|lia].
      * destruct Hmax as [Hm|(other & Hin & Hother)].
        -- destruct (Z.max_spec n m0) as [[_ Hmx]|[_ Hmx]]; rewrite Hmx in Hm.
           ++ left. exact Hm.
           ++ right. exists port. split; [left|]. split; [exact He|]. rewrite Hm. exact Hn.
        -- right. exists other. split; [right; exact Hin|exact Hother].
    + intros H. apply IH in H as (Hle & Hall & Hmax).
      split; [exact Hle|]. split.
      * intros other Hin Hen. apply elem_of_cons in Hin as [->|Hin]; [congruence|auto].
      * destruct Hmax as [Hm|(other & Hin & Hother)]; [left; exact Hm|].
        right. exists other. split; [right; exact Hin|exact Hother].
Qed.

Lemma calculateDesiredLaneModeFromConfig_from_Throw ports profiles m0 e :
  calculateDesiredLaneModeFromConfig_from ports profiles m0 = Throw e ->
  exists pre port post, ports = pre ++ port :: post /\
    Forall (fun other => isEnabled other = true -> is_Some (profileLaneMode profiles other)) pre /\
    isEnabled port = true /\ profileLaneMode profiles port = None /\
    e = UnknownProfile (getName port) (getProfileID port).
Proof.
  revert m0. induction ports as [|port rest IH]; intros m0; [discriminate|].
  rewrite calculateDesiredLaneModeFromConfig_from_cons.
  destruct (isEnabled port) eqn:He.
  - destruct (profileLaneMode profiles port) as [n|] eqn:Hn.
    + intros H. apply IH in H as (pre & bad & post & -> & Hpre & Hbad).
      exists (port :: pre), bad, post. split; [reflexivity|]. split; [|exact Hbad].
      constructor; [|exact Hpre]. intros _. rewrite Hn. eauto.
    + intros [= <-]. exists [], port, rest. repeat split; auto.
  - intros H. apply IH in H as (pre & bad & post & -> & Hpre & Hbad).
    exists (port :: pre), bad, post. split; [reflexivity|]. split; [|exact Hbad].
    constructor; [|exact Hpre]. intros Hen. congruence.
Qed.

(** X8. [calculateDesiredLaneModeFromConfig] never has undefined
    behaviour.  The lane count of a profile reaches [numLanesToLaneMode]
    converted to [uint8_t], that is modulo 256.  When the function
    returns, every enabled port has a profile in the table whose converted
    lane count is at most the result, so that a lane count between 0 and
    255 is itself at most the result, while a count outside that range is
    not looked at as such (260 counts as 4, 256 as 0); the result is
    SINGLE or the converted lane count of an enabled port's profile, and is
    between 1 and 255.  When it throws, the error names the first enabled
    port whose profile is not in the table; disabled ports are never
    looked up. *)
Theorem calculateDesiredLaneModeFromConfig_outcome (ports : list Port)
    (profiles : gmap ProfileID PortProfileConfig) :
  calculateDesiredLaneModeFromConfig ports profiles <> Undefined /\
  (forall m, calculateDesiredLaneModeFromConfig ports profiles = Ret m ->
     SINGLE <= m < 256 /\
     (forall port, port ∈ ports -> isEnabled port = true ->
        exists profileCfg, profiles !! getProfileID port = Some profileCfg /\
          to_uint8 (numLanes (iphy profileCfg)) <= m /\
          (0 <= numLanes (iphy profileCfg) < 256 -> numLanes (iphy profileCfg) <= m)) /\
     (m = SINGLE \/
      exists port profileCfg, port ∈ ports /\ isEnabled port = true /\
        profiles !! getProfileID port = Some profileCfg /\
        m = to_uint8 (numLanes (iphy profileCfg)))) /\
  (forall e, calculateDesiredLaneModeFromConfig ports profiles = Throw e ->
     exists pre port post, ports = pre ++ port :: post /\
       Forall (fun other => isEnabled other = true ->
                            is_Some (profiles !! getProfileID other)) pre /\
       isEnabled port = true /\ profiles !! getProfileID port = None /\
       e = UnknownProfile (getName port) (getProfileID port)).
Proof.
  split; [apply calculateDesiredLaneModeFromConfig_from_defined|].
  split.
  - intros m Hm.
    destruct (calculateDesiredLaneModeFromConfig_from_Ret _ _ _ _ Hm) as (Hlow & Hall & Hsome).
    assert (Hfrom : m = SINGLE \/
              exists port profileCfg, port ∈ ports /\ isEnabled port = true /\
                profiles !! getProfileID port = Some profileCfg /\
                m = to_uint8 (numLanes (iphy profileCfg))).
    { destruct Hsome as [Hs|(port & Hin & Hen & Hp)]; [left; exact Hs|right].
      unfold profileLaneMode in Hp. apply fmap_Some in Hp as (profileCfg & Hlookup & ->).
      exists port, profileCfg. auto. }
    split; [|split; [|exact Hfrom]].
    + split; [exact Hlow|].
      destruct Hfrom as [->|(_ & profileCfg & _ & _ & _ & ->)]; [reflexivity|].
      unfold to_uint8. apply Z.mod_pos_bound. lia.
    + intros port Hin Hen. destruct (Hall port Hin Hen) as (n & Hp & Hle).
      unfold profileLaneMode in Hp. apply fmap_Some in Hp as (profileCfg & Hlookup & ->).
      exists profileCfg. split; [exact Hlookup|]. split; [exact Hle|].
      intros Hrange. unfold to_uint8 in Hle. rewrite Z.mod_small in Hle by exact Hrange.
      exact Hle.
  - intros e He.
    destruct (calculateDesiredLaneModeFromConfig_from_Throw _ _ _ _ He)
      as (pre & port & post & Heq & Hpre & Hen & Hnone & ->).
    exists pre, port, post. split; [exact Heq|].
    split; [|split; [exact Hen|split; [|reflexivity]]].
    + eapply Forall_impl; [exact Hpre|]. intros other Hother Henabled.
      specialize (Hother Henabled). unfold profileLaneMode in Hother.
      apply fmap_is_Some in Hother. exact Hother.
    + unfold profileLaneMode in Hnone. apply fmap_None in Hnone. exact Hnone.
Qed.

(** A profile of 260 lanes counts as QUAD. *)
Lemma calculateDesiredLaneModeFromConfig_outcome_witness :
  let profiles : gmap ProfileID PortProfileConfig :=
    {[ 0 := {| iphy := {| numLanes := 260 |} |} ]} in
  exists port profileCfg,
    port ∈ [Example.swPort 1 true FIFTYG; Example.swPort 2 false XG] /\
    profiles !! getProfileID port = Some profileCfg /\
    QUAD = to_uint8 (numLanes (iphy profileCfg)).
Proof.
  intros profiles.
  destruct (calculateDesiredLaneModeFromConfig_outcome
              [Example.swPort 1 true FIFTYG; Example.swPort 2 false XG] profiles)
    as (_ & Hret & _).
  destruct (Hret QUAD eq_refl) as (_ & _ & [Hs|(port & profileCfg & Hin & _ & Hp & Hm)]);
    [discriminate Hs|].
  exists port, profileCfg. split; [exact Hin|]. split; assumption.
Defined.

Lemma calculateDesiredLaneModeFromConfig_from_perm ports ports' profiles :
  ports ≡ₚ ports' ->
  forall m0 m,
    calculateDesiredLaneModeFromConfig_from ports profiles m0 = Ret m ->
    calculateDesiredLaneModeFromConfig_from ports' profiles m0 = Ret m.
Proof.
  induction 1 as [|port l l' _ IH|x y l|l l' l'' _ IH1 _ IH2]; intros m0 m.
  - auto.
  - rewrite !calculateDesiredLaneModeFromConfig_from_cons.
    destruct (isEnabled port); [|apply IH].
    destruct (profileLaneMode profiles port); [apply IH|auto].
  - rewrite !calculateDesiredLaneModeFromConfig_from_cons.
    destruct (isEnabled x) eqn:Hx, (isEnabled y) eqn:Hy,
      (profileLaneMode profiles x) as [nx|] eqn:Hnx,
      (profileLaneMode profiles y) as [ny|] eqn:Hny;
      rewrite ?calculateDesiredLaneModeFromConfig_from_cons, ?Hx, ?Hy, ?Hnx, ?Hny;
      try (intros H; discriminate H); auto.
    replace (Z.max nx (Z.max ny m0)) with (Z.max ny (Z.max nx m0)) by lia. auto.
  - intros H. apply IH2, IH1, H.
Qed.

(** X9. The lane mode [calculateDesiredLaneModeFromConfig] returns does
    not depend on the order of the ports: the profile path checks no
    placement. *)
Theorem calculateDesiredLaneModeFromConfig_perm (ports ports' : list Port)
    (profiles : gmap ProfileID PortProfileConfig) (m : LaneMode) :
  ports ≡ₚ ports' ->
  calculateDesiredLaneModeFromConfig ports profiles = Ret m ->
  calculateDesiredLaneModeFromConfig ports' profiles = Ret m.
Proof. intros Hp. apply calculateDesiredLaneModeFromConfig_from_perm. exact Hp. Qed.

(** A four-lane profile on the second port is accepted as on the first. *)
Lemma calculateDesiredLaneModeFromConfig_perm_witness :
  let profiles : gmap ProfileID PortProfileConfig :=
    {[ 0 := {| iphy := {| numLanes := 4 |} |} ]} in
  calculateDesiredLaneModeFromConfig
    [Example.swPort 2 true XG; Example.swPort 1 true FORTYG] profiles = Ret QUAD.
Proof.
  intros profiles.
  apply (calculateDesiredLaneModeFromConfig_perm
           [Example.swPort 1 true FORTYG; Example.swPort 2 true XG]
           [Example.swPort 2 true XG; Example.swPort 1 true FORTYG] profiles QUAD).
  - apply perm_swap.
  - reflexivity.
Defined.

(** ** Reading the ports of the group *)

Lemma getSwPorts_members_Ret state bcmPorts ports :
  getSwPorts_members state bcmPorts = Ret ports <->
  Forall2 (memberPort state) bcmPorts ports.
Proof.
  revert ports. induction bcmPorts as [|bcmPort rest IH]; intros ports; simpl.
  - split; [intros [= <-]; constructor|]. intros H. inversion H. reflexivity.
  - unfold getSwitchStatePort, getSwPort. fold (getPortIf state (getPortID bcmPort)).
    destruct (getPortIf state (getPortID bcmPort)) as [swPort|] eqn:Hlookup; simpl.
    + destruct (supportsSpeed bcmPort (getSpeed swPort)) eqn:Hspeed; simpl.
      * destruct (getSwPorts_members state rest) as [others| |] eqn:Hrest; simpl.
        -- split.
           ++ intros [= <-]. constructor; [split; assumption|]. apply IH. reflexivity.
           ++ intros H. inversion H as [|? p ? ps [Hp _] Hps]; subst.
              rewrite Hlookup in Hp. injection Hp as <-.
              apply IH in Hps. injection Hps as <-. reflexivity.
        -- split; [discriminate|]. intros H. inversion H as [|? p ? ps _ Hps]; subst.
           apply IH in Hps. discriminate Hps.
        -- split; [discriminate|]. intros H. inversion H as [|? p ? ps _ Hps]; subst.
           apply IH in Hps. discriminate Hps.
      * split; [discriminate|]. intros H. inversion H as [|? p ? ps [Hp Hs] _]; subst.
        rewrite Hlookup in Hp. injection Hp as <-. congruence.
    + split; [discriminate|]. intros H. inversion H as [|? p ? ps [Hp _] _]; subst.
      rewrite Hlookup in Hp. discriminate Hp.
Qed.

Lemma getSwPorts_members_Throw state bcmPorts e :
  getSwPorts_members state bcmPorts = Throw e ->
  exists bcmPort, bcmPort ∈ bcmPorts /\
    ((getPortIf state (getPortID bcmPort) = None /\ e = SwPortNotFound (getPortID bcmPort)) \/
     (exists swPort, getPortIf state (getPortID bcmPort) = Some swPort /\
        supportsSpeed bcmPort (getSpeed swPort) = false /\
        e = PortSpeedNotSupported (getID swPort) (getSpeed swPort))).
Proof.
  induction bcmPorts as [|bcmPort rest IH]; simpl; [discriminate|].
  unfold getSwitchStatePort, getSwPort. fold (getPortIf state (getPortID bcmPort)).
  destruct (getPortIf state (getPortID bcmPort)) as [swPort|] eqn:Hlookup; simpl.
  - destruct (supportsSpeed bcmPort (getSpeed swPort)) eqn:Hspeed; simpl.
    + destruct (getSwPorts_members state rest) as [others|e'|]; simpl; try discriminate.
      intros [= <-]. destruct (IH eq_refl) as (bad & Hin & Hbad).
      exists bad. split; [right; exact Hin|exact Hbad].
    + intros [= <-]. exists bcmPort. split; [left|]. right. exists swPort. auto.
  - intros [= <-]. exists bcmPort. split; [left|]. left. auto.
Qed.

(** X10. On a platform without a platform mapping, [getSwPorts] returns
    exactly when every member of the group has a port in the state at a
    speed the member supports, and then returns these ports in member
    order; it leaves the state alone.  A member without a port, or whose
    port is configured at an unsupported speed, makes it throw, and the
    enabled flag of the port plays no part in that. *)
Theorem getSwPorts_members_branch (env : Env) (state : SwitchState) (st : State) :
  platformPorts env = [] ->
  (getSwPorts env state st).2 = st /\
  (forall ports, (getSwPorts env state st).1 = Ret ports <->
                 Forall2 (memberPort state) (allPorts_ st) ports) /\
  (forall ports, (getSwPorts env state st).1 = Ret ports ->
                 getID <$> ports = getPortID <$> allPorts_ st) /\
  (forall e, (getSwPorts env state st).1 = Throw e ->
     exists bcmPort, bcmPort ∈ allPorts_ st /\
       ((getPortIf state (getPortID bcmPort) = None /\
         e = SwPortNotFound (getPortID bcmPort)) \/
        (exists swPort, getPortIf state (getPortID bcmPort) = Some swPort /\
           supportsSpeed bcmPort (getSpeed swPort) = false /\
           e = PortSpeedNotSupported (getID swPort) (getSpeed swPort)))).
Proof.
  intros Hempty. split; [apply getSwPorts_read_only|].
  unfold getSwPorts. rewrite bool_decide_eq_true_2 by exact Hempty.
  cbn [negb]. rewrite bind_gets. unfold lift. cbn [fst].
  split; [intros ports; apply getSwPorts_members_Ret|].
  split; [|intros e; apply getSwPorts_members_Throw].
  intros ports H. apply getSwPorts_members_Ret in H.
  induction H as [|bcmPort swPort members ports [Hlookup _] _ IH]; [reflexivity|].
  rewrite !fmap_cons, IH. f_equal.
  apply getSwPortIf_Some in Hlookup as (_ & _ & _ & Hid & _). exact Hid.
Qed.

Lemma getSwPorts_members_branch_witness :
  getID <$> Example.fourTenG = getPortID <$> allPorts_ (Example.group false SINGLE).
Proof.
  destruct (getSwPorts_members_branch Example.legacyEnv {| getPorts := Example.fourTenG |}
              (Example.group false SINGLE) eq_refl) as (_ & _ & Hids & _).
  apply Hids. reflexivity.
Defined.

Lemma omap_length_le {A B} (f : A -> option B) (l : list A) :
  (length (omap f l) <= length l)%nat.
Proof.
  induction l as [|x rest IH]; [reflexivity|].
  cbn [omap list_omap]. destruct (f x); simpl; lia.
Qed.

(** X11. On a platform with a platform mapping, [getSwPorts] never
    throws and leaves the state alone: it returns, in the order of the
    mapping, the ports the state has for the entries of the controlling
    port, passing over the entries the state has no port for and checking
    no speed. *)
Theorem getSwPorts_platform_branch (env : Env) (state : SwitchState) (st : State) :
  platformPorts env <> [] ->
  exists ports,
    getSwPorts env state st = (Ret ports, st) /\
    (length ports <= length (getPlatformPortsByControllingPort env (platformPorts env)
                               (getPortID (controllingPort_ st))))%nat /\
    (forall port, port ∈ ports <->
       exists entry,
         entry ∈ getPlatformPortsByControllingPort env (platformPorts env)
                   (getPortID (controllingPort_ st)) /\
         getPortIf state (mapping_id entry) = Some port) /\
    (forall port, port ∈ ports -> port ∈ getPorts state).
Proof.
  intros Hne. unfold getSwPorts.
  rewrite bool_decide_eq_false_2 by exact Hne. cbn [negb]. rewrite bind_gets.
  eexists. split; [reflexivity|]. split; [apply omap_length_le|].
  split.
  - intros port. rewrite list_elem_of_omap. reflexivity.
  - intros port Hin. apply list_elem_of_omap in Hin as (entry & _ & Hlookup).
    apply getSwPortIf_Some in Hlookup as (pre & post & -> & _).
    apply elem_of_app. right. left.
Qed.

Lemma getSwPorts_platform_branch_witness :
  exists ports,
    getSwPorts
      {| getUnit := 0;
         platformPorts := [{| mapping_id := 1 |}; {| mapping_id := 9 |}];
         getPlatformPortsByControllingPort := fun platformPorts _ => platformPorts;
         supportedProfiles := None;
         supportsAddRemovePort := true;
         sdk := fun _ _ => 0;
         activeLanes := fun _ _ => 1;
         builderAdded := fun _ ports => ports;
         bcmPortIdOf := fun id => id;
         supportsSpeedOf := fun _ _ => false;
         laneSpeedsOf := fun _ => [XG];
         usesPortResourceAPIs := fun _ => true |}
      {| getPorts := Example.fourTenG |} (Example.group true SINGLE)
    = (Ret ports, Example.group true SINGLE) /\ (length ports <= 2)%nat.
Proof.
  match goal with
  | |- exists ports, getSwPorts ?env ?state ?st = _ /\ _ =>
    destruct (getSwPorts_platform_branch env state st ltac:(discriminate))
      as (ports & Hrun & Hlen & _)
  end.
  exists ports. split; [exact Hrun|exact Hlen].
Defined.

(** ** Lanes *)

(** X12. [getLane] is the distance of a port from the controlling port in
    BCM port numbers, reduced to [uint8_t]: it is 0 for the controlling
    port, it is the distance itself when that lies between 0 and 255, and
    a port numbered below the controlling port wraps around to a lane
    above 0. *)
Theorem getLane_spec (bcmPort : BcmPort) (st : State) :
  exists lane,
    getLane bcmPort st = (Ret lane, st) /\
    0 <= lane < 256 /\
    (getBcmPortId bcmPort = getBcmPortId (controllingPort_ st) -> lane = 0) /\
    (0 <= getBcmPortId bcmPort - getBcmPortId (controllingPort_ st) < 256 ->
     lane = getBcmPortId bcmPort - getBcmPortId (controllingPort_ st)) /\
    (- 256 <= getBcmPortId bcmPort - getBcmPortId (controllingPort_ st) < 0 ->
     lane = 256 + (getBcmPortId bcmPort - getBcmPortId (controllingPort_ st))).
Proof.
  unfold getLane. rewrite bind_gets. eexists. split; [reflexivity|].
  unfold to_uint8.
  set (d := getBcmPortId bcmPort - getBcmPortId (controllingPort_ st)).
  split; [apply Z.mod_pos_bound; lia|].
  split; [intros Heq; replace d with 0 by (subst d; lia); reflexivity|].
  split.
  - intros Hd. apply Z.mod_small. exact Hd.
  - intros Hd. rewrite <- (Z.mod_add d 1 256) by lia.
    replace (d + 1 * 256) with (256 + d) by lia. apply Z.mod_small. lia.
Qed.

Lemma getLane_spec_witness :
  exists lane, getLane (Example.bcmPort false 2 3) (Example.group false SINGLE)
               = (Ret lane, Example.group false SINGLE) /\ lane = 2.
Proof.
  destruct (getLane_spec (Example.bcmPort false 2 3) (Example.group false SINGLE))
    as (lane & Hrun & _ & _ & Hsmall & _).
  exists lane. split; [exact Hrun|]. rewrite Hsmall; [reflexivity|].
  split; [vm_compute; discriminate|reflexivity].
Defined.

(** ** Building the group *)

Lemma retrieveActiveLanes_eq env st :
  let read := PortControlGetLanes (getUnit env) (getBcmPortId (controllingPort_ st)) in
  retrieveActiveLanes env st
  = (if sdk env (trace st) read <? 0
     then Throw (HardwareCallFailure (sdk env (trace st) read) read)
     else Ret (activeLanes env (trace st) (getBcmPortId (controllingPort_ st))),
     log read st).
Proof.
  intros read. unfold retrieveActiveLanes. rewrite !bind_gets.
  fold read. rewrite bind_eq. unfold sdk_call. cbn iota beta.
  rewrite bind_eq. unfold bcmCheckError.
  destruct (sdk env (trace st) read <? 0); reflexivity.
Qed.

(** X13. The constructor reads the lane count of the controlling port
    once.  When the read is accepted the group holds the controlling port
    it was given, the members sorted, and as lane mode the lane count read,
    reduced to [uint8_t], whatever that count is; the port table is not
    touched.  When the read is refused the constructor throws the
    hardware failure. *)
Theorem BcmPortGroup_ctor_outcome (env : Env) (controllingPort : BcmPort)
    (allPorts : list BcmPort) (st : State) :
  let read := PortControlGetLanes (getUnit env) (getBcmPortId controllingPort) in
  let r := BcmPortGroup_ctor env controllingPort allPorts st in
  trace r.2 = trace st ++ [read] /\
  portTable r.2 = portTable st /\
  (0 <= sdk env (trace st) read ->
   r.1 = Ret tt /\
   controllingPort_ r.2 = controllingPort /\
   allPorts_ r.2 = sortByPortID allPorts /\
   laneMode_ r.2 = to_uint8 (activeLanes env (trace st) (getBcmPortId controllingPort))) /\
  (sdk env (trace st) read < 0 ->
   r.1 = Throw (HardwareCallFailure (sdk env (trace st) read) read)).
Proof.
  intros read r. subst r. unfold BcmPortGroup_ctor. rewrite !bind_modify.
  rewrite bind_eq, retrieveActiveLanes_eq.
  cbn [trace set_allPorts set_controllingPort controllingPort_ log allPorts_].
  fold read.
  destruct (Z.ltb_spec (sdk env (trace st) read) 0) as [Hneg|Hpos].
  - repeat split; try reflexivity; intros; lia.
  - repeat split; try reflexivity; intros; lia.
Qed.

(** A hardware that reports 3 active lanes: the group is built with the
    lane mode 3. *)
Lemma BcmPortGroup_ctor_outcome_witness :
  let env := {| getUnit := 0;
                platformPorts := [];
                getPlatformPortsByControllingPort := fun platformPorts _ => platformPorts;
                supportedProfiles := None;
                supportsAddRemovePort := false;
                sdk := fun _ _ => 0;
                activeLanes := fun _ _ => 3;
                builderAdded := fun _ ports => ports;
                bcmPortIdOf := fun id => id;
                supportsSpeedOf := fun _ _ => true;
                laneSpeedsOf := fun _ => [XG];
                usesPortResourceAPIs := fun _ => false |} in
  laneMode_ (BcmPortGroup_ctor env (Example.bcmPort false 0 1)
               [Example.bcmPort false 1 2; Example.bcmPort false 0 1]
               (Example.group false SINGLE)).2 = 3.
Proof.
  intros env.
  destruct (BcmPortGroup_ctor_outcome env (Example.bcmPort false 0 1)
              [Example.bcmPort false 1 2; Example.bcmPort false 0 1]
              (Example.group false SINGLE)) as (_ & _ & Hok & _).
  destruct Hok as (_ & _ & _ & Hmode); [discriminate|exact Hmode].
Defined.

(** ** Sequences of checked calls *)

Section CheckedCalls.
Variable env : Env.

(** The loop returns exactly when every call is accepted, given the
    calls made before it, and otherwise throws at the first call that is
    refused, nothing being called after it. *)
Lemma forM__checked_calls_first {A} (l : list A) (call : A -> Event) st :
  (forM_ l (fun x => checked_call env (call x)) st = (Ret tt, logs (call <$> l) st) /\
   forall i e, (call <$> l) !! i = Some e ->
               0 <= sdk env (trace st ++ take i (call <$> l)) e) \/
  (exists i e, (call <$> l) !! i = Some e /\
     (forall j e', (j < i)%nat -> (call <$> l) !! j = Some e' ->
                   0 <= sdk env (trace st ++ take j (call <$> l)) e') /\
     sdk env (trace st ++ take i (call <$> l)) e < 0 /\
     forM_ l (fun x => checked_call env (call x)) st
     = (Throw (HardwareCallFailure (sdk env (trace st ++ take i (call <$> l)) e) e),
        logs (take (S i) (call <$> l)) st)).
Proof.
  revert st. induction l as [|x rest IH]; intros st.
  - left. split; [simpl; rewrite logs_nil; reflexivity|].
    intros i e H. discriminate H.
  - rewrite fmap_cons. cbn [forM_]. rewrite bind_eq.
    destruct (Z.lt_ge_cases (sdk env (trace st) (call x)) 0) as [Hneg|Hpos].
    + right. exists 0%nat, (call x). cbn [take lookup list_lookup].
      rewrite app_nil_r. split; [reflexivity|]. split; [intros j e' Hj; lia|].
      split; [exact Hneg|]. rewrite (checked_call_fail env _ _ Hneg). reflexivity.
    + rewrite (checked_call_ok env _ _ Hpos).
      assert (Htrace : forall i, trace st ++ take (S i) (call x :: (call <$> rest))
                                 = trace (log (call x) st) ++ take i (call <$> rest)).
      { intros i. cbn [take trace log]. rewrite <- app_assoc. reflexivity. }
      assert (Hlogs : forall evs, logs evs (log (call x) st) = logs (call x :: evs) st).
      { intros evs. rewrite log_logs, <- logs_app. reflexivity. }
      destruct (IH (log (call x) st)) as [[Hret Hall]|(i & e & He & Hbefore & Hneg & Hthrow)].
      * left. split; [rewrite Hret, Hlogs; reflexivity|].
        intros [|i] e He.
        -- injection He as <-. cbn [take]. rewrite app_nil_r. exact Hpos.
        -- rewrite Htrace. apply Hall. exact He.
      * right. exists (S i), e. split; [exact He|]. rewrite Htrace. split; [|split].
        -- intros [|j] e' Hj He'.
           ++ injection He' as <-. cbn [take]. rewrite app_nil_r. exact Hpos.
           ++ rewrite Htrace. apply (Hbefore j e'); [lia|exact He'].
        -- exact Hneg.
        -- rewrite Hthrow, Hlogs. reflexivity.
Qed.

End CheckedCalls.

(** X14. [setPortSpecificControls] sets the five controls in order and
    stops at the first one the hardware refuses.  When the hardware
    accepts each of the five calls, given the calls made before it, the
    function returns and has made the five calls.  Otherwise it throws at
    the first call the hardware refuses: every call before it was accepted
    and stays made, the failure carries the status and the call that was
    refused, and no call is made after it. *)
Theorem setPortSpecificControls_prefix (env : Env) (bcmPort : BcmPort) (enable : bool)
    (st : State) :
  let calls := portControlEvents env bcmPort enable in
  let status i e := sdk env (trace st ++ take i calls) e in
  let r := setPortSpecificControls env bcmPort enable st in
  length calls = 5%nat /\
  ((r = (Ret tt, logs calls st) /\
    forall i e, calls !! i = Some e -> 0 <= status i e) \/
   (exists i e, calls !! i = Some e /\
      (forall j e', (j < i)%nat -> calls !! j = Some e' -> 0 <= status j e') /\
      status i e < 0 /\
      r = (Throw (HardwareCallFailure (status i e) e), logs (take (S i) calls) st))).
Proof.
  intros calls status r. split; [reflexivity|].
  exact (forM__checked_calls_first env portSpecificControls
           (fun ctl => SwitchControlPortSet (getUnit env) (getBcmPortId bcmPort) ctl enable)
           st).
Qed.

(** ** The reconfiguration on a legacy platform *)

Section LegacyReconfiguration.
Variable env : Env.
Hypothesis accepts : forall tr e, 0 <= sdk env tr e.

Lemma checked_call_accepted e st : checked_call env e st = (Ret tt, logs [e] st).
Proof. apply checked_call_ok. apply accepts. Qed.

Lemma disableMembers_accepted oldPorts members st :
  Forall (fun bcmPort => is_Some (getSwPortIf oldPorts (getPortID bcmPort))) members ->
  forM_ members (fun bcmPort =>
    swPort ← lift (getSwPort oldPorts (getPortID bcmPort));
    _ ← disableLinkscan env bcmPort;
    disable env bcmPort swPort) st
  = (Ret tt, logs (disableEvents members) st).
Proof.
  intros Hold. revert st. induction Hold as [|bcmPort rest [swPort Hsw] _ IH]; intros st.
  - simpl. unfold disableEvents. simpl. rewrite logs_nil. reflexivity.
  - change (disableEvents (bcmPort :: rest))
      with ([DisableLinkscan (getPortID bcmPort); DisablePort (getPortID bcmPort)]
            ++ disableEvents rest).
    rewrite logs_app. simpl forM_. rewrite bind_eq.
    unfold getSwPort. rewrite Hsw. unfold lift at 1. rewrite bind_eq. cbn iota beta.
    unfold disableLinkscan, disable. rewrite bind_eq, checked_call_accepted.
    cbn iota beta. rewrite checked_call_accepted, <- logs_app. cbn iota beta.
    apply IH.
Qed.

Lemma setActiveLanes_legacy_accepted ports desiredLaneMode st :
  shouldUsePortResourceAPIs (controllingPort_ st) = false ->
  setActiveLanes env ports desiredLaneMode st
  = (Ret tt, set_laneMode desiredLaneMode (logs (laneWrites env st desiredLaneMode) st)).
Proof.
  intros Hlegacy. unfold setActiveLanes, laneWrites.
  rewrite bind_gets, Hlegacy, bind_gets, !setLanesControl_checked.
  destruct (_ || _).
  - rewrite (bind_Ret _ _ _ _ _ (checked_call_accepted _ st)).
    rewrite (bind_Ret _ _ _ _ _ (checked_call_accepted _ _)).
    unfold modify. rewrite <- logs_app. reflexivity.
  - rewrite (bind_Ret _ _ _ tt st) by reflexivity.
    rewrite (bind_Ret _ _ _ _ _ (checked_call_accepted _ st)). reflexivity.
Qed.

Lemma getBcmPort_found id bcmPort st :
  portTable st !! id = Some bcmPort -> getBcmPort id st = (Ret bcmPort, st).
Proof. intros H. unfold getBcmPort. rewrite bind_gets, H. reflexivity. Qed.

Lemma enableLinkscan_accepted newPorts st :
  Forall (fun swPort => is_Some (portTable st !! getID swPort)) newPorts ->
  forM_ newPorts (fun swPort =>
    bcmPort ← getBcmPort (getID swPort);
    if isEnabled swPort then enableLinkscan env bcmPort else mret tt) st
  = (Ret tt, logs (enableLinkscanEvents (portTable st) newPorts) st).
Proof.
  intros Hnew. revert st Hnew. induction newPorts as [|swPort rest IH]; intros st Hnew.
  - simpl. unfold enableLinkscanEvents. simpl. rewrite logs_nil. reflexivity.
  - inversion Hnew as [|? ? [bcmPort Hb] Hrest]; subst.
    change (enableLinkscanEvents (portTable st) (swPort :: rest))
      with (match portTable st !! getID swPort with
            | Some bcmPort =>
              if isEnabled swPort then [EnableLinkscan (getPortID bcmPort)] else []
            | None => []
            end ++ enableLinkscanEvents (portTable st) rest).
    rewrite Hb, logs_app. simpl forM_. rewrite bind_eq.
    rewrite (bind_Ret _ _ _ _ _ (getBcmPort_found _ _ st Hb)).
    destruct (isEnabled swPort).
    + unfold enableLinkscan. rewrite checked_call_accepted.
      rewrite IH by exact Hrest. reflexivity.
    + cbn iota beta. rewrite logs_nil. apply IH. exact Hrest.
Qed.

(** X15. On a legacy platform whose hardware accepts every call, with
    every member found in the old ports and every new port found in the
    port table, [reconfigureLaneMode] returns and has recorded, in this
    order: linkscan disabled and port disabled for every member; the
    lane-count write or writes; linkscan enabled for the enabled ports of
    the new list only.  No port is enabled, and the lane mode is the new
    one. *)
Theorem reconfigureLaneMode_legacy_accepted (oldPorts newPorts : list Port)
    (newLaneMode : LaneMode) (st : State) :
  shouldUsePortResourceAPIs (controllingPort_ st) = false ->
  Forall (fun bcmPort => is_Some (getSwPortIf oldPorts (getPortID bcmPort))) (allPorts_ st) ->
  Forall (fun swPort => is_Some (portTable st !! getID swPort)) newPorts ->
  reconfigureLaneMode env oldPorts newPorts newLaneMode st
  = (Ret tt,
     set_laneMode newLaneMode
       (logs (disableEvents (allPorts_ st)
              ++ laneWrites env st newLaneMode
              ++ enableLinkscanEvents (portTable st) newPorts) st)).
Proof.
  intros Hlegacy Hold Hnew. unfold reconfigureLaneMode. rewrite bind_gets.
  rewrite (bind_Ret _ _ _ _ _ (disableMembers_accepted oldPorts (allPorts_ st) st Hold)).
  rewrite (bind_Ret _ _ _ _ _
             (setActiveLanes_legacy_accepted newPorts newLaneMode
                (logs (disableEvents (allPorts_ st)) st) Hlegacy)).
  rewrite enableLinkscan_accepted by exact Hnew.
  unfold laneWrites, logs, set_laneMode.
  cbn [portTable controllingPort_ laneMode_ trace allPorts_ registered nextHandle].
  rewrite <- !app_assoc. reflexivity.
Qed.

End LegacyReconfiguration.

(** Four 10G members become one 40G port. *)
Lemma reconfigureLaneMode_legacy_accepted_witness :
  trace (reconfigureLaneMode Example.legacyEnv Example.fourTenG Example.oneFortyG QUAD
           (Example.group false SINGLE)).2
  = [DisableLinkscan 1; DisablePort 1; DisableLinkscan 2; DisablePort 2;
     DisableLinkscan 3; DisablePort 3; DisableLinkscan 4; DisablePort 4;
     PortControlSetLanes 0 1 4; EnableLinkscan 1].
Proof.
  rewrite (reconfigureLaneMode_legacy_accepted Example.legacyEnv
             (fun _ _ => Z.le_refl 0) Example.fourTenG Example.oneFortyG QUAD
             (Example.group false SINGLE)).
  - reflexivity.
  - reflexivity.
  - repeat constructor; eexists; reflexivity.
  - repeat constructor; eexists; reflexivity.
Defined.

(** A loop does not return when the body cannot return for one of its
    elements. *)
Lemma forM__not_Ret {A} (l : list A) (body : A -> M unit) (x : A) :
  x ∈ l -> (forall st, (body x st).1 <> Ret tt) ->
  forall st, (forM_ l body st).1 <> Ret tt.
Proof.
  intros Hin Hx. induction l as [|y rest IH]; intros st; [inversion Hin|].
  simpl. rewrite bind_eq. apply elem_of_cons in Hin as [<-|Hin].
  - specialize (Hx st). destruct (body x st) as [[[]| |] s1]; simpl in *;
      [contradiction|discriminate..].
  - destruct (body y st) as [[[]| |] s1]; simpl; [apply IH; exact Hin|discriminate..].
Qed.

(** X16. When a member of the group has no port in the old port list,
    [reconfigureLaneMode] does not return: it throws in the disabling
    loop, before [setActiveLanes] is reached, so the lane mode is kept and
    no lane count is written and no resource builder is driven; members
    visited before the missing one have been disabled. *)
Theorem reconfigureLaneMode_member_not_in_old (env : Env) (oldPorts newPorts : list Port)
    (newLaneMode : LaneMode) (st : State) (bcmPort : BcmPort) :
  bcmPort ∈ allPorts_ st ->
  getSwPortIf oldPorts (getPortID bcmPort) = None ->
  let r := reconfigureLaneMode env oldPorts newPorts newLaneMode st in
  r.1 <> Ret tt /\
  laneMode_ r.2 = laneMode_ st /\
  portTable r.2 = portTable st /\
  exists evs, trace r.2 = trace st ++ evs /\ Forall no_lane_write_or_builder evs.
Proof.
  intros Hin Hmissing r. subst r. unfold reconfigureLaneMode. rewrite bind_gets.
  pose proof (forM__not_Ret (allPorts_ st)
    (fun bcmPort => swPort ← lift (getSwPort oldPorts (getPortID bcmPort));
                    _ ← disableLinkscan env bcmPort; disable env bcmPort swPort)
    bcmPort Hin) as Hloop.
  specialize (Hloop ltac:(intros s; cbv beta; rewrite bind_eq; unfold getSwPort, lift;
                          rewrite Hmissing; discriminate) st).
  pose proof (disableMembers_keeps laneMode_ env oldPorts (allPorts_ st)
                ltac:(reflexivity) st) as Hmode.
  pose proof (disableMembers_keeps portTable env oldPorts (allPorts_ st)
                ltac:(reflexivity) st) as Htable.
  destruct (disableMembers_emits env oldPorts (allPorts_ st) st) as (evs & Htrace & Hevs).
  rewrite bind_eq.
  destruct (forM_ (allPorts_ st) _ st) as [[[]|e|] s1];
    simpl in Hloop, Hmode, Htable, Htrace |- *; [contradiction| |].
  - split; [discriminate|]. split; [exact Hmode|]. split; [exact Htable|]. exists evs. auto.
  - split; [discriminate|]. split; [exact Hmode|]. split; [exact Htable|]. exists evs. auto.
Qed.

(** The group of four members, but an old port list that lacks port 3. *)
Lemma reconfigureLaneMode_member_not_in_old_witness :
  (reconfigureLaneMode Example.legacyEnv
     [Example.swPort 1 true XG; Example.swPort 2 true XG; Example.swPort 4 true XG]
     Example.oneFortyG QUAD (Example.group false SINGLE)).1 <> Ret tt.
Proof.
  apply (reconfigureLaneMode_member_not_in_old Example.legacyEnv
           [Example.swPort 1 true XG; Example.swPort 2 true XG; Example.swPort 4 true XG]
           Example.oneFortyG QUAD (Example.group false SINGLE) (Example.bcmPort false 2 3)).
  - right. right. left.
  - reflexivity.
Defined.

(** ** The flex transition when it fails *)

Lemma records_only_ret {A} (a : A) : records_only (mret a : M A).
Proof. intros st. exists []. simpl. symmetry. apply logs_nil. Qed.

Lemma records_only_checked_call env e : records_only (checked_call env e).
Proof. intros st. exists [e]. apply checked_call_state. Qed.

Lemma records_only_bind {A B} (m : M A) (f : A -> M B) :
  records_only m -> (forall a, records_only (f a)) -> records_only (m ≫= f).
Proof.
  intros Hm Hf st. rewrite bind_eq. destruct (Hm st) as (evs1 & H1).
  destruct (m st) as [[a|e|] s1]; simpl in H1; subst s1; [|exists evs1; reflexivity..].
  destruct (Hf a (logs evs1 st)) as (evs2 & H2). exists (evs1 ++ evs2).
  rewrite H2, logs_app. reflexivity.
Qed.

Lemma records_only_forM_ {A} (l : list A) (body : A -> M unit) :
  (forall x, records_only (body x)) -> records_only (forM_ l body).
Proof.
  intros Hb. induction l as [|x rest IH]; simpl; [apply records_only_ret|].
  apply records_only_bind; [apply Hb|]. intros _. exact IH.
Qed.

Lemma setPortSpecificControls_records_only env bcmPort enable :
  records_only (setPortSpecificControls env bcmPort enable).
Proof.
  unfold setPortSpecificControls. apply records_only_forM_. intros ctl.
  apply (records_only_checked_call env).
Qed.

(** The part of the flex transition up to the commit. *)
Lemma flex_prepare_records_only env ports desiredLaneMode allPorts :
  records_only
    (_ ← forM_ allPorts (fun port =>
           let del flags := L2AddrDeleteByPort (getUnit env) (getBcmPortId port) flags in
           rv ← sdk_call env (del kBcmL2DeleteStatic);
           _ ← bcmCheckError rv (del kBcmL2DeleteStatic);
           rv ← sdk_call env (del kBcmL2DeletePending);
           _ ← bcmCheckError rv (del kBcmL2DeletePending);
           setPortSpecificControls env port false);
     _ ← builder_removePorts env allPorts;
     builder_addPorts env desiredLaneMode ports).
Proof.
  apply records_only_bind.
  - apply records_only_forM_. intros port.
    change (records_only
      (checked_call env (L2AddrDeleteByPort (getUnit env) (getBcmPortId port)
                           kBcmL2DeleteStatic) ≫= fun _ =>
       checked_call env (L2AddrDeleteByPort (getUnit env) (getBcmPortId port)
                           kBcmL2DeletePending) ≫= fun _ =>
       setPortSpecificControls env port false)).
    apply records_only_bind; [apply records_only_checked_call|]. intros _.
    apply records_only_bind; [apply records_only_checked_call|]. intros _.
    apply setPortSpecificControls_records_only.
  - intros _. apply records_only_bind; [apply records_only_checked_call|]. intros _.
    unfold builder_addPorts.
    apply records_only_bind; [apply records_only_checked_call|]. intros _.
    apply records_only_ret.
Qed.

Lemma bind_congr_l {A B} (m m' : M A) (k : A -> M B) st :
  m st = m' st -> (m ≫= k) st = (m' ≫= k) st.
Proof. intros H. rewrite !bind_eq, H. reflexivity. Qed.

(** X17. When the resource builder's commit is refused, the flex
    transition throws and has changed nothing but the trace: the port
    table, the members, the controlling port, the registrations and the
    lane mode are as before; what was purged and cleared before the
    commit is not undone. *)
Theorem setActiveLanesWithFlexPortApi_commit_refused (env : Env) (ports : list Port)
    (desiredLaneMode : LaneMode) (st : State) :
  (forall tr, sdk env tr BuilderProgram < 0) ->
  let r := setActiveLanesWithFlexPortApi env ports desiredLaneMode st in
  r.1 <> Ret tt /\
  exists evs, r.2 = logs evs st.
Proof.
  intros Hrefused r. subst r. unfold setActiveLanesWithFlexPortApi. cbv zeta.
  rewrite bind_gets.
  rewrite <- (bind_assoc _ (fun _ => builder_removePorts env (allPorts_ st)) _ st).
  rewrite <- bind_assoc.
  rewrite (bind_congr_l _ _ _ _ (bind_assoc _ _ _ st)).
  destruct (flex_prepare_records_only env ports desiredLaneMode (allPorts_ st) st)
    as (evs & Hprep).
  rewrite bind_eq.
  match type of Hprep with
  | (?m st).2 = _ => change (m st) with (m st) in Hprep;
                     destruct (m st) as [[added|e|] s1] eqn:Hrun
  end; simpl in Hprep; subst s1.
  - unfold builder_program. rewrite bind_eq, checked_call_fail by apply Hrefused.
    split; [discriminate|]. exists (evs ++ [BuilderProgram]).
    rewrite logs_app. reflexivity.
  - split; [discriminate|]. exists evs. reflexivity.
  - split; [discriminate|]. exists evs. reflexivity.
Qed.

(** A hardware that refuses the commit and accepts everything else. *)
Lemma setActiveLanesWithFlexPortApi_commit_refused_witness :
  let env := {| getUnit := 0;
                platformPorts := [];
                getPlatformPortsByControllingPort := fun platformPorts _ => platformPorts;
                supportedProfiles := None;
                supportsAddRemovePort := true;
                sdk := fun _ e => match e with BuilderProgram => -1 | _ => 0 end;
                activeLanes := fun _ _ => 1;
                builderAdded := fun _ ports => ports;
                bcmPortIdOf := fun id => id;
                supportsSpeedOf := fun _ _ => true;
                laneSpeedsOf := fun _ => [XG];
                usesPortResourceAPIs := fun _ => true |} in
  let r := setActiveLanesWithFlexPortApi env Example.oneFortyG QUAD
             (Example.group true SINGLE) in
  r.1 <> Ret tt /\ portTable r.2 = portTable (Example.group true SINGLE) /\
  allPorts_ r.2 = allPorts_ (Example.group true SINGLE) /\ laneMode_ r.2 = SINGLE.
Proof.
  intros env r.
  destruct (setActiveLanesWithFlexPortApi_commit_refused env Example.oneFortyG QUAD
              (Example.group true SINGLE) (fun _ => eq_refl)) as (Hthrow & evs & Hstate).
  fold r in Hthrow, Hstate. split; [exact Hthrow|]. rewrite Hstate. repeat split.
Defined.

Section FlexAccepted.
Variable env : Env.
Hypothesis accepts : forall tr e, 0 <= sdk env tr e.

Lemma forM__checked_accepted {A} (l : list A) (call : A -> Event) st :
  forM_ l (fun x => checked_call env (call x)) st = (Ret tt, logs (call <$> l) st).
Proof.
  revert st. induction l as [|x rest IH]; intros st.
  - simpl. rewrite logs_nil. reflexivity.
  - simpl forM_. rewrite (bind_Ret _ _ _ _ _ (checked_call_ok env _ st (accepts _ _))).
    rewrite IH, fmap_cons, log_logs, <- logs_app. reflexivity.
Qed.

Lemma setPortSpecificControls_accepted bcmPort enable st :
  setPortSpecificControls env bcmPort enable st
  = (Ret tt, logs (portControlEvents env bcmPort enable) st).
Proof.
  apply (forM__checked_accepted portSpecificControls
           (fun ctl => SwitchControlPortSet (getUnit env) (getBcmPortId bcmPort) ctl enable)).
Qed.

Lemma quiesce_port_accepted port st :
  (checked_call env (L2AddrDeleteByPort (getUnit env) (getBcmPortId port)
                       kBcmL2DeleteStatic) ≫= fun _ =>
   checked_call env (L2AddrDeleteByPort (getUnit env) (getBcmPortId port)
                       kBcmL2DeletePending) ≫= fun _ =>
   setPortSpecificControls env port false) st
  = (Ret tt, logs (quiesceEvents env port) st).
Proof.
  rewrite (bind_Ret _ _ _ _ _ (checked_call_ok env _ st (accepts _ _))).
  rewrite (bind_Ret _ _ _ _ _ (checked_call_ok env _ _ (accepts _ _))).
  rewrite setPortSpecificControls_accepted.
  unfold quiesceEvents. rewrite !log_logs, <- !logs_app. reflexivity.
Qed.

Lemma quiesce_accepted allPorts st :
  forM_ allPorts (fun port =>
    let del flags := L2AddrDeleteByPort (getUnit env) (getBcmPortId port) flags in
    rv ← sdk_call env (del kBcmL2DeleteStatic);
    _ ← bcmCheckError rv (del kBcmL2DeleteStatic);
    rv ← sdk_call env (del kBcmL2DeletePending);
    _ ← bcmCheckError rv (del kBcmL2DeletePending);
    setPortSpecificControls env port false) st
  = (Ret tt, logs (mjoin (quiesceEvents env <$> allPorts)) st).
Proof.
  revert st. induction allPorts as [|port rest IH]; intros st.
  - simpl. rewrite logs_nil. reflexivity.
  - change (mjoin (quiesceEvents env <$> port :: rest))
      with (quiesceEvents env port ++ mjoin (quiesceEvents env <$> rest)).
    rewrite logs_app. simpl forM_.
    rewrite (bind_Ret _ _ _ _ _ (quiesce_port_accepted port st)). apply IH.
Qed.

Lemma getBcmPort_missing id st :
  portTable st !! id = None -> getBcmPort id st = (Throw (BcmPortNotFound id), st).
Proof. intros H. unfold getBcmPort. rewrite bind_gets, H. reflexivity. Qed.

(** X18. On a hardware that accepts every call, when the builder does
    not report the controlling port among the ports it added, the flex
    transition throws at the lookup of the controlling port, after the
    port table was updated: the entries of the old members that were not
    added anew are gone and the added ports have their entries, but the
    group still holds the old members, the old controlling port and the
    old lane mode. *)
Theorem setActiveLanesWithFlexPortApi_controlling_port_lost (ports : list Port)
    (desiredLaneMode : LaneMode) (st : State) :
  getPortID (controllingPort_ st) ∈ getPortID <$> allPorts_ st ->
  getPortID (controllingPort_ st) ∉ getID <$> builderAdded env desiredLaneMode ports ->
  let r := setActiveLanesWithFlexPortApi env ports desiredLaneMode st in
  r.1 = Throw (BcmPortNotFound (getPortID (controllingPort_ st))) /\
  allPorts_ r.2 = allPorts_ st /\
  controllingPort_ r.2 = controllingPort_ st /\
  laneMode_ r.2 = laneMode_ st /\
  (forall id, id ∈ getPortID <$> allPorts_ st ->
     id ∉ getID <$> builderAdded env desiredLaneMode ports -> portTable r.2 !! id = None) /\
  (forall id, id ∈ getID <$> builderAdded env desiredLaneMode ports ->
     is_Some (portTable r.2 !! id)).
Proof.
  intros Hold Hnew r. subst r. unfold setActiveLanesWithFlexPortApi. cbv zeta.
  rewrite bind_gets.
  rewrite (bind_Ret _ _ _ _ _ (quiesce_accepted (allPorts_ st) st)).
  unfold builder_removePorts, builder_addPorts, builder_program.
  rewrite (bind_Ret _ _ _ _ _ (checked_call_ok env _ _ (accepts _ _))).
  rewrite bind_assoc.
  rewrite (bind_Ret _ _ _ _ _ (checked_call_ok env _ _ (accepts _ _))).
  rewrite (bind_Ret _ _ _ (builderAdded env desiredLaneMode ports) _ eq_refl).
  rewrite (bind_Ret _ _ _ _ _ (checked_call_ok env _ _ (accepts _ _))).
  rewrite bind_gets.
  set (sB := log BuilderProgram _).
  destruct (removeLoop_eq (allPorts_ st) sB) as (sC & HC & HCc & HCa & HCm & _ & _ & HCp).
  rewrite (bind_Ret _ _ _ _ _ HC).
  destruct (addToPortTable_eq env (builderAdded env desiredLaneMode ports) sC)
    as (newPorts & sD & HD & HDc & HDa & HDm & _ & _ & _ & _ & _ & HDin & HDout).
  rewrite (bind_Ret _ _ _ _ _ HD).
  assert (Hlookup : portTable sD !! getPortID (controllingPort_ st) = None).
  { rewrite (HDout _ Hnew), HCp.
    destruct (decide (getPortID (controllingPort_ st) ∈ getPortID <$> allPorts_ st));
      [reflexivity|contradiction]. }
  change (controllingPort_ sB) with (controllingPort_ st).
  rewrite (bind_Throw _ _ _ _ _ (getBcmPort_missing _ _ Hlookup)). cbn [fst snd].
  split; [reflexivity|]. split; [rewrite HDa, HCa; reflexivity|].
  split; [rewrite HDc, HCc; reflexivity|]. split; [rewrite HDm, HCm; reflexivity|].
  split.
  - intros id Hin Hout. rewrite (HDout id Hout), HCp.
    destruct (decide (id ∈ getPortID <$> allPorts_ st)); [reflexivity|contradiction].
  - intros id Hin. destruct (HDin id Hin) as (bcmPort & _ & Hb & _). rewrite Hb. eauto.
Qed.

End FlexAccepted.

(** The builder adds port 2 only, while port 1 is the controlling port. *)
Lemma setActiveLanesWithFlexPortApi_controlling_port_lost_witness :
  let ports := [Example.swPort 1 false XG; Example.swPort 2 true XG] in
  let r := setActiveLanesWithFlexPortApi (Example.flexEnv true) ports SINGLE
             (Example.group true QUAD) in
  r.1 = Throw (BcmPortNotFound 1) /\ portTable r.2 !! 1 = None /\
  getPortID <$> allPorts_ r.2 = [1; 2; 3; 4].
Proof.
  intros ports r.
  destruct (setActiveLanesWithFlexPortApi_controlling_port_lost (Example.flexEnv true)
              (fun _ _ => Z.le_refl 0) ports SINGLE (Example.group true QUAD))
    as (Hthrow & Hmembers & _ & _ & Hgone & _).
  - left.
  - intros Hin. apply list_elem_of_singleton in Hin. discriminate Hin.
  - fold r in Hthrow, Hmembers, Hgone. split; [exact Hthrow|]. split.
    + apply Hgone; [left|]. intros Hin. apply list_elem_of_singleton in Hin.
      discriminate Hin.
    + rewrite Hmembers. reflexivity.
Defined.

(** ** [reconfigureIfNeeded] and [validConfiguration] together *)

Lemma validConfiguration_true env state st ports m :
  (getSwPorts env state st).1 = Ret ports ->
  (desiredLaneModeOf env ports st).1 = Ret m ->
  (validConfiguration env state st).1 = Ret true.
Proof.
  intros Hp Hm. unfold validConfiguration, M_try_catch.
  rewrite (bind_read_only _ _ st (getSwPorts_read_only env state)), Hp.
  rewrite (bind_read_only _ _ st (desiredLaneModeOf_read_only env ports)), Hm.
  reflexivity.
Qed.

(** X19. A configuration that [validConfiguration] rejects is never
    applied: [reconfigureIfNeeded] towards it, from any old state, throws
    and leaves the state as it found it, so no call is made. *)
Theorem reconfigureIfNeeded_rejected (env : Env) (oldState newState : SwitchState)
    (st : State) :
  (validConfiguration env newState st).1 = Ret false ->
  (reconfigureIfNeeded env oldState newState st).1 <> Ret tt /\
  (reconfigureIfNeeded env oldState newState st).2 = st.
Proof.
  intros Hrejected.
  destruct (reconfigureIfNeeded_early env oldState newState st) as [Hst Hret]; [|auto].
  intros oldPorts newPorts desired _ Hn Hd.
  rewrite (validConfiguration_true env newState st newPorts desired Hn Hd) in Hrejected.
  discriminate Hrejected.
Qed.

(** A new state with an enabled port at the DEFAULT speed. *)
Lemma reconfigureIfNeeded_rejected_witness :
  let newState := {| getPorts := [Example.swPort 1 true DEFAULT; Example.swPort 2 true XG;
                                  Example.swPort 3 true XG; Example.swPort 4 true XG] |} in
  (reconfigureIfNeeded Example.legacyEnv {| getPorts := Example.fourTenG |} newState
     (Example.group false SINGLE)).2 = Example.group false SINGLE.
Proof.
  intros newState.
  apply (reconfigureIfNeeded_rejected Example.legacyEnv {| getPorts := Example.fourTenG |}
           newState (Example.group false SINGLE)).
  reflexivity.
Defined.

Lemma speedChangeNotifications_not_hw oldPorts newPorts members :
  Forall (fun e => hw_mutating e = false /\ is_linkSpeedChanged e = true)
    (speedChangeNotifications oldPorts newPorts members).
Proof.
  apply Forall_forall. intros e He.
  apply elem_of_speedChangeNotifications in He as (? & ? & ? & _ & _ & _ & _ & ->).
  split; reflexivity.
Qed.

(** X20. When the new ports ask for the lane mode the group already has,
    [reconfigureIfNeeded] returns without touching the hardware: all it
    records are the [linkSpeedChanged] notifications of the members whose
    speed differs between the old and the new ports, and the group, the
    port table and the lane mode stay as they are. *)
Theorem reconfigureIfNeeded_speed_only (env : Env) (oldState newState : SwitchState)
    (st : State) (oldPorts newPorts : list Port) :
  (getSwPorts env oldState st).1 = Ret oldPorts ->
  (getSwPorts env newState st).1 = Ret newPorts ->
  (desiredLaneModeOf env newPorts st).1 = Ret (laneMode_ st) ->
  reconfigureIfNeeded env oldState newState st
  = (Ret tt, logs (speedChangeNotifications oldPorts newPorts (allPorts_ st)) st) /\
  Forall (fun e => hw_mutating e = false /\ is_linkSpeedChanged e = true)
    (speedChangeNotifications oldPorts newPorts (allPorts_ st)).
Proof.
  intros Ho Hn Hd. split; [|apply speedChangeNotifications_not_hw].
  rewrite (reconfigureIfNeeded_eq env oldState newState st oldPorts newPorts _ Ho Hn Hd).
  rewrite Z.eqb_refl. reflexivity.
Qed.

(** Four 10G ports set to 25G: the group stays in SINGLE mode and every
    member is told of its new speed. *)
Lemma reconfigureIfNeeded_speed_only_witness :
  let to25G := [Example.swPort 1 true TWENTYFIVEG; Example.swPort 2 true TWENTYFIVEG;
                Example.swPort 3 true TWENTYFIVEG; Example.swPort 4 true TWENTYFIVEG] in
  trace (reconfigureIfNeeded Example.legacyEnv {| getPorts := Example.fourTenG |}
           {| getPorts := to25G |} (Example.group false SINGLE)).2
  = [LinkSpeedChanged 1 TWENTYFIVEG; LinkSpeedChanged 2 TWENTYFIVEG;
     LinkSpeedChanged 3 TWENTYFIVEG; LinkSpeedChanged 4 TWENTYFIVEG].
Proof.
  intros to25G.
  destruct (reconfigureIfNeeded_speed_only Example.legacyEnv
              {| getPorts := Example.fourTenG |} {| getPorts := to25G |}
              (Example.group false SINGLE) Example.fourTenG to25G
              eq_refl eq_refl eq_refl) as [Hrun _].
  rewrite Hrun. reflexivity.
Defined.

(** *** After a legacy reconfiguration *)

Lemma keeps_gets {A X} (proj : State -> X) (g : State -> A) : keeps proj (gets g).
Proof. intros st. reflexivity. Qed.

Lemma keeps_getBcmPort {X} (proj : State -> X) id : keeps proj (getBcmPort id).
Proof.
  apply keeps_bind; [apply keeps_gets|]. intros table.
  destruct (table !! id); [apply keeps_ret|apply keeps_lift].
Qed.

Lemma enableLinkscanLoop_keeps {X} (proj : State -> X) env newPorts :
  (forall e st, proj (log e st) = proj st) ->
  keeps proj (forM_ newPorts (fun swPort =>
    bcmPort ← getBcmPort (getID swPort);
    if isEnabled swPort then enableLinkscan env bcmPort else mret tt)).
Proof.
  intros Hlog. apply keeps_forM_. intros swPort.
  apply keeps_bind; [apply keeps_getBcmPort|]. intros bcmPort.
  destruct (isEnabled swPort); [|apply keeps_ret].
  apply keeps_checked_call. intros st. apply Hlog.
Qed.

Lemma setActiveLanes_legacy_Ret env ports desiredLaneMode st st' :
  shouldUsePortResourceAPIs (controllingPort_ st) = false ->
  setActiveLanes env ports desiredLaneMode st = (Ret tt, st') ->
  laneMode_ st' = desiredLaneMode /\
  controllingPort_ st' = controllingPort_ st /\ allPorts_ st' = allPorts_ st.
Proof.
  intros Hlegacy. unfold setActiveLanes.
  rewrite bind_gets, Hlegacy, bind_gets, !setLanesControl_checked. intros H.
  apply bind_Ret_inv in H as ([] & s1 & H1 & H).
  apply bind_Ret_inv in H as ([] & s2 & H2 & H3).
  injection H3 as <-. apply checked_call_Ret_inv in H2. subst s2.
  assert (controllingPort_ s1 = controllingPort_ st /\ allPorts_ s1 = allPorts_ st)
    as [Hc Ha].
  { destruct (_ || _).
    - apply checked_call_Ret_inv in H1. subst s1. split; reflexivity.
    - injection H1 as <-. split; reflexivity. }
  split; [reflexivity|]. split; assumption.
Qed.

Lemma reconfigureLaneMode_legacy_Ret env oldPorts newPorts newLaneMode st st' :
  shouldUsePortResourceAPIs (controllingPort_ st) = false ->
  reconfigureLaneMode env oldPorts newPorts newLaneMode st = (Ret tt, st') ->
  laneMode_ st' = newLaneMode /\
  controllingPort_ st' = controllingPort_ st /\ allPorts_ st' = allPorts_ st.
Proof.
  intros Hlegacy. unfold reconfigureLaneMode. rewrite bind_gets. intros H.
  apply bind_Ret_inv in H as ([] & s1 & H1 & H).
  apply bind_Ret_inv in H as ([] & s2 & H2 & H3).
  pose proof (disableMembers_keeps controllingPort_ env oldPorts (allPorts_ st)
                ltac:(reflexivity) st) as Hc1.
  pose proof (disableMembers_keeps allPorts_ env oldPorts (allPorts_ st)
                ltac:(reflexivity) st) as Ha1.
  rewrite H1 in Hc1, Ha1. simpl in Hc1, Ha1.
  apply setActiveLanes_legacy_Ret in H2 as (Hm2 & Hc2 & Ha2); [|rewrite Hc1; exact Hlegacy].
  pose proof (enableLinkscanLoop_keeps laneMode_ env newPorts ltac:(reflexivity) s2) as Hm3.
  pose proof (enableLinkscanLoop_keeps controllingPort_ env newPorts ltac:(reflexivity) s2)
    as Hc3.
  pose proof (enableLinkscanLoop_keeps allPorts_ env newPorts ltac:(reflexivity) s2) as Ha3.
  rewrite H3 in Hm3, Hc3, Ha3. simpl in Hm3, Hc3, Ha3.
  split; [congruence|]. split; congruence.
Qed.

(** What [getSwPorts] and the calculation read of the group. *)
Lemma getSwPorts_same_group env state st st' :
  controllingPort_ st' = controllingPort_ st -> allPorts_ st' = allPorts_ st ->
  (getSwPorts env state st').1 = (getSwPorts env state st).1.
Proof.
  intros Hc Ha. unfold getSwPorts. destruct (negb _).
  - rewrite !bind_gets, Hc. reflexivity.
  - rewrite !bind_gets, Ha. reflexivity.
Qed.

Lemma desiredLaneModeOf_same_group env ports st st' :
  controllingPort_ st' = controllingPort_ st ->
  (desiredLaneModeOf env ports st').1 = (desiredLaneModeOf env ports st).1.
Proof. intros Hc. rewrite !desiredLaneModeOf_eq, Hc. reflexivity. Qed.

(** X21. On a legacy platform, once [reconfigureIfNeeded] has returned
    for a new state, calling it again with that state as old and new
    state returns and leaves everything as it is: the group is in the
    lane mode the state asks for, and nothing is written or notified. *)
Theorem reconfigureIfNeeded_legacy_settled (env : Env) (oldState newState : SwitchState)
    (st st' : State) :
  shouldUsePortResourceAPIs (controllingPort_ st) = false ->
  reconfigureIfNeeded env oldState newState st = (Ret tt, st') ->
  reconfigureIfNeeded env newState newState st' = (Ret tt, st') /\
  (forall newPorts, (getSwPorts env newState st).1 = Ret newPorts ->
     (desiredLaneModeOf env newPorts st).1 = Ret (laneMode_ st')).
Proof.
  intros Hlegacy Hrun.
  destruct (getSwPorts env oldState st).1 as [oldPorts|e|] eqn:Ho;
    [|destruct (reconfigureIfNeeded_early env oldState newState st) as [_ Hr];
      [intros ? ? ? H1; rewrite Ho in H1; discriminate
      |rewrite Hrun in Hr; contradiction]..].
  destruct (getSwPorts env newState st).1 as [newPorts|e|] eqn:Hn;
    [|destruct (reconfigureIfNeeded_early env oldState newState st) as [_ Hr];
      [intros ? ? ? _ H2; rewrite Hn in H2; discriminate
      |rewrite Hrun in Hr; contradiction]..].
  destruct (desiredLaneModeOf env newPorts st).1 as [desired|e|] eqn:Hd;
    [|destruct (reconfigureIfNeeded_early env oldState newState st) as [_ Hr];
      [intros ? ? ? _ H2 H3; rewrite Hn in H2; injection H2 as <-;
       rewrite Hd in H3; discriminate
      |rewrite Hrun in Hr; contradiction]..].
  rewrite (reconfigureIfNeeded_eq env oldState newState st oldPorts newPorts desired
             Ho Hn Hd) in Hrun.
  assert (Hgroup : laneMode_ st' = desired /\ controllingPort_ st' = controllingPort_ st /\
                   allPorts_ st' = allPorts_ st).
  { revert Hrun. cbv zeta. destruct (Z.eqb_spec desired (laneMode_ st)) as [Heq|Hne].
    - simpl. intros [= <-]. simpl. auto.
    - simpl.
      destruct (reconfigureLaneMode env oldPorts newPorts desired st)
        as [[[]|e|] stT] eqn:HT; simpl; [|discriminate..].
      intros [= <-]. simpl.
      exact (reconfigureLaneMode_legacy_Ret env oldPorts newPorts desired st stT Hlegacy HT). }
  destruct Hgroup as (Hm & Hc & Ha).
  split.
  - assert (Hn' : (getSwPorts env newState st').1 = Ret newPorts)
      by (rewrite (getSwPorts_same_group env newState st st' Hc Ha); exact Hn).
    assert (Hd' : (desiredLaneModeOf env newPorts st').1 = Ret desired)
      by (rewrite (desiredLaneModeOf_same_group env newPorts st st' Hc); exact Hd).
    rewrite (reconfigureIfNeeded_eq env newState newState st' newPorts newPorts desired
               Hn' Hn' Hd').
    rewrite Hm, Z.eqb_refl. simpl. rewrite speedChangeNotifications_same, logs_nil.
    reflexivity.
  - intros ports [= <-]. rewrite Hm. exact Hd.
Qed.

Lemma reconfigureIfNeeded_legacy_settled_witness :
  let st' := (reconfigureIfNeeded Example.legacyEnv {| getPorts := Example.fourTenG |}
                {| getPorts := Example.oneFortyG |} (Example.group false SINGLE)).2 in
  reconfigureIfNeeded Example.legacyEnv {| getPorts := Example.oneFortyG |}
    {| getPorts := Example.oneFortyG |} st' = (Ret tt, st').
Proof.
  intros st'.
  pose proof (surjective_pairing
                (reconfigureIfNeeded Example.legacyEnv {| getPorts := Example.fourTenG |}
                   {| getPorts := Example.oneFortyG |} (Example.group false SINGLE)))
    as Hrun.
  assert (Hret : (reconfigureIfNeeded Example.legacyEnv {| getPorts := Example.fourTenG |}
                    {| getPorts := Example.oneFortyG |} (Example.group false SINGLE)).1
                 = Ret tt) by (vm_compute; reflexivity).
  rewrite Hret in Hrun. fold st' in Hrun.
  exact (proj1 (reconfigureIfNeeded_legacy_settled Example.legacyEnv
                  {| getPorts := Example.fourTenG |} {| getPorts := Example.oneFortyG |}
                  (Example.group false SINGLE) st' eq_refl Hrun)).
Defined.

(** ** Order of the members under reconfiguration *)
















(** * Other classes *)



(** X23. The SAI checks agree with one another: [saiApiCheckError]
    throws exactly when the status is not the success status, and the
    error then answers the status and the API type it was raised with, so
    a thrown error never carries the success status; [saiCheckError] is
    the same check under the unspecified API type; [saiLogError] never
    throws and writes a line exactly when the check would throw. *)
Theorem saiCheckError_agree (SAI_STATUS_SUCCESS : Sai.sai_status_t)
    (SAI_API_UNSPECIFIED : Sai.sai_api_t)
    (saiApiTypeToString : Sai.sai_api_t -> string)
    (statusToString streamStatus : Sai.sai_status_t -> string)
    (status : Sai.sai_status_t) (apiType : Sai.sai_api_t) (args : list string) :
  let check := Sai.saiApiCheckError SAI_STATUS_SUCCESS saiApiTypeToString statusToString in
  (check status apiType args = None <-> status = SAI_STATUS_SUCCESS) /\
  (forall e, check status apiType args = Some e ->
     Sai.getSaiStatus e = status /\ Sai.getSaiApiType e = apiType /\
     Sai.getSaiStatus e <> SAI_STATUS_SUCCESS) /\
  Sai.saiCheckError SAI_STATUS_SUCCESS SAI_API_UNSPECIFIED saiApiTypeToString statusToString
    status args = check status SAI_API_UNSPECIFIED args /\
  (is_Some (Sai.saiLogError SAI_STATUS_SUCCESS saiApiTypeToString streamStatus
              status apiType args) <-> is_Some (check status apiType args)).
Proof.
  intros check. subst check. unfold Sai.saiApiCheckError, Sai.saiCheckError, Sai.saiLogError.
  destruct (Z.eqb_spec status SAI_STATUS_SUCCESS) as [Heq|Hne]; simpl.
  - split; [tauto|]. split; [discriminate|]. split; [reflexivity|].
    split; intros [? H]; discriminate H.
  - split; [split; [discriminate|contradiction]|].
    split; [intros e [= <-]; simpl; auto|]. split; [reflexivity|].
    split; eauto.
Qed.

Lemma saiCheckError_agree_witness :
  exists e, Sai.saiApiCheckError 0 (fun _ => "port"%string) (fun _ => "-1"%string)
              (-1) 2 ["create"%string] = Some e /\
            Sai.getSaiStatus e = -1 /\ Sai.getSaiApiType e = 2.
Proof.
  destruct (saiCheckError_agree 0 0 (fun _ => "port"%string) (fun _ => "-1"%string)
              (fun _ => "-1"%string) (-1) 2 ["create"%string]) as (_ & Hget & _).
  eexists. split; [reflexivity|].
  destruct (Hget _ eq_refl) as (Hs & Ha & _). split; assumption.
Defined.
